(** * Pulse Scoring Engine (version 2.0): a shallow embedding

    The engine of [PulseScoringService]: seven category scorers, the
    confidence and coverage evaluator, the insufficient-data gate, the
    weight-renormalising aggregator and the recommendation synthesiser.

    How JavaScript values are represented:
    - a number that is the result of fractional arithmetic (weights, coverage,
      confidence, listing averages) and every number read from the seller
      profile is a binary64 [float], computed with the kernel's IEEE 754
      operations, so roundings are the ones the engine performs;
    - a number that is an integer by construction (scores, penalties, array
      lengths, values returned by [Math.round]) is a [Z]; all such values
      stay far below 2^53, where binary64 arithmetic on integers is exact;
    - an integer parsed from a text is an exact [Z], compared exactly; where
      the engine stores it, it is stored as its binary64 value;
    - a string is the list of its code points; case mapping is the Unicode
      Default Case Conversion the language prescribes;
    - an [undefined] or [null] field is [None]; a missing or [null]
      [recentListings] is the empty list, which every scorer treats alike.

    The inputs are typed as the extraction layer produces them (strings
    where the engine calls string methods, numbers where it compares), so no
    scorer can raise and the engine is a total function. *)

From Stdlib Require Import ZArith NArith List Bool Lia String Ascii QArith Qabs.
From Stdlib Require Import PrimFloat FloatOps SpecFloat Uint63.
Import ListNotations.

Set Warnings "-inexact-float".

Open Scope Z_scope.

(** ** Numbers *)

(** The binary64 value of an integer. *)
Definition Z2F (n : Z) : float :=
  if n <? 0 then PrimFloat.opp (PrimFloat.of_uint63 (Uint63.of_Z (- n)))
  else PrimFloat.of_uint63 (Uint63.of_Z n).

(** The Number value of an integer of any size: the nearest binary64, ties
    to even, infinite beyond the range. *)
Definition numberOfZ (n : Z) : float :=
  SF2Prim (binary_normalize 53 1024 n 0 false).

Module Math.

(** [Math.round]: the nearest integer, ties towards +infinity. The argument
    is decoded to [(-1)^s * m * 2^e] and rounded exactly. NaN and the
    infinities have no integer value; the engine never rounds one. *)
Definition round (x : float) : Z :=
  match Prim2SF x with
  | S754_finite s m e =>
      let mz := if s then Z.neg m else Z.pos m in
      if 0 <=? e then mz * 2 ^ e
      else (2 * mz + 2 ^ (- e)) / 2 ^ (1 - e)
  | _ => 0
  end.

(** [Math.min] on two numbers. *)
Definition min (a b : float) : float :=
  if PrimFloat.is_nan a || PrimFloat.is_nan b then PrimFloat.nan
  else if PrimFloat.ltb b a then b else a.

End Math.

(** [x || 0] on a possibly missing number: [undefined], [null], [NaN] and
    zero are falsy. *)
Definition truthyNum (x : float) : bool :=
  negb (PrimFloat.is_nan x || PrimFloat.is_zero x).

Definition orZero (x : option float) : float :=
  match x with
  | Some v => if truthyNum v then v else 0%float
  | None => 0%float
  end.

(** [x >= c] when [x] may be [undefined]: the comparison is then false. *)
Definition geNum (x : option float) (c : float) : bool :=
  match x with
  | Some v => PrimFloat.leb c v
  | None => false
  end.

(** ** Strings *)

Definition jsstring := list N.

(** A literal, from its ASCII spelling. *)
Definition lit (s : string) : jsstring :=
  map N_of_ascii (list_ascii_of_string s).

(** ** Case mapping

    [String.prototype.toLowerCase] and [toUpperCase] use the Unicode Default
    Case Conversion: the mappings of UnicodeData.txt, the unconditional
    mappings of SpecialCasing.txt and its Final_Sigma rule, none of them
    locale-dependent. The tables are those of Unicode 14.0. *)

(** The simple lower-case mappings of UnicodeData.txt, as runs. *)
Definition lowerCaseRuns : list (N * N * N * N) :=
  [
    (0x41, 0x5A, 1, 0x61); (0xC0, 0xD6, 1, 0xE0); (0xD8, 0xDE, 1, 0xF8);
    (0x100, 0x12E, 2, 0x101); (0x132, 0x136, 2, 0x133); (0x139, 0x147, 2, 0x13A);
    (0x14A, 0x176, 2, 0x14B); (0x178, 0x178, 1, 0xFF); (0x179, 0x17D, 2, 0x17A);
    (0x181, 0x181, 1, 0x253); (0x182, 0x184, 2, 0x183); (0x186, 0x186, 1, 0x254);
    (0x187, 0x187, 1, 0x188); (0x189, 0x18A, 1, 0x256); (0x18B, 0x18B, 1, 0x18C);
    (0x18E, 0x18E, 1, 0x1DD); (0x18F, 0x18F, 1, 0x259); (0x190, 0x190, 1, 0x25B);
    (0x191, 0x191, 1, 0x192); (0x193, 0x193, 1, 0x260); (0x194, 0x194, 1, 0x263);
    (0x196, 0x196, 1, 0x269); (0x197, 0x197, 1, 0x268); (0x198, 0x198, 1, 0x199);
    (0x19C, 0x19C, 1, 0x26F); (0x19D, 0x19D, 1, 0x272); (0x19F, 0x19F, 1, 0x275);
    (0x1A0, 0x1A4, 2, 0x1A1); (0x1A6, 0x1A6, 1, 0x280); (0x1A7, 0x1A7, 1, 0x1A8);
    (0x1A9, 0x1A9, 1, 0x283); (0x1AC, 0x1AC, 1, 0x1AD); (0x1AE, 0x1AE, 1, 0x288);
    (0x1AF, 0x1AF, 1, 0x1B0); (0x1B1, 0x1B2, 1, 0x28A); (0x1B3, 0x1B5, 2, 0x1B4);
    (0x1B7, 0x1B7, 1, 0x292); (0x1B8, 0x1B8, 1, 0x1B9); (0x1BC, 0x1BC, 1, 0x1BD);
    (0x1C4, 0x1C4, 1, 0x1C6); (0x1C5, 0x1C5, 1, 0x1C6); (0x1C7, 0x1C7, 1, 0x1C9);
    (0x1C8, 0x1C8, 1, 0x1C9); (0x1CA, 0x1CA, 1, 0x1CC); (0x1CB, 0x1DB, 2, 0x1CC);
    (0x1DE, 0x1EE, 2, 0x1DF); (0x1F1, 0x1F1, 1, 0x1F3); (0x1F2, 0x1F4, 2, 0x1F3);
    (0x1F6, 0x1F6, 1, 0x195); (0x1F7, 0x1F7, 1, 0x1BF); (0x1F8, 0x21E, 2, 0x1F9);
    (0x220, 0x220, 1, 0x19E); (0x222, 0x232, 2, 0x223); (0x23A, 0x23A, 1, 0x2C65);
    (0x23B, 0x23B, 1, 0x23C); (0x23D, 0x23D, 1, 0x19A); (0x23E, 0x23E, 1, 0x2C66);
    (0x241, 0x241, 1, 0x242); (0x243, 0x243, 1, 0x180); (0x244, 0x244, 1, 0x289);
    (0x245, 0x245, 1, 0x28C); (0x246, 0x24E, 2, 0x247); (0x370, 0x372, 2, 0x371);
    (0x376, 0x376, 1, 0x377); (0x37F, 0x37F, 1, 0x3F3); (0x386, 0x386, 1, 0x3AC);
    (0x388, 0x38A, 1, 0x3AD); (0x38C, 0x38C, 1, 0x3CC); (0x38E, 0x38F, 1, 0x3CD);
    (0x391, 0x3A1, 1, 0x3B1); (0x3A3, 0x3AB, 1, 0x3C3); (0x3CF, 0x3CF, 1, 0x3D7);
    (0x3D8, 0x3EE, 2, 0x3D9); (0x3F4, 0x3F4, 1, 0x3B8); (0x3F7, 0x3F7, 1, 0x3F8);
    (0x3F9, 0x3F9, 1, 0x3F2); (0x3FA, 0x3FA, 1, 0x3FB); (0x3FD, 0x3FF, 1, 0x37B);
    (0x400, 0x40F, 1, 0x450); (0x410, 0x42F, 1, 0x430); (0x460, 0x480, 2, 0x461);
    (0x48A, 0x4BE, 2, 0x48B); (0x4C0, 0x4C0, 1, 0x4CF); (0x4C1, 0x4CD, 2, 0x4C2);
    (0x4D0, 0x52E, 2, 0x4D1); (0x531, 0x556, 1, 0x561); (0x10A0, 0x10C5, 1, 0x2D00);
    (0x10C7, 0x10C7, 1, 0x2D27); (0x10CD, 0x10CD, 1, 0x2D2D);
    (0x13A0, 0x13EF, 1, 0xAB70); (0x13F0, 0x13F5, 1, 0x13F8);
    (0x1C90, 0x1CBA, 1, 0x10D0); (0x1CBD, 0x1CBF, 1, 0x10FD);
    (0x1E00, 0x1E94, 2, 0x1E01); (0x1E9E, 0x1E9E, 1, 0xDF); (0x1EA0, 0x1EFE, 2, 0x1EA1);
    (0x1F08, 0x1F0F, 1, 0x1F00); (0x1F18, 0x1F1D, 1, 0x1F10);
    (0x1F28, 0x1F2F, 1, 0x1F20); (0x1F38, 0x1F3F, 1, 0x1F30);
    (0x1F48, 0x1F4D, 1, 0x1F40); (0x1F59, 0x1F5F, 2, 0x1F51);
    (0x1F68, 0x1F6F, 1, 0x1F60); (0x1F88, 0x1F8F, 1, 0x1F80);
    (0x1F98, 0x1F9F, 1, 0x1F90); (0x1FA8, 0x1FAF, 1, 0x1FA0);
    (0x1FB8, 0x1FB9, 1, 0x1FB0); (0x1FBA, 0x1FBB, 1, 0x1F70);
    (0x1FBC, 0x1FBC, 1, 0x1FB3); (0x1FC8, 0x1FCB, 1, 0x1F72);
    (0x1FCC, 0x1FCC, 1, 0x1FC3); (0x1FD8, 0x1FD9, 1, 0x1FD0);
    (0x1FDA, 0x1FDB, 1, 0x1F76); (0x1FE8, 0x1FE9, 1, 0x1FE0);
    (0x1FEA, 0x1FEB, 1, 0x1F7A); (0x1FEC, 0x1FEC, 1, 0x1FE5);
    (0x1FF8, 0x1FF9, 1, 0x1F78); (0x1FFA, 0x1FFB, 1, 0x1F7C);
    (0x1FFC, 0x1FFC, 1, 0x1FF3); (0x2126, 0x2126, 1, 0x3C9); (0x212A, 0x212A, 1, 0x6B);
    (0x212B, 0x212B, 1, 0xE5); (0x2132, 0x2132, 1, 0x214E); (0x2160, 0x216F, 1, 0x2170);
    (0x2183, 0x2183, 1, 0x2184); (0x24B6, 0x24CF, 1, 0x24D0);
    (0x2C00, 0x2C2F, 1, 0x2C30); (0x2C60, 0x2C60, 1, 0x2C61);
    (0x2C62, 0x2C62, 1, 0x26B); (0x2C63, 0x2C63, 1, 0x1D7D); (0x2C64, 0x2C64, 1, 0x27D);
    (0x2C67, 0x2C6B, 2, 0x2C68); (0x2C6D, 0x2C6D, 1, 0x251); (0x2C6E, 0x2C6E, 1, 0x271);
    (0x2C6F, 0x2C6F, 1, 0x250); (0x2C70, 0x2C70, 1, 0x252); (0x2C72, 0x2C72, 1, 0x2C73);
    (0x2C75, 0x2C75, 1, 0x2C76); (0x2C7E, 0x2C7F, 1, 0x23F);
    (0x2C80, 0x2CE2, 2, 0x2C81); (0x2CEB, 0x2CED, 2, 0x2CEC);
    (0x2CF2, 0x2CF2, 1, 0x2CF3); (0xA640, 0xA66C, 2, 0xA641);
    (0xA680, 0xA69A, 2, 0xA681); (0xA722, 0xA72E, 2, 0xA723);
    (0xA732, 0xA76E, 2, 0xA733); (0xA779, 0xA77B, 2, 0xA77A);
    (0xA77D, 0xA77D, 1, 0x1D79); (0xA77E, 0xA786, 2, 0xA77F);
    (0xA78B, 0xA78B, 1, 0xA78C); (0xA78D, 0xA78D, 1, 0x265);
    (0xA790, 0xA792, 2, 0xA791); (0xA796, 0xA7A8, 2, 0xA797);
    (0xA7AA, 0xA7AA, 1, 0x266); (0xA7AB, 0xA7AB, 1, 0x25C); (0xA7AC, 0xA7AC, 1, 0x261);
    (0xA7AD, 0xA7AD, 1, 0x26C); (0xA7AE, 0xA7AE, 1, 0x26A); (0xA7B0, 0xA7B0, 1, 0x29E);
    (0xA7B1, 0xA7B1, 1, 0x287); (0xA7B2, 0xA7B2, 1, 0x29D); (0xA7B3, 0xA7B3, 1, 0xAB53);
    (0xA7B4, 0xA7C2, 2, 0xA7B5); (0xA7C4, 0xA7C4, 1, 0xA794);
    (0xA7C5, 0xA7C5, 1, 0x282); (0xA7C6, 0xA7C6, 1, 0x1D8E);
    (0xA7C7, 0xA7C9, 2, 0xA7C8); (0xA7D0, 0xA7D0, 1, 0xA7D1);
    (0xA7D6, 0xA7D8, 2, 0xA7D7); (0xA7F5, 0xA7F5, 1, 0xA7F6);
    (0xFF21, 0xFF3A, 1, 0xFF41); (0x10400, 0x10427, 1, 0x10428);
    (0x104B0, 0x104D3, 1, 0x104D8); (0x10570, 0x1057A, 1, 0x10597);
    (0x1057C, 0x1058A, 1, 0x105A3); (0x1058C, 0x10592, 1, 0x105B3);
    (0x10594, 0x10595, 1, 0x105BB); (0x10C80, 0x10CB2, 1, 0x10CC0);
    (0x118A0, 0x118BF, 1, 0x118C0); (0x16E40, 0x16E5F, 1, 0x16E60);
    (0x1E900, 0x1E921, 1, 0x1E922)
  ]%N.

(** The simple upper-case mappings of UnicodeData.txt, as runs. *)
Definition upperCaseRuns : list (N * N * N * N) :=
  [
    (0x61, 0x7A, 1, 0x41); (0xB5, 0xB5, 1, 0x39C); (0xE0, 0xF6, 1, 0xC0);
    (0xF8, 0xFE, 1, 0xD8); (0xFF, 0xFF, 1, 0x178); (0x101, 0x12F, 2, 0x100);
    (0x131, 0x131, 1, 0x49); (0x133, 0x137, 2, 0x132); (0x13A, 0x148, 2, 0x139);
    (0x14B, 0x177, 2, 0x14A); (0x17A, 0x17E, 2, 0x179); (0x17F, 0x17F, 1, 0x53);
    (0x180, 0x180, 1, 0x243); (0x183, 0x185, 2, 0x182); (0x188, 0x188, 1, 0x187);
    (0x18C, 0x18C, 1, 0x18B); (0x192, 0x192, 1, 0x191); (0x195, 0x195, 1, 0x1F6);
    (0x199, 0x199, 1, 0x198); (0x19A, 0x19A, 1, 0x23D); (0x19E, 0x19E, 1, 0x220);
    (0x1A1, 0x1A5, 2, 0x1A0); (0x1A8, 0x1A8, 1, 0x1A7); (0x1AD, 0x1AD, 1, 0x1AC);
    (0x1B0, 0x1B0, 1, 0x1AF); (0x1B4, 0x1B6, 2, 0x1B3); (0x1B9, 0x1B9, 1, 0x1B8);
    (0x1BD, 0x1BD, 1, 0x1BC); (0x1BF, 0x1BF, 1, 0x1F7); (0x1C5, 0x1C5, 1, 0x1C4);
    (0x1C6, 0x1C6, 1, 0x1C4); (0x1C8, 0x1C8, 1, 0x1C7); (0x1C9, 0x1C9, 1, 0x1C7);
    (0x1CB, 0x1CB, 1, 0x1CA); (0x1CC, 0x1CC, 1, 0x1CA); (0x1CE, 0x1DC, 2, 0x1CD);
    (0x1DD, 0x1DD, 1, 0x18E); (0x1DF, 0x1EF, 2, 0x1DE); (0x1F2, 0x1F2, 1, 0x1F1);
    (0x1F3, 0x1F3, 1, 0x1F1); (0x1F5, 0x1F5, 1, 0x1F4); (0x1F9, 0x21F, 2, 0x1F8);
    (0x223, 0x233, 2, 0x222); (0x23C, 0x23C, 1, 0x23B); (0x23F, 0x240, 1, 0x2C7E);
    (0x242, 0x242, 1, 0x241); (0x247, 0x24F, 2, 0x246); (0x250, 0x250, 1, 0x2C6F);
    (0x251, 0x251, 1, 0x2C6D); (0x252, 0x252, 1, 0x2C70); (0x253, 0x253, 1, 0x181);
    (0x254, 0x254, 1, 0x186); (0x256, 0x257, 1, 0x189); (0x259, 0x259, 1, 0x18F);
    (0x25B, 0x25B, 1, 0x190); (0x25C, 0x25C, 1, 0xA7AB); (0x260, 0x260, 1, 0x193);
    (0x261, 0x261, 1, 0xA7AC); (0x263, 0x263, 1, 0x194); (0x265, 0x265, 1, 0xA78D);
    (0x266, 0x266, 1, 0xA7AA); (0x268, 0x268, 1, 0x197); (0x269, 0x269, 1, 0x196);
    (0x26A, 0x26A, 1, 0xA7AE); (0x26B, 0x26B, 1, 0x2C62); (0x26C, 0x26C, 1, 0xA7AD);
    (0x26F, 0x26F, 1, 0x19C); (0x271, 0x271, 1, 0x2C6E); (0x272, 0x272, 1, 0x19D);
    (0x275, 0x275, 1, 0x19F); (0x27D, 0x27D, 1, 0x2C64); (0x280, 0x280, 1, 0x1A6);
    (0x282, 0x282, 1, 0xA7C5); (0x283, 0x283, 1, 0x1A9); (0x287, 0x287, 1, 0xA7B1);
    (0x288, 0x288, 1, 0x1AE); (0x289, 0x289, 1, 0x244); (0x28A, 0x28B, 1, 0x1B1);
    (0x28C, 0x28C, 1, 0x245); (0x292, 0x292, 1, 0x1B7); (0x29D, 0x29D, 1, 0xA7B2);
    (0x29E, 0x29E, 1, 0xA7B0); (0x345, 0x345, 1, 0x399); (0x371, 0x373, 2, 0x370);
    (0x377, 0x377, 1, 0x376); (0x37B, 0x37D, 1, 0x3FD); (0x3AC, 0x3AC, 1, 0x386);
    (0x3AD, 0x3AF, 1, 0x388); (0x3B1, 0x3C1, 1, 0x391); (0x3C2, 0x3C2, 1, 0x3A3);
    (0x3C3, 0x3CB, 1, 0x3A3); (0x3CC, 0x3CC, 1, 0x38C); (0x3CD, 0x3CE, 1, 0x38E);
    (0x3D0, 0x3D0, 1, 0x392); (0x3D1, 0x3D1, 1, 0x398); (0x3D5, 0x3D5, 1, 0x3A6);
    (0x3D6, 0x3D6, 1, 0x3A0); (0x3D7, 0x3D7, 1, 0x3CF); (0x3D9, 0x3EF, 2, 0x3D8);
    (0x3F0, 0x3F0, 1, 0x39A); (0x3F1, 0x3F1, 1, 0x3A1); (0x3F2, 0x3F2, 1, 0x3F9);
    (0x3F3, 0x3F3, 1, 0x37F); (0x3F5, 0x3F5, 1, 0x395); (0x3F8, 0x3F8, 1, 0x3F7);
    (0x3FB, 0x3FB, 1, 0x3FA); (0x430, 0x44F, 1, 0x410); (0x450, 0x45F, 1, 0x400);
    (0x461, 0x481, 2, 0x460); (0x48B, 0x4BF, 2, 0x48A); (0x4C2, 0x4CE, 2, 0x4C1);
    (0x4CF, 0x4CF, 1, 0x4C0); (0x4D1, 0x52F, 2, 0x4D0); (0x561, 0x586, 1, 0x531);
    (0x10D0, 0x10FA, 1, 0x1C90); (0x10FD, 0x10FF, 1, 0x1CBD);
    (0x13F8, 0x13FD, 1, 0x13F0); (0x1C80, 0x1C80, 1, 0x412); (0x1C81, 0x1C81, 1, 0x414);
    (0x1C82, 0x1C82, 1, 0x41E); (0x1C83, 0x1C84, 1, 0x421); (0x1C85, 0x1C85, 1, 0x422);
    (0x1C86, 0x1C86, 1, 0x42A); (0x1C87, 0x1C87, 1, 0x462); (0x1C88, 0x1C88, 1, 0xA64A);
    (0x1D79, 0x1D79, 1, 0xA77D); (0x1D7D, 0x1D7D, 1, 0x2C63);
    (0x1D8E, 0x1D8E, 1, 0xA7C6); (0x1E01, 0x1E95, 2, 0x1E00);
    (0x1E9B, 0x1E9B, 1, 0x1E60); (0x1EA1, 0x1EFF, 2, 0x1EA0);
    (0x1F00, 0x1F07, 1, 0x1F08); (0x1F10, 0x1F15, 1, 0x1F18);
    (0x1F20, 0x1F27, 1, 0x1F28); (0x1F30, 0x1F37, 1, 0x1F38);
    (0x1F40, 0x1F45, 1, 0x1F48); (0x1F51, 0x1F57, 2, 0x1F59);
    (0x1F60, 0x1F67, 1, 0x1F68); (0x1F70, 0x1F71, 1, 0x1FBA);
    (0x1F72, 0x1F75, 1, 0x1FC8); (0x1F76, 0x1F77, 1, 0x1FDA);
    (0x1F78, 0x1F79, 1, 0x1FF8); (0x1F7A, 0x1F7B, 1, 0x1FEA);
    (0x1F7C, 0x1F7D, 1, 0x1FFA); (0x1FB0, 0x1FB1, 1, 0x1FB8);
    (0x1FBE, 0x1FBE, 1, 0x399); (0x1FD0, 0x1FD1, 1, 0x1FD8);
    (0x1FE0, 0x1FE1, 1, 0x1FE8); (0x1FE5, 0x1FE5, 1, 0x1FEC);
    (0x214E, 0x214E, 1, 0x2132); (0x2170, 0x217F, 1, 0x2160);
    (0x2184, 0x2184, 1, 0x2183); (0x24D0, 0x24E9, 1, 0x24B6);
    (0x2C30, 0x2C5F, 1, 0x2C00); (0x2C61, 0x2C61, 1, 0x2C60);
    (0x2C65, 0x2C65, 1, 0x23A); (0x2C66, 0x2C66, 1, 0x23E); (0x2C68, 0x2C6C, 2, 0x2C67);
    (0x2C73, 0x2C73, 1, 0x2C72); (0x2C76, 0x2C76, 1, 0x2C75);
    (0x2C81, 0x2CE3, 2, 0x2C80); (0x2CEC, 0x2CEE, 2, 0x2CEB);
    (0x2CF3, 0x2CF3, 1, 0x2CF2); (0x2D00, 0x2D25, 1, 0x10A0);
    (0x2D27, 0x2D27, 1, 0x10C7); (0x2D2D, 0x2D2D, 1, 0x10CD);
    (0xA641, 0xA66D, 2, 0xA640); (0xA681, 0xA69B, 2, 0xA680);
    (0xA723, 0xA72F, 2, 0xA722); (0xA733, 0xA76F, 2, 0xA732);
    (0xA77A, 0xA77C, 2, 0xA779); (0xA77F, 0xA787, 2, 0xA77E);
    (0xA78C, 0xA78C, 1, 0xA78B); (0xA791, 0xA793, 2, 0xA790);
    (0xA794, 0xA794, 1, 0xA7C4); (0xA797, 0xA7A9, 2, 0xA796);
    (0xA7B5, 0xA7C3, 2, 0xA7B4); (0xA7C8, 0xA7CA, 2, 0xA7C7);
    (0xA7D1, 0xA7D1, 1, 0xA7D0); (0xA7D7, 0xA7D9, 2, 0xA7D6);
    (0xA7F6, 0xA7F6, 1, 0xA7F5); (0xAB53, 0xAB53, 1, 0xA7B3);
    (0xAB70, 0xABBF, 1, 0x13A0); (0xFF41, 0xFF5A, 1, 0xFF21);
    (0x10428, 0x1044F, 1, 0x10400); (0x104D8, 0x104FB, 1, 0x104B0);
    (0x10597, 0x105A1, 1, 0x10570); (0x105A3, 0x105B1, 1, 0x1057C);
    (0x105B3, 0x105B9, 1, 0x1058C); (0x105BB, 0x105BC, 1, 0x10594);
    (0x10CC0, 0x10CF2, 1, 0x10C80); (0x118C0, 0x118DF, 1, 0x118A0);
    (0x16E60, 0x16E7F, 1, 0x16E40); (0x1E922, 0x1E943, 1, 0x1E900)
  ]%N.

(** The unconditional upper-case mappings of SpecialCasing.txt: code points
    whose upper case is more than one code point. *)
Definition specialUpperCase : list (N * list N) :=
  [
    (0xDF, [0x53; 0x53]); (0x149, [0x2BC; 0x4E]); (0x1F0, [0x4A; 0x30C]);
    (0x390, [0x399; 0x308; 0x301]); (0x3B0, [0x3A5; 0x308; 0x301]);
    (0x587, [0x535; 0x552]); (0x1E96, [0x48; 0x331]); (0x1E97, [0x54; 0x308]);
    (0x1E98, [0x57; 0x30A]); (0x1E99, [0x59; 0x30A]); (0x1E9A, [0x41; 0x2BE]);
    (0x1F50, [0x3A5; 0x313]); (0x1F52, [0x3A5; 0x313; 0x300]);
    (0x1F54, [0x3A5; 0x313; 0x301]); (0x1F56, [0x3A5; 0x313; 0x342]);
    (0x1F80, [0x1F08; 0x399]); (0x1F81, [0x1F09; 0x399]); (0x1F82, [0x1F0A; 0x399]);
    (0x1F83, [0x1F0B; 0x399]); (0x1F84, [0x1F0C; 0x399]); (0x1F85, [0x1F0D; 0x399]);
    (0x1F86, [0x1F0E; 0x399]); (0x1F87, [0x1F0F; 0x399]); (0x1F88, [0x1F08; 0x399]);
    (0x1F89, [0x1F09; 0x399]); (0x1F8A, [0x1F0A; 0x399]); (0x1F8B, [0x1F0B; 0x399]);
    (0x1F8C, [0x1F0C; 0x399]); (0x1F8D, [0x1F0D; 0x399]); (0x1F8E, [0x1F0E; 0x399]);
    (0x1F8F, [0x1F0F; 0x399]); (0x1F90, [0x1F28; 0x399]); (0x1F91, [0x1F29; 0x399]);
    (0x1F92, [0x1F2A; 0x399]); (0x1F93, [0x1F2B; 0x399]); (0x1F94, [0x1F2C; 0x399]);
    (0x1F95, [0x1F2D; 0x399]); (0x1F96, [0x1F2E; 0x399]); (0x1F97, [0x1F2F; 0x399]);
    (0x1F98, [0x1F28; 0x399]); (0x1F99, [0x1F29; 0x399]); (0x1F9A, [0x1F2A; 0x399]);
    (0x1F9B, [0x1F2B; 0x399]); (0x1F9C, [0x1F2C; 0x399]); (0x1F9D, [0x1F2D; 0x399]);
    (0x1F9E, [0x1F2E; 0x399]); (0x1F9F, [0x1F2F; 0x399]); (0x1FA0, [0x1F68; 0x399]);
    (0x1FA1, [0x1F69; 0x399]); (0x1FA2, [0x1F6A; 0x399]); (0x1FA3, [0x1F6B; 0x399]);
    (0x1FA4, [0x1F6C; 0x399]); (0x1FA5, [0x1F6D; 0x399]); (0x1FA6, [0x1F6E; 0x399]);
    (0x1FA7, [0x1F6F; 0x399]); (0x1FA8, [0x1F68; 0x399]); (0x1FA9, [0x1F69; 0x399]);
    (0x1FAA, [0x1F6A; 0x399]); (0x1FAB, [0x1F6B; 0x399]); (0x1FAC, [0x1F6C; 0x399]);
    (0x1FAD, [0x1F6D; 0x399]); (0x1FAE, [0x1F6E; 0x399]); (0x1FAF, [0x1F6F; 0x399]);
    (0x1FB2, [0x1FBA; 0x399]); (0x1FB3, [0x391; 0x399]); (0x1FB4, [0x386; 0x399]);
    (0x1FB6, [0x391; 0x342]); (0x1FB7, [0x391; 0x342; 0x399]); (0x1FBC, [0x391; 0x399]);
    (0x1FC2, [0x1FCA; 0x399]); (0x1FC3, [0x397; 0x399]); (0x1FC4, [0x389; 0x399]);
    (0x1FC6, [0x397; 0x342]); (0x1FC7, [0x397; 0x342; 0x399]); (0x1FCC, [0x397; 0x399]);
    (0x1FD2, [0x399; 0x308; 0x300]); (0x1FD3, [0x399; 0x308; 0x301]);
    (0x1FD6, [0x399; 0x342]); (0x1FD7, [0x399; 0x308; 0x342]);
    (0x1FE2, [0x3A5; 0x308; 0x300]); (0x1FE3, [0x3A5; 0x308; 0x301]);
    (0x1FE4, [0x3A1; 0x313]); (0x1FE6, [0x3A5; 0x342]); (0x1FE7, [0x3A5; 0x308; 0x342]);
    (0x1FF2, [0x1FFA; 0x399]); (0x1FF3, [0x3A9; 0x399]); (0x1FF4, [0x38F; 0x399]);
    (0x1FF6, [0x3A9; 0x342]); (0x1FF7, [0x3A9; 0x342; 0x399]); (0x1FFC, [0x3A9; 0x399]);
    (0xFB00, [0x46; 0x46]); (0xFB01, [0x46; 0x49]); (0xFB02, [0x46; 0x4C]);
    (0xFB03, [0x46; 0x46; 0x49]); (0xFB04, [0x46; 0x46; 0x4C]); (0xFB05, [0x53; 0x54]);
    (0xFB06, [0x53; 0x54]); (0xFB13, [0x544; 0x546]); (0xFB14, [0x544; 0x535]);
    (0xFB15, [0x544; 0x53B]); (0xFB16, [0x54E; 0x546]); (0xFB17, [0x544; 0x53D])
  ]%N.

(** The code points with the property Cased (DerivedCoreProperties.txt). *)
Definition casedRanges : list (N * N) :=
  [
    (0x41, 0x5A); (0x61, 0x7A); (0xAA, 0xAA); (0xB5, 0xB5); (0xBA, 0xBA); (0xC0, 0xD6);
    (0xD8, 0xF6); (0xF8, 0x1BA); (0x1BC, 0x1BF); (0x1C4, 0x293); (0x295, 0x2B8);
    (0x2C0, 0x2C1); (0x2E0, 0x2E4); (0x345, 0x345); (0x370, 0x373); (0x376, 0x377);
    (0x37A, 0x37D); (0x37F, 0x37F); (0x386, 0x386); (0x388, 0x38A); (0x38C, 0x38C);
    (0x38E, 0x3A1); (0x3A3, 0x3F5); (0x3F7, 0x481); (0x48A, 0x52F); (0x531, 0x556);
    (0x560, 0x588); (0x10A0, 0x10C5); (0x10C7, 0x10C7); (0x10CD, 0x10CD);
    (0x10D0, 0x10FA); (0x10FD, 0x10FF); (0x13A0, 0x13F5); (0x13F8, 0x13FD);
    (0x1C80, 0x1C88); (0x1C90, 0x1CBA); (0x1CBD, 0x1CBF); (0x1D00, 0x1DBF);
    (0x1E00, 0x1F15); (0x1F18, 0x1F1D); (0x1F20, 0x1F45); (0x1F48, 0x1F4D);
    (0x1F50, 0x1F57); (0x1F59, 0x1F59); (0x1F5B, 0x1F5B); (0x1F5D, 0x1F5D);
    (0x1F5F, 0x1F7D); (0x1F80, 0x1FB4); (0x1FB6, 0x1FBC); (0x1FBE, 0x1FBE);
    (0x1FC2, 0x1FC4); (0x1FC6, 0x1FCC); (0x1FD0, 0x1FD3); (0x1FD6, 0x1FDB);
    (0x1FE0, 0x1FEC); (0x1FF2, 0x1FF4); (0x1FF6, 0x1FFC); (0x2071, 0x2071);
    (0x207F, 0x207F); (0x2090, 0x209C); (0x2102, 0x2102); (0x2107, 0x2107);
    (0x210A, 0x2113); (0x2115, 0x2115); (0x2119, 0x211D); (0x2124, 0x2124);
    (0x2126, 0x2126); (0x2128, 0x2128); (0x212A, 0x212D); (0x212F, 0x2134);
    (0x2139, 0x2139); (0x213C, 0x213F); (0x2145, 0x2149); (0x214E, 0x214E);
    (0x2160, 0x217F); (0x2183, 0x2184); (0x24B6, 0x24E9); (0x2C00, 0x2CE4);
    (0x2CEB, 0x2CEE); (0x2CF2, 0x2CF3); (0x2D00, 0x2D25); (0x2D27, 0x2D27);
    (0x2D2D, 0x2D2D); (0xA640, 0xA66D); (0xA680, 0xA69D); (0xA722, 0xA787);
    (0xA78B, 0xA78E); (0xA790, 0xA7CA); (0xA7D0, 0xA7D1); (0xA7D3, 0xA7D3);
    (0xA7D5, 0xA7D9); (0xA7F5, 0xA7F6); (0xA7F8, 0xA7FA); (0xAB30, 0xAB5A);
    (0xAB5C, 0xAB68); (0xAB70, 0xABBF); (0xFB00, 0xFB06); (0xFB13, 0xFB17);
    (0xFF21, 0xFF3A); (0xFF41, 0xFF5A); (0x10400, 0x1044F); (0x104B0, 0x104D3);
    (0x104D8, 0x104FB); (0x10570, 0x1057A); (0x1057C, 0x1058A); (0x1058C, 0x10592);
    (0x10594, 0x10595); (0x10597, 0x105A1); (0x105A3, 0x105B1); (0x105B3, 0x105B9);
    (0x105BB, 0x105BC); (0x10780, 0x10780); (0x10783, 0x10785); (0x10787, 0x107B0);
    (0x107B2, 0x107BA); (0x10C80, 0x10CB2); (0x10CC0, 0x10CF2); (0x118A0, 0x118DF);
    (0x16E40, 0x16E7F); (0x1D400, 0x1D454); (0x1D456, 0x1D49C); (0x1D49E, 0x1D49F);
    (0x1D4A2, 0x1D4A2); (0x1D4A5, 0x1D4A6); (0x1D4A9, 0x1D4AC); (0x1D4AE, 0x1D4B9);
    (0x1D4BB, 0x1D4BB); (0x1D4BD, 0x1D4C3); (0x1D4C5, 0x1D505); (0x1D507, 0x1D50A);
    (0x1D50D, 0x1D514); (0x1D516, 0x1D51C); (0x1D51E, 0x1D539); (0x1D53B, 0x1D53E);
    (0x1D540, 0x1D544); (0x1D546, 0x1D546); (0x1D54A, 0x1D550); (0x1D552, 0x1D6A5);
    (0x1D6A8, 0x1D6C0); (0x1D6C2, 0x1D6DA); (0x1D6DC, 0x1D6FA); (0x1D6FC, 0x1D714);
    (0x1D716, 0x1D734); (0x1D736, 0x1D74E); (0x1D750, 0x1D76E); (0x1D770, 0x1D788);
    (0x1D78A, 0x1D7A8); (0x1D7AA, 0x1D7C2); (0x1D7C4, 0x1D7CB); (0x1DF00, 0x1DF09);
    (0x1DF0B, 0x1DF1E); (0x1E900, 0x1E943); (0x1F130, 0x1F149); (0x1F150, 0x1F169);
    (0x1F170, 0x1F189)
  ]%N.

(** The code points with the property Case_Ignorable. *)
Definition caseIgnorableRanges : list (N * N) :=
  [
    (0x27, 0x27); (0x2E, 0x2E); (0x3A, 0x3A); (0x5E, 0x5E); (0x60, 0x60); (0xA8, 0xA8);
    (0xAD, 0xAD); (0xAF, 0xAF); (0xB4, 0xB4); (0xB7, 0xB8); (0x2B0, 0x36F);
    (0x374, 0x375); (0x37A, 0x37A); (0x384, 0x385); (0x387, 0x387); (0x483, 0x489);
    (0x559, 0x559); (0x55F, 0x55F); (0x591, 0x5BD); (0x5BF, 0x5BF); (0x5C1, 0x5C2);
    (0x5C4, 0x5C5); (0x5C7, 0x5C7); (0x5F4, 0x5F4); (0x600, 0x605); (0x610, 0x61A);
    (0x61C, 0x61C); (0x640, 0x640); (0x64B, 0x65F); (0x670, 0x670); (0x6D6, 0x6DD);
    (0x6DF, 0x6E8); (0x6EA, 0x6ED); (0x70F, 0x70F); (0x711, 0x711); (0x730, 0x74A);
    (0x7A6, 0x7B0); (0x7EB, 0x7F5); (0x7FA, 0x7FA); (0x7FD, 0x7FD); (0x816, 0x82D);
    (0x859, 0x85B); (0x888, 0x888); (0x890, 0x891); (0x898, 0x89F); (0x8C9, 0x902);
    (0x93A, 0x93A); (0x93C, 0x93C); (0x941, 0x948); (0x94D, 0x94D); (0x951, 0x957);
    (0x962, 0x963); (0x971, 0x971); (0x981, 0x981); (0x9BC, 0x9BC); (0x9C1, 0x9C4);
    (0x9CD, 0x9CD); (0x9E2, 0x9E3); (0x9FE, 0x9FE); (0xA01, 0xA02); (0xA3C, 0xA3C);
    (0xA41, 0xA42); (0xA47, 0xA48); (0xA4B, 0xA4D); (0xA51, 0xA51); (0xA70, 0xA71);
    (0xA75, 0xA75); (0xA81, 0xA82); (0xABC, 0xABC); (0xAC1, 0xAC5); (0xAC7, 0xAC8);
    (0xACD, 0xACD); (0xAE2, 0xAE3); (0xAFA, 0xAFF); (0xB01, 0xB01); (0xB3C, 0xB3C);
    (0xB3F, 0xB3F); (0xB41, 0xB44); (0xB4D, 0xB4D); (0xB55, 0xB56); (0xB62, 0xB63);
    (0xB82, 0xB82); (0xBC0, 0xBC0); (0xBCD, 0xBCD); (0xC00, 0xC00); (0xC04, 0xC04);
    (0xC3C, 0xC3C); (0xC3E, 0xC40); (0xC46, 0xC48); (0xC4A, 0xC4D); (0xC55, 0xC56);
    (0xC62, 0xC63); (0xC81, 0xC81); (0xCBC, 0xCBC); (0xCBF, 0xCBF); (0xCC6, 0xCC6);
    (0xCCC, 0xCCD); (0xCE2, 0xCE3); (0xD00, 0xD01); (0xD3B, 0xD3C); (0xD41, 0xD44);
    (0xD4D, 0xD4D); (0xD62, 0xD63); (0xD81, 0xD81); (0xDCA, 0xDCA); (0xDD2, 0xDD4);
    (0xDD6, 0xDD6); (0xE31, 0xE31); (0xE34, 0xE3A); (0xE46, 0xE4E); (0xEB1, 0xEB1);
    (0xEB4, 0xEBC); (0xEC6, 0xEC6); (0xEC8, 0xECD); (0xF18, 0xF19); (0xF35, 0xF35);
    (0xF37, 0xF37); (0xF39, 0xF39); (0xF71, 0xF7E); (0xF80, 0xF84); (0xF86, 0xF87);
    (0xF8D, 0xF97); (0xF99, 0xFBC); (0xFC6, 0xFC6); (0x102D, 0x1030); (0x1032, 0x1037);
    (0x1039, 0x103A); (0x103D, 0x103E); (0x1058, 0x1059); (0x105E, 0x1060);
    (0x1071, 0x1074); (0x1082, 0x1082); (0x1085, 0x1086); (0x108D, 0x108D);
    (0x109D, 0x109D); (0x10FC, 0x10FC); (0x135D, 0x135F); (0x1712, 0x1714);
    (0x1732, 0x1733); (0x1752, 0x1753); (0x1772, 0x1773); (0x17B4, 0x17B5);
    (0x17B7, 0x17BD); (0x17C6, 0x17C6); (0x17C9, 0x17D3); (0x17D7, 0x17D7);
    (0x17DD, 0x17DD); (0x180B, 0x180F); (0x1843, 0x1843); (0x1885, 0x1886);
    (0x18A9, 0x18A9); (0x1920, 0x1922); (0x1927, 0x1928); (0x1932, 0x1932);
    (0x1939, 0x193B); (0x1A17, 0x1A18); (0x1A1B, 0x1A1B); (0x1A56, 0x1A56);
    (0x1A58, 0x1A5E); (0x1A60, 0x1A60); (0x1A62, 0x1A62); (0x1A65, 0x1A6C);
    (0x1A73, 0x1A7C); (0x1A7F, 0x1A7F); (0x1AA7, 0x1AA7); (0x1AB0, 0x1ACE);
    (0x1B00, 0x1B03); (0x1B34, 0x1B34); (0x1B36, 0x1B3A); (0x1B3C, 0x1B3C);
    (0x1B42, 0x1B42); (0x1B6B, 0x1B73); (0x1B80, 0x1B81); (0x1BA2, 0x1BA5);
    (0x1BA8, 0x1BA9); (0x1BAB, 0x1BAD); (0x1BE6, 0x1BE6); (0x1BE8, 0x1BE9);
    (0x1BED, 0x1BED); (0x1BEF, 0x1BF1); (0x1C2C, 0x1C33); (0x1C36, 0x1C37);
    (0x1C78, 0x1C7D); (0x1CD0, 0x1CD2); (0x1CD4, 0x1CE0); (0x1CE2, 0x1CE8);
    (0x1CED, 0x1CED); (0x1CF4, 0x1CF4); (0x1CF8, 0x1CF9); (0x1D2C, 0x1D6A);
    (0x1D78, 0x1D78); (0x1D9B, 0x1DFF); (0x1FBD, 0x1FBD); (0x1FBF, 0x1FC1);
    (0x1FCD, 0x1FCF); (0x1FDD, 0x1FDF); (0x1FED, 0x1FEF); (0x1FFD, 0x1FFE);
    (0x200B, 0x200F); (0x2018, 0x2019); (0x2024, 0x2024); (0x2027, 0x2027);
    (0x202A, 0x202E); (0x2060, 0x2064); (0x2066, 0x206F); (0x2071, 0x2071);
    (0x207F, 0x207F); (0x2090, 0x209C); (0x20D0, 0x20F0); (0x2C7C, 0x2C7D);
    (0x2CEF, 0x2CF1); (0x2D6F, 0x2D6F); (0x2D7F, 0x2D7F); (0x2DE0, 0x2DFF);
    (0x2E2F, 0x2E2F); (0x3005, 0x3005); (0x302A, 0x302D); (0x3031, 0x3035);
    (0x303B, 0x303B); (0x3099, 0x309E); (0x30FC, 0x30FE); (0xA015, 0xA015);
    (0xA4F8, 0xA4FD); (0xA60C, 0xA60C); (0xA66F, 0xA672); (0xA674, 0xA67D);
    (0xA67F, 0xA67F); (0xA69C, 0xA69F); (0xA6F0, 0xA6F1); (0xA700, 0xA721);
    (0xA770, 0xA770); (0xA788, 0xA78A); (0xA7F2, 0xA7F4); (0xA7F8, 0xA7F9);
    (0xA802, 0xA802); (0xA806, 0xA806); (0xA80B, 0xA80B); (0xA825, 0xA826);
    (0xA82C, 0xA82C); (0xA8C4, 0xA8C5); (0xA8E0, 0xA8F1); (0xA8FF, 0xA8FF);
    (0xA926, 0xA92D); (0xA947, 0xA951); (0xA980, 0xA982); (0xA9B3, 0xA9B3);
    (0xA9B6, 0xA9B9); (0xA9BC, 0xA9BD); (0xA9CF, 0xA9CF); (0xA9E5, 0xA9E6);
    (0xAA29, 0xAA2E); (0xAA31, 0xAA32); (0xAA35, 0xAA36); (0xAA43, 0xAA43);
    (0xAA4C, 0xAA4C); (0xAA70, 0xAA70); (0xAA7C, 0xAA7C); (0xAAB0, 0xAAB0);
    (0xAAB2, 0xAAB4); (0xAAB7, 0xAAB8); (0xAABE, 0xAABF); (0xAAC1, 0xAAC1);
    (0xAADD, 0xAADD); (0xAAEC, 0xAAED); (0xAAF3, 0xAAF4); (0xAAF6, 0xAAF6);
    (0xAB5B, 0xAB5F); (0xAB69, 0xAB6B); (0xABE5, 0xABE5); (0xABE8, 0xABE8);
    (0xABED, 0xABED); (0xFB1E, 0xFB1E); (0xFBB2, 0xFBC2); (0xFE00, 0xFE0F);
    (0xFE13, 0xFE13); (0xFE20, 0xFE2F); (0xFE52, 0xFE52); (0xFE55, 0xFE55);
    (0xFEFF, 0xFEFF); (0xFF07, 0xFF07); (0xFF0E, 0xFF0E); (0xFF1A, 0xFF1A);
    (0xFF3E, 0xFF3E); (0xFF40, 0xFF40); (0xFF70, 0xFF70); (0xFF9E, 0xFF9F);
    (0xFFE3, 0xFFE3); (0xFFF9, 0xFFFB); (0x101FD, 0x101FD); (0x102E0, 0x102E0);
    (0x10376, 0x1037A); (0x10780, 0x10785); (0x10787, 0x107B0); (0x107B2, 0x107BA);
    (0x10A01, 0x10A03); (0x10A05, 0x10A06); (0x10A0C, 0x10A0F); (0x10A38, 0x10A3A);
    (0x10A3F, 0x10A3F); (0x10AE5, 0x10AE6); (0x10D24, 0x10D27); (0x10EAB, 0x10EAC);
    (0x10F46, 0x10F50); (0x10F82, 0x10F85); (0x11001, 0x11001); (0x11038, 0x11046);
    (0x11070, 0x11070); (0x11073, 0x11074); (0x1107F, 0x11081); (0x110B3, 0x110B6);
    (0x110B9, 0x110BA); (0x110BD, 0x110BD); (0x110C2, 0x110C2); (0x110CD, 0x110CD);
    (0x11100, 0x11102); (0x11127, 0x1112B); (0x1112D, 0x11134); (0x11173, 0x11173);
    (0x11180, 0x11181); (0x111B6, 0x111BE); (0x111C9, 0x111CC); (0x111CF, 0x111CF);
    (0x1122F, 0x11231); (0x11234, 0x11234); (0x11236, 0x11237); (0x1123E, 0x1123E);
    (0x112DF, 0x112DF); (0x112E3, 0x112EA); (0x11300, 0x11301); (0x1133B, 0x1133C);
    (0x11340, 0x11340); (0x11366, 0x1136C); (0x11370, 0x11374); (0x11438, 0x1143F);
    (0x11442, 0x11444); (0x11446, 0x11446); (0x1145E, 0x1145E); (0x114B3, 0x114B8);
    (0x114BA, 0x114BA); (0x114BF, 0x114C0); (0x114C2, 0x114C3); (0x115B2, 0x115B5);
    (0x115BC, 0x115BD); (0x115BF, 0x115C0); (0x115DC, 0x115DD); (0x11633, 0x1163A);
    (0x1163D, 0x1163D); (0x1163F, 0x11640); (0x116AB, 0x116AB); (0x116AD, 0x116AD);
    (0x116B0, 0x116B5); (0x116B7, 0x116B7); (0x1171D, 0x1171F); (0x11722, 0x11725);
    (0x11727, 0x1172B); (0x1182F, 0x11837); (0x11839, 0x1183A); (0x1193B, 0x1193C);
    (0x1193E, 0x1193E); (0x11943, 0x11943); (0x119D4, 0x119D7); (0x119DA, 0x119DB);
    (0x119E0, 0x119E0); (0x11A01, 0x11A0A); (0x11A33, 0x11A38); (0x11A3B, 0x11A3E);
    (0x11A47, 0x11A47); (0x11A51, 0x11A56); (0x11A59, 0x11A5B); (0x11A8A, 0x11A96);
    (0x11A98, 0x11A99); (0x11C30, 0x11C36); (0x11C38, 0x11C3D); (0x11C3F, 0x11C3F);
    (0x11C92, 0x11CA7); (0x11CAA, 0x11CB0); (0x11CB2, 0x11CB3); (0x11CB5, 0x11CB6);
    (0x11D31, 0x11D36); (0x11D3A, 0x11D3A); (0x11D3C, 0x11D3D); (0x11D3F, 0x11D45);
    (0x11D47, 0x11D47); (0x11D90, 0x11D91); (0x11D95, 0x11D95); (0x11D97, 0x11D97);
    (0x11EF3, 0x11EF4); (0x13430, 0x13438); (0x16AF0, 0x16AF4); (0x16B30, 0x16B36);
    (0x16B40, 0x16B43); (0x16F4F, 0x16F4F); (0x16F8F, 0x16F9F); (0x16FE0, 0x16FE1);
    (0x16FE3, 0x16FE4); (0x1AFF0, 0x1AFF3); (0x1AFF5, 0x1AFFB); (0x1AFFD, 0x1AFFE);
    (0x1BC9D, 0x1BC9E); (0x1BCA0, 0x1BCA3); (0x1CF00, 0x1CF2D); (0x1CF30, 0x1CF46);
    (0x1D167, 0x1D169); (0x1D173, 0x1D182); (0x1D185, 0x1D18B); (0x1D1AA, 0x1D1AD);
    (0x1D242, 0x1D244); (0x1DA00, 0x1DA36); (0x1DA3B, 0x1DA6C); (0x1DA75, 0x1DA75);
    (0x1DA84, 0x1DA84); (0x1DA9B, 0x1DA9F); (0x1DAA1, 0x1DAAF); (0x1E000, 0x1E006);
    (0x1E008, 0x1E018); (0x1E01B, 0x1E021); (0x1E023, 0x1E024); (0x1E026, 0x1E02A);
    (0x1E130, 0x1E13D); (0x1E2AE, 0x1E2AE); (0x1E2EC, 0x1E2EF); (0x1E8D0, 0x1E8D6);
    (0x1E944, 0x1E94B); (0x1F3FB, 0x1F3FF); (0xE0001, 0xE0001); (0xE0020, 0xE007F);
    (0xE0100, 0xE01EF)
  ]%N.

Definition inRanges (ranges : list (N * N)) (c : N) : bool :=
  existsb (fun r => (fst r <=? c)%N && (c <=? snd r)%N) ranges.

(** A run [(first, last, step, image)] maps [first] to [image] and every
    [step]-th code point up to [last] to the code point at the same distance
    from [image]; a code point in no run maps to itself. *)
Fixpoint mapByRuns (runs : list (N * N * N * N)) (c : N) : N :=
  match runs with
  | [] => c
  | (first, last, step, image) :: runs' =>
      if (first <=? c)%N && (c <=? last)%N && ((c - first) mod step =? 0)%N
      then (image + (c - first))%N
      else mapByRuns runs' c
  end.

Fixpoint lookupSpecial (c : N) (table : list (N * list N)) : option (list N) :=
  match table with
  | [] => None
  | (k, v) :: table' => if (k =? c)%N then Some v else lookupSpecial c table'
  end.

Definition isCased (c : N) : bool := inRanges casedRanges c.
Definition isCaseIgnorable (c : N) : bool := inRanges caseIgnorableRanges c.

(** The lower case of one code point out of context; U+0130 is the only
    code point whose lower case is longer than one code point. *)
Definition toLowerChar (c : N) : jsstring :=
  if (c =? 0x130)%N then [0x69; 0x307]%N else [mapByRuns lowerCaseRuns c].

Definition toUpperChar (c : N) : jsstring :=
  match lookupSpecial c specialUpperCase with
  | Some s => s
  | None => [mapByRuns upperCaseRuns c]
  end.

(** Final_Sigma: U+03A3 becomes U+03C2 when a cased letter precedes it and
    none follows it, case-ignorable code points being skipped on both
    sides; otherwise U+03C3. *)
Fixpoint followedByCased (rest : jsstring) : bool :=
  match rest with
  | [] => false
  | c :: rest' => if isCaseIgnorable c then followedByCased rest' else isCased c
  end.

(** [afterCased]: the last code point before [s] that is not case-ignorable
    is cased. *)
Fixpoint lowerFrom (afterCased : bool) (s : jsstring) : jsstring :=
  match s with
  | [] => []
  | c :: rest =>
      (if (c =? 0x3A3)%N
       then [if afterCased && negb (followedByCased rest) then 0x3C2 else 0x3C3]%N
       else toLowerChar c)
      ++ lowerFrom (if isCaseIgnorable c then afterCased else isCased c) rest
  end.

Definition toLowerCase (s : jsstring) : jsstring := lowerFrom false s.
Definition toUpperCase (s : jsstring) : jsstring := flat_map toUpperChar s.

Fixpoint streq (a b : jsstring) : bool :=
  match a, b with
  | [], [] => true
  | x :: a', y :: b' => (x =? y)%N && streq a' b'
  | _, _ => false
  end.

(** [s.length]: UTF-16 code units. *)
Definition strlen (s : jsstring) : Z :=
  fold_right (fun c n => (if (65536 <=? c)%N then 2 else 1) + n) 0 s.

(** A string is truthy when it is not empty. *)
Definition truthyStr (s : option jsstring) : bool :=
  match s with
  | Some (_ :: _) => true
  | _ => false
  end.

Definition orEmpty (s : option jsstring) : jsstring :=
  match s with
  | Some v => v
  | None => []
  end.

Fixpoint startsWith (p s : jsstring) : bool :=
  match p, s with
  | [], _ => true
  | x :: p', y :: s' => (x =? y)%N && startsWith p' s'
  | _ :: _, [] => false
  end.

(** [s.includes(p)] *)
Fixpoint includes (s p : jsstring) : bool :=
  startsWith p s ||
  match s with
  | [] => false
  | _ :: s' => includes s' p
  end.

(** A regular expression that is an alternation of literals. *)
Definition testAny (alts : list jsstring) (s : jsstring) : bool :=
  existsb (includes s) alts.

Definition isDigit (c : N) : bool := (48 <=? c)%N && (c <=? 57)%N.

Definition isLineTerminator (c : N) : bool :=
  (c =? 10)%N || (c =? 13)%N || (c =? 8232)%N || (c =? 8233)%N.

(** [\d{n}] at the start of [s]. *)
Fixpoint digitsAt (n : nat) (s : jsstring) : bool :=
  match n with
  | O => true
  | S n' =>
      match s with
      | c :: s' => isDigit c && digitsAt n' s'
      | [] => false
      end
  end.

(** [.*\d{n}] at the start of [s]: the dot does not cross a line terminator. *)
Fixpoint dotStarDigits (n : nat) (s : jsstring) : bool :=
  digitsAt n s ||
  match s with
  | [] => false
  | c :: s' => negb (isLineTerminator c) && dotStarDigits n s'
  end.

(** [w.*\d{n}] anywhere in [s]. *)
Fixpoint wordThenDigits (w : jsstring) (n : nat) (s : jsstring) : bool :=
  (startsWith w s && dotStarDigits n (skipn (List.length w) s)) ||
  match s with
  | [] => false
  | _ :: s' => wordThenDigits w n s'
  end.

(** [parseInt(s)]: leading white space, an optional sign, then decimal digits
    (hexadecimal after [0x]); [None] is NaN. The result is the integer the
    digits denote (a zero keeps no sign); its Number value is [numberOfZ] of
    it, and comparing with 7, 30 or 60 gives the same answer on either. *)
Definition isSpace (c : N) : bool :=
  (c =? 32)%N || ((9 <=? c)%N && (c <=? 13)%N) || (c =? 160)%N
  || (c =? 5760)%N || ((8192 <=? c)%N && (c <=? 8202)%N)
  || (c =? 8232)%N || (c =? 8233)%N || (c =? 8239)%N || (c =? 8287)%N
  || (c =? 12288)%N || (c =? 65279)%N.

Fixpoint skipSpaces (s : jsstring) : jsstring :=
  match s with
  | c :: s' => if isSpace c then skipSpaces s' else s
  | [] => []
  end.

Definition digitValue (radix : Z) (c : N) : option Z :=
  let v :=
    if isDigit c then Z.of_N c - 48
    else if (97 <=? c)%N && (c <=? 122)%N then Z.of_N c - 87
    else if (65 <=? c)%N && (c <=? 90)%N then Z.of_N c - 55
    else radix in
  if v <? radix then Some v else None.

Fixpoint readDigits (radix : Z) (acc : option Z) (s : jsstring) : option Z :=
  match s with
  | c :: s' =>
      match digitValue radix c with
      | Some v =>
          readDigits radix
            (Some (match acc with Some a => a * radix + v | None => v end)) s'
      | None => acc
      end
  | [] => acc
  end.

Definition parseInt (s : jsstring) : option Z :=
  let t := skipSpaces s in
  let '(neg, t) :=
    match t with
    | 45%N :: r => (true, r)
    | 43%N :: r => (false, r)
    | _ => (false, t)
    end in
  let '(radix, t) :=
    match t with
    | 48%N :: 120%N :: r => (16, r)
    | 48%N :: 88%N :: r => (16, r)
    | _ => (10, t)
    end in
  match readDigits radix None t with
  | Some v => Some (if neg then - v else v)
  | None => None
  end.

(** ** Data model *)

Record ProfileData := {
  profilePicture : option jsstring;
  location : option jsstring;
  bio : option jsstring
}.

Record MarketplaceData := {
  verificationStatus : option jsstring;
  accountAge : option float;
  lastSeen : option jsstring;
  responseRate : option float;
  totalReviews : option float;
  avgRating : option float
}.

(** The per-field availability map; each entry is one of ['available'],
    ['unavailable'], ['platform_unavailable']. *)
Record DataAvailability := {
  da_profilePicture : option jsstring;
  da_location : option jsstring;
  da_recentListings : option jsstring
}.

Record SellerData := {
  profileData : option ProfileData;
  marketplaceData : option MarketplaceData;
  dataAvailability : option DataAvailability
}.

Record Listing := {
  title : option jsstring;
  price : option jsstring;
  hasPrice : option bool;
  imageCount : option float;
  description : option jsstring;
  descriptionLength : option float
}.

(** An entry of [veribleFeedback.endorsements] or [veribleFeedback.flags];
    the engine reads the arrays' lengths only. *)
Record FeedbackEntry := {
  fb_userId : jsstring;
  fb_reason : option jsstring
}.

Record VeribleFeedback := {
  endorsements : option (list FeedbackEntry);
  flags : option (list FeedbackEntry)
}.

(** [sellerData.profileData?.f], [sellerData.marketplaceData?.f] and
    [(sellerData.dataAvailability || {}).f] *)
Definition pd {A} (sd : SellerData) (f : ProfileData -> option A) : option A :=
  match profileData sd with
  | Some p => f p
  | None => None
  end.

Definition md {A} (sd : SellerData) (f : MarketplaceData -> option A) : option A :=
  match marketplaceData sd with
  | Some m => f m
  | None => None
  end.

Definition da (sd : SellerData) (f : DataAvailability -> option jsstring) : option jsstring :=
  match dataAvailability sd with
  | Some d => f d
  | None => None
  end.

Definition isPlatformUnavailable (s : option jsstring) : bool :=
  match s with
  | Some v => streq v (lit "platform_unavailable")
  | None => false
  end.

(** *** Category scores *)

(** [true], [false] or ['platform_unavailable'] in the verification breakdown. *)
Inductive PresenceFlag := Present | PlatformUnavailable | Absent.

Record ListingChecks := {
  hasTitle : bool;
  hasPriceCheck : bool;
  hasEnoughPhotos : bool;
  hasGoodDescription : bool
}.

Record Evaluation := {
  ev_title : option jsstring;
  ev_score : Z;
  ev_checks : ListingChecks
}.

Record RedFlag := {
  rf_listing : Z;
  rf_flag : string;
  rf_count : option Z;
  rf_penalty : Z
}.

(** The diagnostic record of a category, one shape per scorer outcome. The
    [years] and percent renderings of the maturity and engagement breakdowns
    are formatted strings of the number kept here. *)
Inductive Breakdown :=
| VerificationBreakdown (verificationType : string) (profilePhoto locationFlag : PresenceFlag)
| MessageBreakdown (message : string)
| NoAgeBreakdown (months : Z) (message : string)
| MaturityBreakdown (months : float)
| ListingsBreakdown (listingsEvaluated : Z) (averageListingScore : Z)
    (evaluations : list Evaluation)
| LastSeenBreakdown (lastSeenDays : option float) (category : string)
| ActiveListingsBreakdown (message : string) (listings : Z)
| ResponseRateBreakdown (rate : float)
| FeedbackBreakdown (marketplaceReviews averageRating : float)
    (verible : option (Z * Z * Z))
| RedFlagsBreakdown (startScore : Z) (redFlagsFound : Z) (redFlags : list RedFlag)
    (finalScoreShown : Z).

Record CategoryScore := {
  score : option Z;
  available : bool;
  breakdown : Breakdown
}.

Definition len {A} (l : list A) : Z := Z.of_nat (List.length l).

(** ** Category 1: Verification & Identity *)

Definition calculateVerificationIdentityScore (sellerData : SellerData) : CategoryScore :=
  let verification :=
    match md sellerData verificationStatus with
    | Some s =>
        match toLowerCase s with
        | [] => lit "unverified"
        | l => l
        end
    | None => lit "unverified"
    end in
  let hasPhoto := truthyStr (pd sellerData profilePicture) in
  let hasLocation :=
    truthyStr (pd sellerData location)
    && negb (streq (orEmpty (pd sellerData location)) (lit "Not specified")) in
  let '(score0, verificationType) :=
    if includes verification (lit "id") || streq verification (lit "id-verified")
       || streq verification (lit "identity verified")
    then (100, "ID Verified"%string)
    else if includes verification (lit "phone") || streq verification (lit "phone-verified")
    then (70, "Phone Verified"%string)
    else if includes verification (lit "email") || streq verification (lit "email-verified")
    then (50, "Email Verified"%string)
    else (0, "Not Verified"%string) in
  let '(score1, profilePhoto) :=
    if hasPhoto then (Z.min 100 (score0 + 10), Present)
    else if isPlatformUnavailable (da sellerData da_profilePicture)
    then (score0, PlatformUnavailable)
    else (score0, Absent) in
  let '(score2, locationFlag) :=
    if hasLocation then (Z.min 100 (score1 + 10), Present)
    else if isPlatformUnavailable (da sellerData da_location)
    then (score1, PlatformUnavailable)
    else (score1, Absent) in
  {| score := Some (Z.min 100 score2);
     available := true;
     breakdown := VerificationBreakdown verificationType profilePhoto locationFlag |}.

(** ** Category 2: Account Maturity *)

Definition calculateAccountMaturityScore (sellerData : SellerData) : CategoryScore :=
  let accountAgeMonths := orZero (md sellerData accountAge) in
  if PrimFloat.eqb accountAgeMonths 0 then
    {| score := None; available := false;
       breakdown := NoAgeBreakdown 0 "Account age not available" |}
  else
    let score :=
      if PrimFloat.leb 12 accountAgeMonths then 100
      else if PrimFloat.leb 6 accountAgeMonths then 70
      else if PrimFloat.leb 3 accountAgeMonths then 40
      else 10 in
    {| score := Some score; available := true;
       breakdown := MaturityBreakdown accountAgeMonths |}.

(** ** Category 3: Listing Completeness *)

Definition noChecks : ListingChecks :=
  {| hasTitle := false; hasPriceCheck := false;
     hasEnoughPhotos := false; hasGoodDescription := false |}.

(** The body of the [forEach] over the evaluated listings. *)
Definition evaluateListing (listing : Listing) : Evaluation :=
  let listingScore := 0 in
  let checks := noChecks in
  (* Title present (5 points) *)
  let '(listingScore, checks) :=
    if truthyStr (title listing) && (0 <? strlen (orEmpty (title listing)))
    then (listingScore + 5,
          {| hasTitle := true; hasPriceCheck := hasPriceCheck checks;
             hasEnoughPhotos := hasEnoughPhotos checks;
             hasGoodDescription := hasGoodDescription checks |})
    else (listingScore, checks) in
  (* Price present (10 points) *)
  let '(listingScore, checks) :=
    if truthyStr (price listing) && (0 <? strlen (orEmpty (price listing)))
       && negb (match hasPrice listing with Some false => true | _ => false end)
    then (listingScore + 10,
          {| hasTitle := hasTitle checks; hasPriceCheck := true;
             hasEnoughPhotos := hasEnoughPhotos checks;
             hasGoodDescription := hasGoodDescription checks |})
    else (listingScore, checks) in
  (* >= 3 photos (15 points), partial credit for at least 1 photo *)
  let '(listingScore, checks) :=
    if geNum (imageCount listing) 3
    then (listingScore + 15,
          {| hasTitle := hasTitle checks; hasPriceCheck := hasPriceCheck checks;
             hasEnoughPhotos := true;
             hasGoodDescription := hasGoodDescription checks |})
    else if geNum (imageCount listing) 1
    then (listingScore + 5, checks)
    else (listingScore, checks) in
  (* Description >= 100 chars (20 points) *)
  let '(listingScore, checks) :=
    if truthyStr (description listing) && geNum (descriptionLength listing) 100
    then (listingScore + 20,
          {| hasTitle := hasTitle checks; hasPriceCheck := hasPriceCheck checks;
             hasEnoughPhotos := hasEnoughPhotos checks;
             hasGoodDescription := true |})
    else (listingScore, checks) in
  {| ev_title := title listing; ev_score := listingScore; ev_checks := checks |}.

Definition calculateListingCompletenessScore
    (recentListings : list Listing) (sellerData : SellerData) : CategoryScore :=
  match recentListings with
  | [] =>
      let message :=
        if isPlatformUnavailable (da sellerData da_recentListings)
        then "Listings not exposed by platform"%string
        else "No listings available"%string in
      {| score := None; available := false; breakdown := MessageBreakdown message |}
  | _ :: _ =>
      let listingsToEvaluate := firstn 5 recentListings in
      let '(totalScore, evaluations) :=
        fold_left
          (fun '(totalScore, evaluations) listing =>
             let e := evaluateListing listing in
             (totalScore + ev_score e, evaluations ++ [e]))
          listingsToEvaluate (0, []) in
      let avgScore := (Z2F totalScore / Z2F (len listingsToEvaluate))%float in
      let normalizedScore := ((avgScore / 50) * 100)%float in
      {| score := Some (Math.round (Math.min 100 normalizedScore));
         available := true;
         breakdown :=
           ListingsBreakdown (len listingsToEvaluate) (Math.round avgScore) evaluations |}
  end.

(** ** Category 4: Activity & Recency *)

Definition leDays (days : option Z) (n : Z) : bool :=
  match days with
  | Some d => d <=? n
  | None => false
  end.

Definition calculateActivityRecencyScore
    (sellerData : SellerData) (recentListings : list Listing) : CategoryScore :=
  match md sellerData lastSeen with
  | Some lastSeenDays =>
      let days := parseInt lastSeenDays in
      if leDays days 7 then
        {| score := Some 100; available := true;
           breakdown := LastSeenBreakdown (option_map numberOfZ days) "Very Active" |}
      else if leDays days 30 then
        {| score := Some 70; available := true;
           breakdown := LastSeenBreakdown (option_map numberOfZ days) "Active" |}
      else if leDays days 60 then
        {| score := Some 40; available := true;
           breakdown := LastSeenBreakdown (option_map numberOfZ days) "Moderately Active" |}
      else
        {| score := Some 10; available := true;
           breakdown := LastSeenBreakdown (option_map numberOfZ days) "Inactive" |}
  | None =>
      if 0 <? len recentListings then
        {| score := Some 50; available := true;
           breakdown := ActiveListingsBreakdown "Has active listings" (len recentListings) |}
      else
        let message :=
          if isPlatformUnavailable (da sellerData da_recentListings)
          then "Platform does not expose activity signals"%string
          else "Activity data not available"%string in
        {| score := None; available := false; breakdown := MessageBreakdown message |}
  end.

(** ** Category 5: Engagement *)

Definition calculateEngagementScore (sellerData : SellerData) : CategoryScore :=
  match md sellerData responseRate with
  | Some responseRate =>
      if negb (truthyNum responseRate) || PrimFloat.eqb responseRate 0 then
        {| score := None; available := false;
           breakdown := MessageBreakdown "Response rate not available" |}
      else
        let score :=
          if PrimFloat.leb 90 responseRate then 100
          else if PrimFloat.leb 80 responseRate then 80
          else if PrimFloat.leb 60 responseRate then 60
          else 30 in
        {| score := Some score; available := true;
           breakdown := ResponseRateBreakdown responseRate |}
  | None =>
      {| score := None; available := false;
         breakdown := MessageBreakdown "Response rate not available" |}
  end.

(** ** Category 6: Community Feedback *)

(** [a?.length || 0] *)
Definition lengthOrZero {A} (a : option (list A)) : Z :=
  match a with
  | Some l => len l
  | None => 0
  end.

Definition calculateCommunityFeedbackScore
    (sellerData : SellerData) (veribleFeedback : option VeribleFeedback) : CategoryScore :=
  let totalReviews := orZero (md sellerData totalReviews) in
  let avgRating := orZero (md sellerData avgRating) in
  (* Marketplace reviews *)
  let score :=
    if PrimFloat.leb 10 totalReviews || PrimFloat.leb 4.5 avgRating then 100
    else if PrimFloat.leb 5 totalReviews then 70
    else if PrimFloat.leb 1 totalReviews then 40
    else 0 in
  (* Verible user feedback bonus *)
  let '(score, verible) :=
    match veribleFeedback with
    | Some fb =>
        let endorsements := lengthOrZero (endorsements fb) in
        let flags := lengthOrZero (flags fb) in
        let netFeedback := endorsements - flags in
        let score :=
          if 0 <? netFeedback then Z.min 100 (score + netFeedback * 5)
          else if netFeedback <? 0 then Z.max 0 (score + netFeedback * 10)
          else score in
        (score, Some (endorsements, flags, netFeedback))
    | None => (score, None)
    end in
  (* If no data at all, mark as N/A *)
  if PrimFloat.eqb totalReviews 0
     && match veribleFeedback with None => true | Some _ => false end
  then
    {| score := None; available := false;
       breakdown := MessageBreakdown "No feedback available" |}
  else
    {| score := Some (Z.min 100 (Z.max 0 score)); available := true;
       breakdown := FeedbackBreakdown totalReviews avgRating verible |}.

(** ** Category 7: Behavioral Red Flags *)

Module penalties.
Definition urgent := 15.
Definition needMoneyAsap := 15.
Definition cashOnly := 20.
Definition firstComeFirstServe := 10.
Definition offPlatformContact := 20.
Definition allCapsTitle := 5.
Definition excessEmojis := 5.
End penalties.

(** The regular expressions of the analyzer, on the lower-cased text. *)
Definition reUrgency : jsstring -> bool :=
  testAny [lit "urgent"; lit "asap"; lit "immediate"; lit "hurry"].

Definition reFinancialPressure : jsstring -> bool :=
  testAny [lit "need money"; lit "bills"; lit "must sell"; lit "quick sale"; lit "fast sale"].

Definition reCashOnly : jsstring -> bool :=
  testAny [lit "cash only"; lit "payment first"; lit "no questions"].

Definition reFirstCome : jsstring -> bool :=
  testAny [lit "first come"; lit "first serve"].

Definition reOffPlatform (s : jsstring) : bool :=
  testAny [lit "whatsapp"; lit "telegram"; lit "contact me at"] s
  || wordThenDigits (lit "call") 10 s
  || wordThenDigits (lit "text") 10 s.

(** The pictograph ranges of the emoji character class. *)
Definition isEmoji (c : N) : bool :=
  let within lo hi := (lo <=? c)%N && (c <=? hi)%N in
  within 0x1F600%N 0x1F64F%N || within 0x1F300%N 0x1F5FF%N
  || within 0x1F680%N 0x1F6FF%N || within 0x1F700%N 0x1F77F%N
  || within 0x1F780%N 0x1F7FF%N || within 0x1F800%N 0x1F8FF%N
  || within 0x1F900%N 0x1F9FF%N || within 0x1FA00%N 0x1FA6F%N
  || within 0x1FA70%N 0x1FAFF%N || within 0x2600%N 0x26FF%N
  || within 0x2700%N 0x27BF%N.

Definition emojiCount (s : jsstring) : Z := len (filter isEmoji s).

(** [`${titleLower} ${descLower}`] *)
Definition fullText (listing : Listing) : jsstring :=
  toLowerCase (orEmpty (title listing)) ++ lit " " ++ toLowerCase (orEmpty (description listing)).

Definition isAllCapsTitle (listing : Listing) : bool :=
  truthyStr (title listing)
  && streq (orEmpty (title listing)) (toUpperCase (orEmpty (title listing)))
  && (5 <? strlen (orEmpty (title listing))).

(** One [if] of the scan: subtract the penalty and record the flag. *)
Definition raise (cond : bool) (flag : RedFlag) (st : Z * list RedFlag) : Z * list RedFlag :=
  if cond then (fst st - rf_penalty flag, snd st ++ [flag]) else st.

Definition mkFlag (idx : Z) (flag : string) (penalty : Z) : RedFlag :=
  {| rf_listing := idx + 1; rf_flag := flag; rf_count := None; rf_penalty := penalty |}.

(** The body of the [forEach((listing, idx) => ...)]. *)
Definition scanListing (st : Z * list RedFlag) (idx : Z) (listing : Listing)
  : Z * list RedFlag :=
  let text := fullText listing in
  let st := raise (reUrgency text) (mkFlag idx "Urgent language" penalties.urgent) st in
  let st := raise (reFinancialPressure text)
              (mkFlag idx "Financial pressure language" penalties.needMoneyAsap) st in
  let st := raise (reCashOnly text)
              (mkFlag idx "Cash only / suspicious payment" penalties.cashOnly) st in
  let st := raise (reFirstCome text)
              (mkFlag idx "First come first serve" penalties.firstComeFirstServe) st in
  let st := raise (reOffPlatform text)
              (mkFlag idx "Off-platform contact attempt" penalties.offPlatformContact) st in
  let st := raise (isAllCapsTitle listing)
              (mkFlag idx "ALL-CAPS title" penalties.allCapsTitle) st in
  let count := emojiCount text in
  raise (3 <? count)
    {| rf_listing := idx + 1; rf_flag := "Excessive emojis"; rf_count := Some count;
       rf_penalty := penalties.excessEmojis |} st.

Fixpoint scanListings (st : Z * list RedFlag) (idx : Z) (listings : list Listing)
  : Z * list RedFlag :=
  match listings with
  | [] => st
  | listing :: rest => scanListings (scanListing st idx listing) (idx + 1) rest
  end.

Definition calculateBehavioralRedFlagsScore
    (recentListings : list Listing) (sellerData : SellerData) : CategoryScore :=
  match recentListings with
  | [] =>
      let message :=
        if isPlatformUnavailable (da sellerData da_recentListings)
        then "Platform does not expose listings for behavioral analysis"%string
        else "No listings to analyze"%string in
      {| score := None; available := false; breakdown := MessageBreakdown message |}
  | _ :: _ =>
      let '(score, redFlags) := scanListings (100, []) 0 recentListings in
      {| score := Some (Z.max 0 score); available := true;
         breakdown := RedFlagsBreakdown 100 (len redFlags) redFlags (Z.max 0 score) |}
  end.

(** ** The categories object *)

Module Key.
Inductive t :=
| verificationIdentity | accountMaturity | listingCompleteness
| activityRecency | engagement | communityFeedback | behavioralRedFlags.

Definition eqb (a b : t) : bool :=
  match a, b with
  | verificationIdentity, verificationIdentity
  | accountMaturity, accountMaturity
  | listingCompleteness, listingCompleteness
  | activityRecency, activityRecency
  | engagement, engagement
  | communityFeedback, communityFeedback
  | behavioralRedFlags, behavioralRedFlags => true
  | _, _ => false
  end.
End Key.

Record Categories := {
  verificationIdentity : CategoryScore;
  accountMaturity : CategoryScore;
  listingCompleteness : CategoryScore;
  activityRecency : CategoryScore;
  engagement : CategoryScore;
  communityFeedback : CategoryScore;
  behavioralRedFlags : CategoryScore
}.

(** [categories[key]] *)
Definition get (categories : Categories) (key : Key.t) : CategoryScore :=
  match key with
  | Key.verificationIdentity => verificationIdentity categories
  | Key.accountMaturity => accountMaturity categories
  | Key.listingCompleteness => listingCompleteness categories
  | Key.activityRecency => activityRecency categories
  | Key.engagement => engagement categories
  | Key.communityFeedback => communityFeedback categories
  | Key.behavioralRedFlags => behavioralRedFlags categories
  end.

(** [Object.keys(categories)], in insertion order. *)
Definition keys : list Key.t :=
  [Key.verificationIdentity; Key.accountMaturity; Key.listingCompleteness;
   Key.activityRecency; Key.engagement; Key.communityFeedback; Key.behavioralRedFlags].

(** [Object.values(categories)] *)
Definition values (categories : Categories) : list CategoryScore :=
  map (get categories) keys.

(** [this.categoryWeights] *)
Definition categoryWeights (key : Key.t) : float :=
  match key with
  | Key.verificationIdentity => 0.25
  | Key.accountMaturity => 0.15
  | Key.listingCompleteness => 0.15
  | Key.activityRecency => 0.10
  | Key.engagement => 0.10
  | Key.communityFeedback => 0.10
  | Key.behavioralRedFlags => 0.15
  end%float.

(** A [null] score in a numeric comparison is the number 0. *)
Definition toNumber (s : option Z) : Z :=
  match s with
  | Some v => v
  | None => 0
  end.

Definition isNull (s : option Z) : bool :=
  match s with
  | Some _ => false
  | None => true
  end.

(** ** Confidence *)

Record ConfidenceMetrics := {
  confidence : float;
  coverage : float;
  recency : float;
  consistency : float;
  availableCategories : Z;
  totalCategories : Z;
  missingCategories : list Key.t
}.

(** 1. Coverage: how many categories have valid data. *)
Definition countAvailable (categories : Categories) : Z :=
  len (filter available (values categories)).

Definition coverageOf (categories : Categories) : float :=
  (Z2F (countAvailable categories) / Z2F (len keys))%float.

(** 2. Recency: based on activity. *)
Definition recencyOf (sellerData : SellerData) (recentListings : list Listing) : float :=
  match md sellerData lastSeen with
  | Some lastSeenDays =>
      let days := parseInt lastSeenDays in
      if leDays days 30 then 1.0%float
      else if leDays days 60 then 0.6%float
      else 0.3%float
  | None =>
      if 0 <? len recentListings then 0.6%float else 0.3%float
  end.

(** 3. Consistency: check for contradictory fields. *)
Definition hasBusinessIndicators (sellerData : SellerData) : bool :=
  includes (toLowerCase (orEmpty (pd sellerData bio))) (lit "we supply")
  || includes (toLowerCase (orEmpty (pd sellerData bio))) (lit "we sell").

Definition hasBasicIdentity (categories : Categories) : bool :=
  0 <? toNumber (score (verificationIdentity categories)).

Definition consistencyOf (sellerData : SellerData) (categories : Categories) : float :=
  (if hasBusinessIndicators sellerData && negb (hasBasicIdentity categories)
   then 0.7 else 1.0)%float.

(** [Math.round(x * 100) / 100] *)
Definition round2 (x : float) : float :=
  (Z2F (Math.round (x * 100)) / 100)%float.

Definition calculateConfidence
    (sellerData : SellerData) (recentListings : list Listing) (categories : Categories)
  : ConfidenceMetrics :=
  let coverage := coverageOf categories in
  let recency := recencyOf sellerData recentListings in
  let consistency := consistencyOf sellerData categories in
  let confidence := ((0.5 * coverage) + (0.3 * recency) + (0.2 * consistency))%float in
  {| confidence := round2 confidence;
     coverage := round2 coverage;
     recency := round2 recency;
     consistency := round2 consistency;
     availableCategories := countAvailable categories;
     totalCategories := len keys;
     missingCategories := filter (fun key => negb (available (get categories key))) keys |}.

(** ** Final score with reweighting *)

Record FinalScore := {
  finalScore : Z;
  normalizedWeights : list (Key.t * Z)
}.

(** [categories[key].available && categories[key].score !== null] *)
Definition counted (categories : Categories) (key : Key.t) : bool :=
  available (get categories key) && negb (isNull (score (get categories key))).

(** The first loop: the total weight of the available categories. *)
Definition totalWeightOf (categories : Categories) : float :=
  fold_left
    (fun totalWeight key =>
       if counted categories key
       then (totalWeight + categoryWeights key)%float
       else totalWeight)
    keys 0%float.

Definition calculateFinalScore (categories : Categories) : FinalScore :=
  let totalWeight := totalWeightOf categories in
  (* If no categories available, return 0 *)
  if PrimFloat.eqb totalWeight 0 then
    {| finalScore := 0; normalizedWeights := [] |}
  else
    (* Calculate weighted score with renormalization *)
    let '(weightedSum, normalizedWeights) :=
      fold_left
        (fun '(weightedSum, normalizedWeights) key =>
           if counted categories key then
             let normalizedWeight := (categoryWeights key / totalWeight)%float in
             ((weightedSum
               + Z2F (toNumber (score (get categories key))) * normalizedWeight)%float,
              normalizedWeights ++ [(key, Math.round (normalizedWeight * 100))])
           else
             (weightedSum, normalizedWeights ++ [(key, 0)]))
        keys (0%float, []) in
    {| finalScore := Math.round weightedSum; normalizedWeights := normalizedWeights |}.

(** [normalizedWeights[key]]; [None] when the key was never assigned. *)
Fixpoint lookup (key : Key.t) (o : list (Key.t * Z)) : option Z :=
  match o with
  | [] => None
  | (k, v) :: rest => if Key.eqb key k then Some v else lookup key rest
  end.

(** ** Recommendations, labels, risks and strengths *)

Record Recommendation := {
  rec_type : string;
  rec_priority : option string;
  rec_message : string;
  rec_action : string
}.

Record RiskFactor := {
  risk_category : string;
  risk_severity : string;
  risk_issue : string
}.

Record Strength := {
  st_category : Key.t;
  st_score : option Z;
  st_message : string
}.

(** [c.available && c.score < n] *)
Definition availableBelow (c : CategoryScore) (n : Z) : bool :=
  available c && (toNumber (score c) <? n).

Definition pushIf {A} (cond : bool) (x : A) (l : list A) : list A :=
  if cond then l ++ [x] else l.

Definition generateRecommendations (finalScore : Z) (categories : Categories)
  : list Recommendation :=
  let recommendations :=
    if 80 <=? finalScore then
      [{| rec_type := "positive"; rec_priority := Some "high"%string;
          rec_message := "Highly trustworthy seller with excellent verification and track record";
          rec_action := "Safe to Purchase" |}]
    else if 60 <=? finalScore then
      [{| rec_type := "positive"; rec_priority := Some "medium"%string;
          rec_message := "Good trust indicators with minor concerns";
          rec_action := "Consider for Purchase" |}]
    else if 40 <=? finalScore then
      [{| rec_type := "warning"; rec_priority := Some "high"%string;
          rec_message := "Mixed trust indicators - proceed with caution";
          rec_action := "Review Carefully Before Purchase" |}]
    else
      [{| rec_type := "negative"; rec_priority := Some "critical"%string;
          rec_message := "Low trust score - high risk transaction";
          rec_action := "Avoid or Request Additional Verification" |}] in
  let recommendations :=
    pushIf (availableBelow (verificationIdentity categories) 50)
      {| rec_type := "warning"; rec_priority := Some "high"%string;
         rec_message := "Seller is not verified - identity cannot be confirmed";
         rec_action := "Request verification before proceeding" |} recommendations in
  let recommendations :=
    pushIf (availableBelow (behavioralRedFlags categories) 70)
      {| rec_type := "warning"; rec_priority := Some "critical"%string;
         rec_message :=
           "Multiple red flags detected in listings (urgency, suspicious payment requests)";
         rec_action := "Exercise extreme caution or avoid" |} recommendations in
  pushIf (availableBelow (communityFeedback categories) 40)
    {| rec_type := "warning"; rec_priority := Some "medium"%string;
       rec_message := "Limited or poor community feedback";
       rec_action := "Check reviews carefully" |} recommendations.

Definition determineTrustLevel (score : Z) : string :=
  if 80 <=? score then "Excellent"
  else if 60 <=? score then "Good"
  else if 40 <=? score then "Fair"
  else if 20 <=? score then "Poor"
  else "Very Poor".

Definition getConfidenceLabel (confidence : float) : string :=
  if PrimFloat.leb 0.80 confidence then "Very High"
  else if PrimFloat.leb 0.60 confidence then "High"
  else if PrimFloat.leb 0.40 confidence then "Medium"
  else if PrimFloat.leb 0.20 confidence then "Low"
  else "Very Low".

Definition identifyRiskFactors (categories : Categories) : list RiskFactor :=
  let risks := [] in
  let risks :=
    pushIf (availableBelow (verificationIdentity categories) 30)
      {| risk_category := "Verification & Identity"; risk_severity := "high";
         risk_issue := "Unverified seller identity" |} risks in
  let risks :=
    pushIf (availableBelow (accountMaturity categories) 40)
      {| risk_category := "Account Maturity"; risk_severity := "medium";
         risk_issue := "Very new account (less than 3 months)" |} risks in
  let risks :=
    pushIf (availableBelow (behavioralRedFlags categories) 70)
      {| risk_category := "Behavioral Red Flags"; risk_severity := "critical";
         risk_issue := "Suspicious language patterns detected" |} risks in
  pushIf (availableBelow (communityFeedback categories) 40)
    {| risk_category := "Community Feedback"; risk_severity := "medium";
       risk_issue := "Poor or insufficient reviews" |} risks.

Definition getStrengthMessage (category : Key.t) (score : option Z) : string :=
  match category with
  | Key.verificationIdentity => "Fully verified identity with complete profile"
  | Key.accountMaturity => "Well-established account with long history"
  | Key.listingCompleteness => "High-quality, detailed listings"
  | Key.activityRecency => "Very active and responsive seller"
  | Key.engagement => "Excellent response rate to buyers"
  | Key.communityFeedback => "Strong positive feedback from buyers"
  | Key.behavioralRedFlags => "No suspicious behavior detected"
  end.

Definition identifyStrengths (categories : Categories) : list Strength :=
  fold_left
    (fun strengths key =>
       pushIf (available (get categories key)
               && (80 <=? toNumber (score (get categories key))))
         {| st_category := key;
            st_score := score (get categories key);
            st_message := getStrengthMessage key (score (get categories key)) |}
         strengths)
    keys [].

(** ** The engine *)

Inductive ScoringResult :=
| InsufficientData
    (message : string) (confidence coverage : float) (availableCategories : Z)
    (missingCategories : list Key.t) (recommendations : list Recommendation)
| Success
    (pulseScore : Z) (confidence : float) (confidenceLevel trustLevel : string)
    (categories : Categories) (categoryWeights : list (Key.t * Z))
    (confidenceMetrics : ConfidenceMetrics) (recommendations : list Recommendation)
    (riskFactors : list RiskFactor) (strengthAreas : list Strength).

Definition status (r : ScoringResult) : string :=
  match r with
  | InsufficientData _ _ _ _ _ _ => "insufficient_data"
  | Success _ _ _ _ _ _ _ _ _ _ => "success"
  end.

(** The result's [pulseScore] property; [None] when the object has none. *)
Definition pulseScoreOf (r : ScoringResult) : option Z :=
  match r with
  | InsufficientData _ _ _ _ _ _ => None
  | Success pulseScore _ _ _ _ _ _ _ _ _ => Some pulseScore
  end.

Definition categoryWeightsOf (r : ScoringResult) : list (Key.t * Z) :=
  match r with
  | InsufficientData _ _ _ _ _ _ => []
  | Success _ _ _ _ _ weights _ _ _ _ => weights
  end.

(** Calculate each category score. *)
Definition scoreCategories
    (sellerData : SellerData) (recentListings : list Listing)
    (veribleFeedback : option VeribleFeedback) : Categories :=
  {| verificationIdentity := calculateVerificationIdentityScore sellerData;
     accountMaturity := calculateAccountMaturityScore sellerData;
     listingCompleteness := calculateListingCompletenessScore recentListings sellerData;
     activityRecency := calculateActivityRecencyScore sellerData recentListings;
     engagement := calculateEngagementScore sellerData;
     communityFeedback := calculateCommunityFeedbackScore sellerData veribleFeedback;
     behavioralRedFlags := calculateBehavioralRedFlagsScore recentListings sellerData |}.

(** [confidenceMetrics.confidence < 0.35 || confidenceMetrics.coverage < 0.40] *)
Definition notEnoughData (confidenceMetrics : ConfidenceMetrics) : bool :=
  PrimFloat.ltb (confidence confidenceMetrics) 0.35
  || PrimFloat.ltb (coverage confidenceMetrics) 0.40.

Definition insufficientDataAdvice : Recommendation :=
  {| rec_type := "warning"; rec_priority := None;
     rec_message := "Insufficient data to generate reliable trust score";
     rec_action := "More seller activity or profile information needed" |}.

(** No scorer, evaluator or synthesiser above raises on an input of these
    types, so the [try]/[catch] of the method never fires and the promise
    resolves with the value computed here. *)
Definition calculatePulseScore
    (sellerData : SellerData) (recentListings : list Listing)
    (veribleFeedback : option VeribleFeedback) : ScoringResult :=
  let categories := scoreCategories sellerData recentListings veribleFeedback in
  let confidenceMetrics := calculateConfidence sellerData recentListings categories in
  if notEnoughData confidenceMetrics then
    InsufficientData "Not Enough Data"
      (confidence confidenceMetrics) (coverage confidenceMetrics)
      (availableCategories confidenceMetrics) (missingCategories confidenceMetrics)
      [insufficientDataAdvice]
  else
    let fs := calculateFinalScore categories in
    let recommendations := generateRecommendations (finalScore fs) categories in
    let trustLevel := determineTrustLevel (finalScore fs) in
    let riskFactors := identifyRiskFactors categories in
    Success (finalScore fs) (confidence confidenceMetrics)
      (getConfidenceLabel (confidence confidenceMetrics)) trustLevel
      categories (normalizedWeights fs) confidenceMetrics
      recommendations riskFactors (identifyStrengths categories).

(** ** The specification's vocabulary *)

(** The invariant of a category score: the score is [null] exactly when the
    category is unavailable, and a score that is present lies in [0,100]. *)
Definition CategoryScoreInvariant (c : CategoryScore) : Prop :=
  (score c = None <-> available c = false)
  /\ (forall s, score c = Some s -> 0 <= s <= 100).

(** The unavailable outcome of a scorer. *)
Definition unavailableOutcome (c : CategoryScore) : Prop :=
  score c = None /\ available c = false.

(** Sums of numbers, accumulated from 0 in list order as the loops do. *)
Definition fsum (l : list float) : float := fold_left PrimFloat.add l 0%float.

Definition zsum (l : list Z) : Z := fold_right Z.add 0 l.

(** Aggregator, in the specification's words: the available categories, the
    sum of their fixed weights, the normalized weight of a category and the
    weighted sum of the scores. *)
Definition availableKeys (categories : Categories) : list Key.t :=
  filter (fun key => available (get categories key)) keys.

Definition totalAvailableWeight (categories : Categories) : float :=
  fsum (map categoryWeights (availableKeys categories)).

Definition normalizedWeightOf (categories : Categories) (key : Key.t) : float :=
  (categoryWeights key / totalAvailableWeight categories)%float.

Definition weightedScoreSum (categories : Categories) : float :=
  fsum (map (fun key =>
               (Z2F (toNumber (score (get categories key)))
                * normalizedWeightOf categories key)%float)
          (availableKeys categories)).

(** Listing completeness, in the specification's words: the points of one
    listing. A price is present and numeric-looking when the price string is
    not empty and the extractor did not mark it with [hasPrice: false] (the
    mark it gives a "Contact for price" entry). *)
Definition titlePresent (l : Listing) : bool := truthyStr (title l).

Definition pricePresentNumeric (l : Listing) : bool :=
  truthyStr (price l)
  && match hasPrice l with Some false => false | _ => true end.

Definition descriptionAtLeast100 (l : Listing) : bool :=
  truthyStr (description l) && geNum (descriptionLength l) 100.

Definition listingPoints (l : Listing) : Z :=
  (if titlePresent l then 5 else 0)
  + (if pricePresentNumeric l then 10 else 0)
  + (if geNum (imageCount l) 3 then 15 else if geNum (imageCount l) 1 then 5 else 0)
  + (if descriptionAtLeast100 l then 20 else 0).

Definition completenessOf (evaluated : list Listing) : Z :=
  let avg := (Z2F (zsum (map listingPoints evaluated)) / Z2F (len evaluated))%float in
  Math.round (Math.min 100 (avg / 50 * 100)%float).

(** Community feedback, in the specification's words. *)
Definition reviewCountOf (sellerData : SellerData) : float :=
  orZero (md sellerData totalReviews).

Definition avgRatingOf (sellerData : SellerData) : float :=
  orZero (md sellerData avgRating).

Definition baseTier (reviewCount avgRating : float) : Z :=
  if PrimFloat.leb 10 reviewCount || PrimFloat.leb 4.5 avgRating then 100
  else if PrimFloat.leb 5 reviewCount then 70
  else if PrimFloat.leb 1 reviewCount then 40
  else 0.

Definition netFeedbackOf (fb : VeribleFeedback) : Z :=
  lengthOrZero (endorsements fb) - lengthOrZero (flags fb).

Definition adjustByNet (base net : Z) : Z :=
  if 0 <? net then Z.min 100 (base + net * 5)
  else if net <? 0 then Z.max 0 (base - Z.abs net * 10)
  else base.

(** The two cases of a Basic Latin code point. *)
Definition asciiLower (c : N) : N :=
  if (65 <=? c)%N && (c <=? 90)%N then (c + 32)%N else c.

Definition asciiUpper (c : N) : N :=
  if (97 <=? c)%N && (c <=? 122)%N then (c - 32)%N else c.

(** On Basic Latin the case mappings are the ones above, and no Basic Latin
    code point is U+03A3. *)
Definition asciiCaseCheck (c : N) : bool :=
  match toLowerChar c, toUpperChar c with
  | [l], [u] => (l =? asciiLower c)%N && (u =? asciiUpper c)%N && negb (c =? 0x3A3)%N
  | _, _ => false
  end.

(** What a code point contributes to the lower-cased string: for a Basic
    Latin code point, its lower case and nothing else, in every context. *)
Definition lowersTo (c : N) (piece : jsstring) : Prop :=
  (c <? 128)%N = true -> piece = [asciiLower c].

(** The raw title and description, joined as the analyzer joins them. *)
Definition rawText (listing : Listing) : jsstring :=
  orEmpty (title listing) ++ lit " " ++ orEmpty (description listing).

Definition scamPhrase : jsstring := lit "URGENT, CASH ONLY, message me on WhatsApp".

(** The sum of the values of a [categoryWeights] object. *)
Definition sumWeights (o : list (Key.t * Z)) : Z := zsum (map snd o).

(** The completeness score of [n] listings whose points total [t] lies in
    [0,100]: a check that is run over every reachable pair. *)
Definition completenessCheck (n t : Z) : bool :=
  let r := Math.round (Math.min 100 (Z2F t / Z2F n / 50 * 100)%float) in
  (0 <=? r) && (r <=? 100).

(** ** Sample inputs *)

Definition emptyProfile : SellerData :=
  {| profileData := None; marketplaceData := None; dataAvailability := None |}.

Definition marketOnly (m : MarketplaceData) : SellerData :=
  {| profileData := None; marketplaceData := Some m; dataAvailability := None |}.

Definition textListing (t d : string) : Listing :=
  {| title := Some (lit t); price := None; hasPrice := None; imageCount := None;
     description := Some (lit d); descriptionLength := None |}.

(** A seller known only by a 4.6 average rating (no review count), as the
    Jumia extractor derives it from a seller score. *)
Definition ratedWithoutReviews : SellerData :=
  marketOnly {| verificationStatus := None; accountAge := None; lastSeen := None;
                responseRate := None; totalReviews := Some 0%float;
                avgRating := Some 4.6%float |}.

Definition oneReview : SellerData :=
  marketOnly {| verificationStatus := None; accountAge := None; lastSeen := None;
                responseRate := None; totalReviews := Some 1%float;
                avgRating := None |}.

Definition someone : FeedbackEntry := {| fb_userId := lit "u1"; fb_reason := None |}.

Definition twoEndorsementsFiveFlags : VeribleFeedback :=
  {| endorsements := Some [someone; someone];
     flags := Some [someone; someone; someone; someone; someone] |}.

Definition scamListing : Listing :=
  textListing "Phone for sale" "URGENT, CASH ONLY, message me on WhatsApp".

Definition plainListing : Listing := textListing "Phone" "nice phone".

Definition fullListing : Listing :=
  {| title := Some (lit "Samsung Galaxy S21 128GB"); price := Some (lit "250000");
     hasPrice := Some true; imageCount := Some 1%float;
     description := Some (lit "Clean phone"); descriptionLength := Some 11%float |}.

(** A fully documented seller: ID verified, photo and location, 18 months
    old, seen 2 days ago, 92% response rate, 85 reviews averaging 4.7. *)
Definition establishedSeller : SellerData :=
  {| profileData :=
       Some {| profilePicture := Some (lit "https://img.example/p.jpg");
               location := Some (lit "Lagos"); bio := None |};
     marketplaceData :=
       Some {| verificationStatus := Some (lit "ID Verified");
               accountAge := Some 18%float; lastSeen := Some (lit "2");
               responseRate := Some 92%float; totalReviews := Some 85%float;
               avgRating := Some 4.7%float |};
     dataAvailability := None |}.

(** Confidence metrics with a given confidence and coverage. *)
Definition metricsWith (confidence coverage : float) : ConfidenceMetrics :=
  {| confidence := confidence; coverage := coverage; recency := 1; consistency := 1;
     availableCategories := 4; totalCategories := 7; missingCategories := [] |}.

(** An unverified seller whose bio reads like a business, last seen 12 days
    ago. *)
Definition unverifiedTrader : SellerData :=
  {| profileData :=
       Some {| profilePicture := None; location := None;
               bio := Some (lit "We sell phones and accessories") |};
     marketplaceData :=
       Some {| verificationStatus := None; accountAge := None;
               lastSeen := Some (lit "12"); responseRate := None;
               totalReviews := None; avgRating := None |};
     dataAvailability := None |}.

(** ** Further vocabulary *)

(** The result's [confidenceLevel] property. *)
Definition confidenceLevelOf (r : ScoringResult) : option string :=
  match r with
  | InsufficientData _ _ _ _ _ _ => None
  | Success _ _ level _ _ _ _ _ _ _ => Some level
  end.

(** The recency a given Activity & Recency score goes with. *)
Definition recencyOfActivity (s : option Z) : float :=
  match s with
  | Some v =>
      if (v =? 100) || (v =? 70) then 1.0%float
      else if (v =? 40) || (v =? 50) then 0.6%float
      else 0.3%float
  | None => 0.3%float
  end.

(** The completeness score of [n] evaluated listings with [t] points. *)
Definition completenessScoreOf (n t : Z) : Z :=
  Math.round (Math.min 100 (Z2F t / Z2F n / 50 * 100)%float).

(** Checks run over every number of evaluated listings and every total that
    is a multiple of 5: one more step of 5 points never lowers the score,
    only the full total reaches 100, only the empty total gives 0. *)
Definition completenessStepCheck (n u : Z) : bool :=
  (completenessScoreOf n (5 * u) <=? completenessScoreOf n (5 * (u + 1)))
  && (completenessScoreOf n (5 * u) <? 100)
  && (0 <? completenessScoreOf n (5 * (u + 1))).

Definition completenessEndsCheck (n : Z) : bool :=
  (completenessScoreOf n 0 =? 0) && (completenessScoreOf n (50 * n) =? 100).

(** The red flags one listing raises, and those of a list of listings
    scanned from index [idx]. *)
Definition listingFlags (idx : Z) (listing : Listing) : list RedFlag :=
  snd (scanListing (0, []) idx listing).

Fixpoint allFlags (idx : Z) (listings : list Listing) : list RedFlag :=
  match listings with
  | [] => []
  | listing :: rest => listingFlags idx listing ++ allFlags (idx + 1) rest
  end.

Definition penaltySum (flags : list RedFlag) : Z := zsum (map rf_penalty flags).

(** The same seller without profile data. *)
Definition stripProfile (sellerData : SellerData) : SellerData :=
  {| profileData := None;
     marketplaceData := marketplaceData sellerData;
     dataAvailability := dataAvailability sellerData |}.

(** [hasPhoto] and [hasLocation] of the Verification & Identity scorer. *)
Definition hasPhotoOf (sellerData : SellerData) : bool :=
  truthyStr (pd sellerData profilePicture).

Definition hasLocationOf (sellerData : SellerData) : bool :=
  truthyStr (pd sellerData location)
  && negb (streq (orEmpty (pd sellerData location)) (lit "Not specified")).

(** The [verificationType] of a Verification & Identity breakdown. *)
Definition verificationTypeOf (c : CategoryScore) : option string :=
  match breakdown c with
  | VerificationBreakdown t _ _ => Some t
  | _ => None
  end.

(** ** The caller's feedback object *)

(** The part of a stored seller document that [buildVeribleFeedback] reads. *)
Record SellerRecord := {
  sr_endorsements : option (list FeedbackEntry);
  sr_flags : option (list FeedbackEntry)
}.

(** [a || []] on a possibly missing array. *)
Definition orEmptyList {A} (a : option (list A)) : list A :=
  match a with
  | Some l => l
  | None => []
  end.

Definition buildVeribleFeedback (seller : option SellerRecord) : option VeribleFeedback :=
  match seller with
  | None => None
  | Some seller =>
      Some {| endorsements := Some (orEmptyList (sr_endorsements seller));
              flags := Some (orEmptyList (sr_flags seller)) |}
  end.

Definition freshRecord : SellerRecord :=
  {| sr_endorsements := Some []; sr_flags := None |}.

Definition verifiedOnly (status : string) : SellerData :=
  marketOnly {| verificationStatus := Some (lit status); accountAge := None;
                lastSeen := None; responseRate := None; totalReviews := None;
                avgRating := None |}.

Definition lastSeenOnly (text : string) : SellerData :=
  marketOnly {| verificationStatus := None; accountAge := None;
                lastSeen := Some (lit text); responseRate := None;
                totalReviews := None; avgRating := None |}.

(** ** Reading the synthesiser's lists *)

Definition hasRisk (category : string) (risks : list RiskFactor) : bool :=
  existsb (fun r => String.eqb (risk_category r) category) risks.

Definition hasAction (action : string) (recommendations : list Recommendation) : bool :=
  existsb (fun r => String.eqb (rec_action r) action) recommendations.

(** The overall action that goes with a trust level. *)
Definition actionForTrustLevel (level : string) : string :=
  if String.eqb level "Excellent" then "Safe to Purchase"
  else if String.eqb level "Good" then "Consider for Purchase"
  else if String.eqb level "Fair" then "Review Carefully Before Purchase"
  else "Avoid or Request Additional Verification".

(** The display name under which a category's risk factor is reported. *)
Definition riskNameOf (key : Key.t) : option string :=
  match key with
  | Key.verificationIdentity => Some "Verification & Identity"%string
  | Key.accountMaturity => Some "Account Maturity"%string
  | Key.behavioralRedFlags => Some "Behavioral Red Flags"%string
  | Key.communityFeedback => Some "Community Feedback"%string
  | _ => None
  end.

(** [c.available && c.score >= 80] *)
Definition strong (categories : Categories) (key : Key.t) : bool :=
  available (get categories key) && (80 <=? toNumber (score (get categories key))).

(** Every available category scoring [s] gives the final score [s]: the
    check of one selection of categories over every score from 0 to 100. *)
Definition uniformFinal (selected : list Key.t) (s : Z) : Z :=
  Math.round
    (fsum (map (fun key =>
                  (Z2F s * (categoryWeights key / fsum (map categoryWeights selected)))%float)
             selected)).

Definition uniformCheck (selected : list Key.t) : bool :=
  forallb (fun s => uniformFinal selected (Z.of_nat s) =? Z.of_nat s) (seq 0 101).

Definition isLowerLetter (c : N) : bool := (97 <=? c)%N && (c <=? 122)%N.

Definition isAsciiText (s : jsstring) : bool := forallb (fun c => (c <? 128)%N) s.

(** ** The stored seller: feedback actions and risk assessment *)

(** [seller.netFeedbackScore] *)
Definition netFeedbackScore (seller : SellerRecord) : Z :=
  let flagsCount := lengthOrZero (sr_flags seller) in
  let endorsementsCount := lengthOrZero (sr_endorsements seller) in
  endorsementsCount - flagsCount.

(** [seller.addFlag(userId, reason)] and [seller.addEndorsement(userId,
    reason)], as they change the document in memory; the entry's timestamp is
    the wall clock and is not kept. *)
Definition addFlag (seller : SellerRecord) (userId : jsstring) (reason : option jsstring)
  : SellerRecord :=
  {| sr_endorsements := sr_endorsements seller;
     sr_flags :=
       Some (orEmptyList (sr_flags seller)
             ++ [{| fb_userId := userId; fb_reason := reason |}]) |}.

Definition addEndorsement
    (seller : SellerRecord) (userId : jsstring) (reason : option jsstring) : SellerRecord :=
  {| sr_endorsements :=
       Some (orEmptyList (sr_endorsements seller)
             ++ [{| fb_userId := userId; fb_reason := reason |}]);
     sr_flags := sr_flags seller |}.

Module SellerAnalysis.

(** [pulseScore] is the stored integer score, [flagCount] an array length. *)
Definition assessRiskLevel (pulseScore flagCount : Z) : string :=
  if (70 <=? pulseScore) && (flagCount =? 0) then "Low Risk"
  else if (50 <=? pulseScore) && (flagCount <? 3) then "Medium Risk"
  else if (30 <=? pulseScore) || (3 <=? flagCount) then "High Risk"
  else "Very High Risk".

(** The predicate of the dashboard's high-risk filter. *)
Definition isHighRisk (pulseScore : Z) (flags : option (list FeedbackEntry)) : bool :=
  let riskLevel := assessRiskLevel pulseScore (lengthOrZero flags) in
  (pulseScore <? 40)
  || String.eqb riskLevel "High Risk"
  || String.eqb riskLevel "Very High Risk".

End SellerAnalysis.

(** ** More sample inputs *)

Definition twoEndorsementsNoFlags : VeribleFeedback :=
  {| endorsements := Some [someone; someone]; flags := Some [] |}.

(** Categories that are all unavailable, and categories of which four are
    available, each with score [s]. *)
Definition notScored : CategoryScore :=
  {| score := None; available := false; breakdown := MessageBreakdown "n/a" |}.

Definition noCategories : Categories :=
  {| verificationIdentity := notScored; accountMaturity := notScored;
     listingCompleteness := notScored; activityRecency := notScored;
     engagement := notScored; communityFeedback := notScored;
     behavioralRedFlags := notScored |}.

Definition scoring (s : Z) : CategoryScore :=
  {| score := Some s; available := true; breakdown := MessageBreakdown "scored" |}.

Definition uniformCategories (s : Z) : Categories :=
  {| verificationIdentity := scoring s; accountMaturity := notScored;
     listingCompleteness := scoring s; activityRecency := scoring s;
     engagement := notScored; communityFeedback := notScored;
     behavioralRedFlags := scoring s |}.

Definition numberPlateListing : Listing := textListing "2015 BMW X5" "one owner".

(** ** The confidence formula in exact arithmetic *)

(** How many of the seven categories are available. *)
Definition availableCategoryCount (cats : Categories) : Z :=
  Z.b2z (available (verificationIdentity cats))
  + Z.b2z (available (accountMaturity cats))
  + Z.b2z (available (listingCompleteness cats))
  + Z.b2z (available (activityRecency cats))
  + Z.b2z (available (engagement cats))
  + Z.b2z (available (communityFeedback cats))
  + Z.b2z (available (behavioralRedFlags cats)).

(** The binary64 numbers nearest to [k/10] and to [k/100]: what the decimal
    literals with one and two decimals denote. *)
Definition tenths (k : Z) : float := (Z2F k / 10)%float.
Definition hundredths (k : Z) : float := (Z2F k / 100)%float.

(** [k/100] is the rational [x] rounded to 2 decimals. *)
Definition roundedTo2 (x : Q) (k : Z) : Prop :=
  (Qabs (x - (k # 100)) <= 1 # 200)%Q.

(** [0.5*coverage + 0.3*recency + 0.2*consistency] for [n] available
    categories out of 7, recency [r/10] and consistency [c/10]. *)
Definition exactConfidence (n r c : Z) : Q :=
  ((1 # 2) * (n # 7) + (3 # 10) * (r # 10) + (2 # 10) * (c # 10))%Q.

(** The bio, lower-cased, contains "we supply" or "we sell". *)
Definition businessLanguage (sd : SellerData) : Prop :=
  exists phrase before after,
    In phrase [lit "we supply"; lit "we sell"]
    /\ toLowerCase (orEmpty (pd sd bio)) = before ++ phrase ++ after.

(** ** Samples beyond Basic Latin *)

(** "Phone, quicK sale" spelt with U+212A KELVIN SIGN, and a listing whose
    title is a lower-case Cyrillic word of six letters. *)
Definition kelvinListing : Listing :=
  {| title := Some (lit "Phone"); price := None; hasPrice := None; imageCount := None;
     description := Some (lit "quic" ++ [0x212A]%N ++ lit " sale");
     descriptionLength := None |}.

Definition cyrillicListing : Listing :=
  {| title := Some [0x43F; 0x440; 0x438; 0x432; 0x435; 0x442]%N; price := None;
     hasPrice := None; imageCount := None; description := None;
     descriptionLength := None |}.


(** * Properties *)

Ltac break_if :=
  repeat match goal with
         | |- context [if ?c then _ else _] => destruct c
         end.

Ltac split_all :=
  repeat match goal with
         | |- _ /\ _ => split
         end.

Create HintDb scorers.

(** ** The invariant of every category score *)

Lemma invariant_available (s : Z) (b : Breakdown) :
  0 <= s <= 100 ->
  CategoryScoreInvariant {| score := Some s; available := true; breakdown := b |}.
Proof.
  intros Hs. split; simpl.
  - split; discriminate.
  - intros s' H. injection H as <-. exact Hs.
Qed.

Lemma invariant_unavailable (b : Breakdown) :
  CategoryScoreInvariant {| score := None; available := false; breakdown := b |}.
Proof.
  split; simpl.
  - split; reflexivity.
  - discriminate.
Qed.

Ltac by_outcome :=
  first [apply invariant_unavailable | apply invariant_available; lia].

Lemma verification_invariant sd :
  CategoryScoreInvariant (calculateVerificationIdentityScore sd).
Proof. unfold calculateVerificationIdentityScore. break_if; by_outcome. Qed.

Lemma verification_available sd :
  available (calculateVerificationIdentityScore sd) = true.
Proof. unfold calculateVerificationIdentityScore. break_if; reflexivity. Qed.

Lemma verification_scored sd :
  exists s, score (calculateVerificationIdentityScore sd) = Some s.
Proof.
  unfold calculateVerificationIdentityScore. break_if; eexists; reflexivity.
Qed.

Lemma maturity_invariant sd :
  CategoryScoreInvariant (calculateAccountMaturityScore sd).
Proof. unfold calculateAccountMaturityScore. break_if; by_outcome. Qed.

Lemma activity_invariant sd rl :
  CategoryScoreInvariant (calculateActivityRecencyScore sd rl).
Proof.
  unfold calculateActivityRecencyScore.
  destruct (md sd lastSeen); break_if; by_outcome.
Qed.

Lemma engagement_invariant sd :
  CategoryScoreInvariant (calculateEngagementScore sd).
Proof.
  unfold calculateEngagementScore.
  destruct (md sd responseRate); break_if; by_outcome.
Qed.

Lemma feedback_invariant sd vf :
  CategoryScoreInvariant (calculateCommunityFeedbackScore sd vf).
Proof.
  unfold calculateCommunityFeedbackScore.
  destruct vf; cbv zeta; break_if; by_outcome.
Qed.

(** The scan only ever subtracts. *)
Lemma raise_le c f st : 0 <= rf_penalty f -> fst (raise c f st) <= fst st.
Proof. intros H. unfold raise. destruct c; simpl; lia. Qed.

Lemma scanListing_le st idx l : fst (scanListing st idx l) <= fst st.
Proof.
  unfold scanListing.
  repeat (etransitivity;
          [apply raise_le; simpl;
           unfold penalties.urgent, penalties.needMoneyAsap, penalties.cashOnly,
             penalties.firstComeFirstServe, penalties.offPlatformContact,
             penalties.allCapsTitle, penalties.excessEmojis; lia|]).
  lia.
Qed.

Lemma scanListings_le ls : forall st idx, fst (scanListings st idx ls) <= fst st.
Proof.
  induction ls as [|l ls IH]; intros st idx; simpl.
  - lia.
  - etransitivity; [apply IH | apply scanListing_le].
Qed.

Lemma redflags_invariant rl sd :
  CategoryScoreInvariant (calculateBehavioralRedFlagsScore rl sd).
Proof.
  unfold calculateBehavioralRedFlagsScore.
  destruct rl as [|l rl]; [apply invariant_unavailable|].
  pose proof (scanListings_le (l :: rl) (100, []) 0) as Hle.
  destruct (scanListings (100, []) 0 (l :: rl)) as [sc fl].
  apply invariant_available. simpl in Hle. lia.
Qed.

(** ** Listing completeness *)

Lemma strlen_nonneg s : 0 <= strlen s.
Proof.
  induction s as [|c s IH]; simpl; [lia|].
  destruct (65536 <=? c)%N; lia.
Qed.

Lemma truthy_strlen t :
  truthyStr t && (0 <? strlen (orEmpty t)) = truthyStr t.
Proof.
  destruct t as [[|c s]|]; simpl; try reflexivity.
  pose proof (strlen_nonneg s).
  destruct (65536 <=? c)%N; apply Z.ltb_lt; lia.
Qed.

Lemma evaluateListing_points l : ev_score (evaluateListing l) = listingPoints l.
Proof.
  unfold evaluateListing, listingPoints, titlePresent, pricePresentNumeric,
    descriptionAtLeast100.
  rewrite !truthy_strlen.
  destruct (truthyStr (title l)), (truthyStr (price l)), (hasPrice l) as [[|]|],
    (geNum (imageCount l) 3), (geNum (imageCount l) 1),
    (truthyStr (description l)), (geNum (descriptionLength l) 100); reflexivity.
Qed.

Lemma listingPoints_range l : 0 <= listingPoints l <= 50.
Proof.
  unfold listingPoints.
  destruct (titlePresent l), (pricePresentNumeric l), (geNum (imageCount l) 3),
    (geNum (imageCount l) 1), (descriptionAtLeast100 l); lia.
Qed.

(** The [forEach] accumulates the points and the evaluations in order. *)
Lemma evaluate_fold ls : forall t ev,
  fold_left
    (fun '(totalScore, evaluations) listing =>
       let e := evaluateListing listing in
       (totalScore + ev_score e, evaluations ++ [e]))
    ls (t, ev)
  = (t + zsum (map listingPoints ls), ev ++ map evaluateListing ls).
Proof.
  induction ls as [|l ls IH]; intros t ev; simpl.
  - rewrite Z.add_0_r, app_nil_r. reflexivity.
  - rewrite IH, evaluateListing_points, <- app_assoc. simpl. f_equal. lia.
Qed.

Lemma completeness_score l ls sd :
  calculateListingCompletenessScore (l :: ls) sd
  = {| score := Some (completenessOf (firstn 5 (l :: ls)));
       available := true;
       breakdown :=
         ListingsBreakdown (len (firstn 5 (l :: ls)))
           (Math.round (Z2F (zsum (map listingPoints (firstn 5 (l :: ls))))
                        / Z2F (len (firstn 5 (l :: ls))))%float)
           (map evaluateListing (firstn 5 (l :: ls))) |}.
Proof.
  unfold calculateListingCompletenessScore, completenessOf.
  rewrite evaluate_fold. reflexivity.
Qed.

Lemma zsum_points_range ls :
  0 <= zsum (map listingPoints ls) <= 50 * len ls.
Proof.
  unfold len. induction ls as [|l ls IH]; simpl zsum.
  - simpl. lia.
  - pose proof (listingPoints_range l). simpl List.length. lia.
Qed.

(** Every pair (number of listings, total points) the scorer can reach. *)
Lemma completenessCheck_all :
  forallb (fun n => forallb (fun t => completenessCheck (Z.of_nat n) (Z.of_nat t))
                      (seq 0 (50 * n + 1)))
    (seq 1 5) = true.
Proof. vm_compute. reflexivity. Qed.

Lemma completeness_range ls :
  1 <= len ls <= 5 -> 0 <= completenessOf ls <= 100.
Proof.
  intros Hn. pose proof (zsum_points_range ls) as Ht.
  unfold completenessOf. cbv zeta.
  set (t := zsum (map listingPoints ls)) in *.
  set (n := len ls) in *.
  pose proof completenessCheck_all as H.
  rewrite forallb_forall in H.
  specialize (H (Z.to_nat n)).
  assert (Hin : In (Z.to_nat n) (seq 1 5)) by (apply in_seq; lia).
  specialize (H Hin). rewrite forallb_forall in H.
  specialize (H (Z.to_nat t)).
  assert (Hit : In (Z.to_nat t) (seq 0 (50 * Z.to_nat n + 1))) by (apply in_seq; lia).
  specialize (H Hit).
  rewrite !Z2Nat.id in H by lia.
  unfold completenessCheck in H. cbv zeta in H.
  apply andb_prop in H. destruct H as [H1 H2].
  apply Z.leb_le in H1. apply Z.leb_le in H2. lia.
Qed.

Lemma len_firstn5 {A} (x : A) (l : list A) : 1 <= len (firstn 5 (x :: l)) <= 5.
Proof.
  unfold len. pose proof (firstn_le_length 5 (x :: l)).
  rewrite length_firstn. simpl List.length. lia.
Qed.

Lemma completeness_invariant rl sd :
  CategoryScoreInvariant (calculateListingCompletenessScore rl sd).
Proof.
  destruct rl as [|l ls].
  - apply invariant_unavailable.
  - rewrite completeness_score. apply invariant_available.
    apply completeness_range, len_firstn5.
Qed.

(** In binary64, four listings with 115 points in total score 57: the
    quotient 28.75 / 50 falls just below 0.575, so the product with 100 is
    just below the tie 57.5. *)
Lemma completeness_of_115_over_4 :
  Math.round (Math.min 100 (Z2F 115 / Z2F 4 / 50 * 100)%float) = 57.
Proof. vm_compute. reflexivity. Qed.

#[local] Hint Resolve verification_invariant maturity_invariant
  completeness_invariant activity_invariant engagement_invariant
  feedback_invariant redflags_invariant : scorers.

(** C3: for every input, each of the seven category scorers returns a
    category score whose [score] is null exactly when [available] is false,
    and whose score, when present, lies in [0,100]. *)
Theorem scorers_keep_invariant
    (sd : SellerData) (rl : list Listing) (vf : option VeribleFeedback) :
  CategoryScoreInvariant (calculateVerificationIdentityScore sd)
  /\ CategoryScoreInvariant (calculateAccountMaturityScore sd)
  /\ CategoryScoreInvariant (calculateListingCompletenessScore rl sd)
  /\ CategoryScoreInvariant (calculateActivityRecencyScore sd rl)
  /\ CategoryScoreInvariant (calculateEngagementScore sd)
  /\ CategoryScoreInvariant (calculateCommunityFeedbackScore sd vf)
  /\ CategoryScoreInvariant (calculateBehavioralRedFlagsScore rl sd).
Proof. split_all; auto with scorers. Qed.

Lemma scored_invariant sd rl vf key :
  CategoryScoreInvariant (get (scoreCategories sd rl vf) key).
Proof.
  destruct key;
    cbn [get scoreCategories verificationIdentity accountMaturity listingCompleteness
         activityRecency engagement communityFeedback behavioralRedFlags];
    auto with scorers.
Qed.

(** C7: with zero listings the Listing Completeness category is unavailable;
    for a non-empty list the scorer evaluates the first 5 listings at most,
    a listing earns 5 points for a title, 10 for a price that is present and
    numeric-looking, 15 for three or more images (5 for at least one) and 20
    for a description of 100 characters or more, and the category score is
    the rounding of [min(100, avg / 50 * 100)], [avg] being the mean of the
    points of the evaluated listings. *)
Theorem listing_completeness_formula :
  (forall sd, unavailableOutcome (calculateListingCompletenessScore [] sd))
  /\ (forall l,
        listingPoints l
        = (if titlePresent l then 5 else 0)
          + (if pricePresentNumeric l then 10 else 0)
          + (if geNum (imageCount l) 3 then 15
             else if geNum (imageCount l) 1 then 5 else 0)
          + (if descriptionAtLeast100 l then 20 else 0))
  /\ (forall l ls sd,
        let evaluated := firstn 5 (l :: ls) in
        let avg :=
          (Z2F (zsum (map listingPoints evaluated)) / Z2F (len evaluated))%float in
        len evaluated <= 5
        /\ available (calculateListingCompletenessScore (l :: ls) sd) = true
        /\ score (calculateListingCompletenessScore (l :: ls) sd)
           = Some (Math.round (Math.min 100 (avg / 50 * 100)%float))
        /\ exists shown,
             breakdown (calculateListingCompletenessScore (l :: ls) sd)
             = ListingsBreakdown (len evaluated) shown (map evaluateListing evaluated)
             /\ map ev_score (map evaluateListing evaluated)
                = map listingPoints evaluated).
Proof.
  split; [intros sd; split; reflexivity|].
  split; [reflexivity|].
  intros l ls sd evaluated avg.
  rewrite completeness_score. cbn [available score breakdown].
  split; [apply len_firstn5|].
  split; [reflexivity|].
  split; [reflexivity|].
  eexists. split; [reflexivity|].
  rewrite map_map. apply map_ext. intros a. apply evaluateListing_points.
Qed.

(** ** Community feedback *)

Lemma baseTier_range r a : 0 <= baseTier r a <= 100.
Proof. unfold baseTier. break_if; lia. Qed.

(** With feedback supplied the category is scored: the final clamp is the
    identity on the adjusted base. *)
Lemma feedback_supplied sd fb :
  calculateCommunityFeedbackScore sd (Some fb)
  = {| score := Some (adjustByNet (baseTier (reviewCountOf sd) (avgRatingOf sd))
                        (netFeedbackOf fb));
       available := true;
       breakdown :=
         FeedbackBreakdown (reviewCountOf sd) (avgRatingOf sd)
           (Some (lengthOrZero (endorsements fb), lengthOrZero (flags fb),
                  netFeedbackOf fb)) |}.
Proof.
  unfold calculateCommunityFeedbackScore. cbv zeta.
  fold (reviewCountOf sd). fold (avgRatingOf sd).
  fold (baseTier (reviewCountOf sd) (avgRatingOf sd)).
  fold (netFeedbackOf fb).
  pose proof (baseTier_range (reviewCountOf sd) (avgRatingOf sd)) as Hb.
  rewrite andb_false_r. unfold adjustByNet.
  destruct (0 <? netFeedbackOf fb) eqn:Ep.
  - f_equal. f_equal. apply Z.ltb_lt in Ep. lia.
  - destruct (netFeedbackOf fb <? 0) eqn:En.
    + f_equal. f_equal. apply Z.ltb_lt in En. lia.
    + f_equal. f_equal. lia.
Qed.

Lemma feedback_not_supplied sd :
  calculateCommunityFeedbackScore sd None
  = if PrimFloat.eqb (reviewCountOf sd) 0
    then {| score := None; available := false;
            breakdown := MessageBreakdown "No feedback available" |}
    else {| score := Some (baseTier (reviewCountOf sd) (avgRatingOf sd));
            available := true;
            breakdown := FeedbackBreakdown (reviewCountOf sd) (avgRatingOf sd) None |}.
Proof.
  unfold calculateCommunityFeedbackScore. cbv zeta.
  fold (reviewCountOf sd). fold (avgRatingOf sd).
  fold (baseTier (reviewCountOf sd) (avgRatingOf sd)).
  pose proof (baseTier_range (reviewCountOf sd) (avgRatingOf sd)) as Hb.
  rewrite andb_true_r.
  destruct (PrimFloat.eqb (reviewCountOf sd) 0); [reflexivity|].
  f_equal. f_equal. lia.
Qed.

(** The category is unavailable exactly when the review count is zero (or
    missing) and no feedback object is passed; the average rating is not
    consulted. *)
Lemma feedback_unavailable_iff sd vf :
  available (calculateCommunityFeedbackScore sd vf) = false
  <-> PrimFloat.eqb (reviewCountOf sd) 0 = true /\ vf = None.
Proof.
  destruct vf as [fb|].
  - rewrite feedback_supplied. cbn [available]. split; [discriminate|].
    intros [_ H]. discriminate.
  - rewrite feedback_not_supplied.
    destruct (PrimFloat.eqb (reviewCountOf sd) 0); cbn [available]; split;
      try discriminate; auto.
    intros [H _]. discriminate.
Qed.

(** C8: the base tier of the Community Feedback scorer is 100 when the review
    count is at least 10 or the average rating at least 4.5, else 70 from 5
    reviews, 40 from 1 review, and 0; supplied feedback adjusts it by
    [net = endorsements - flags]: [net * 5] is added (capped at 100) when
    [net > 0], and [|net| * 10] subtracted (floored at 0) when [net < 0].
    With 1 review (base 40), 2 endorsements and 5 flags the score is 10. *)
Theorem community_feedback_formula :
  (forall reviewCount avgRating,
      baseTier reviewCount avgRating
      = if PrimFloat.leb 10 reviewCount || PrimFloat.leb 4.5 avgRating then 100
        else if PrimFloat.leb 5 reviewCount then 70
        else if PrimFloat.leb 1 reviewCount then 40
        else 0)
  /\ (forall sd,
        available (calculateCommunityFeedbackScore sd None) = true ->
        score (calculateCommunityFeedbackScore sd None)
        = Some (baseTier (reviewCountOf sd) (avgRatingOf sd)))
  /\ (forall sd fb,
        let base := baseTier (reviewCountOf sd) (avgRatingOf sd) in
        let net := lengthOrZero (endorsements fb) - lengthOrZero (flags fb) in
        available (calculateCommunityFeedbackScore sd (Some fb)) = true
        /\ score (calculateCommunityFeedbackScore sd (Some fb))
           = Some (if 0 <? net then Z.min 100 (base + net * 5)
                   else if net <? 0 then Z.max 0 (base - Z.abs net * 10)
                   else base))
  /\ (forall sd fb,
        reviewCountOf sd = 1%float ->
        PrimFloat.leb 4.5 (avgRatingOf sd) = false ->
        lengthOrZero (endorsements fb) = 2 ->
        lengthOrZero (flags fb) = 5 ->
        baseTier (reviewCountOf sd) (avgRatingOf sd) = 40
        /\ score (calculateCommunityFeedbackScore sd (Some fb)) = Some 10).
Proof.
  split; [reflexivity|].
  split.
  { intros sd. rewrite feedback_not_supplied.
    destruct (PrimFloat.eqb (reviewCountOf sd) 0); [discriminate | reflexivity]. }
  split.
  { intros sd fb base net. rewrite feedback_supplied. split; reflexivity. }
  intros sd fb Hr Ha He Hf.
  assert (Hb : baseTier (reviewCountOf sd) (avgRatingOf sd) = 40).
  { unfold baseTier. rewrite Hr, Ha. reflexivity. }
  split; [exact Hb|].
  rewrite feedback_supplied. cbn [score].
  unfold netFeedbackOf. rewrite Hb, He, Hf. reflexivity.
Qed.

Lemma community_feedback_formula_witness :
  score (calculateCommunityFeedbackScore oneReview None) = Some 40
  /\ baseTier (reviewCountOf oneReview) (avgRatingOf oneReview) = 40
  /\ score (calculateCommunityFeedbackScore oneReview (Some twoEndorsementsFiveFlags))
     = Some 10.
Proof.
  split.
  - apply (proj1 (proj2 community_feedback_formula) oneReview).
    vm_compute. reflexivity.
  - apply (proj2 (proj2 (proj2 community_feedback_formula))
             oneReview twoEndorsementsFiveFlags);
      vm_compute; reflexivity.
Defined.

(** C6, at the input where the code departs from it: a seller with an
    average rating of 4.6, a review count of zero and no supplied feedback.
    The rating is positive and alone puts the base tier at 100, yet the
    scorer returns the unavailable outcome. *)
Theorem rating_without_reviews_unavailable :
  md ratedWithoutReviews avgRating = Some 4.6%float
  /\ PrimFloat.ltb 0 (avgRatingOf ratedWithoutReviews) = true
  /\ baseTier (reviewCountOf ratedWithoutReviews) (avgRatingOf ratedWithoutReviews) = 100
  /\ unavailableOutcome (calculateCommunityFeedbackScore ratedWithoutReviews None).
Proof. vm_compute. repeat split. Qed.

(** ** Text analysis *)

Lemma startsWith_iff p : forall s, startsWith p s = true <-> exists r, s = p ++ r.
Proof.
  induction p as [|x p IH]; intros s; simpl.
  - split; [intros _; exists s; reflexivity | reflexivity].
  - destruct s as [|y s].
    + split; [discriminate | intros [r Hr]; discriminate].
    + rewrite andb_true_iff, N.eqb_eq, IH. split.
      * intros [-> [r ->]]. exists r. reflexivity.
      * intros [r Hr]. injection Hr as -> ->. split; [reflexivity | exists r; reflexivity].
Qed.

Lemma includes_iff p : forall s, includes s p = true <-> exists a b, s = a ++ p ++ b.
Proof.
  induction s as [|c s IH].
  - simpl. rewrite orb_false_r, startsWith_iff. split.
    + intros [r Hr]. exists [], r. exact Hr.
    + intros (a & b & H). destruct a as [|x a]; [|discriminate].
      exists b. exact H.
  - cbn [includes]. rewrite orb_true_iff, startsWith_iff, IH. split.
    + intros [[r Hr] | (a & b & H)].
      * exists [], r. exact Hr.
      * exists (c :: a), b. rewrite H. reflexivity.
    + intros (a & b & H). destruct a as [|x a].
      * left. exists b. exact H.
      * right. injection H as -> ->. exists a, b. reflexivity.
Qed.

Lemma includes_trans s p q :
  includes s p = true -> includes p q = true -> includes s q = true.
Proof.
  rewrite !includes_iff. intros (a & b & ->) (a' & b' & ->).
  exists (a ++ a'), (b' ++ b). rewrite <- !app_assoc. reflexivity.
Qed.

Lemma includes_map (f : N -> N) s p :
  includes s p = true -> includes (map f s) (map f p) = true.
Proof.
  rewrite !includes_iff. intros (a & b & ->).
  exists (map f a), (map f b). rewrite !map_app. reflexivity.
Qed.

Lemma testAny_includes alts alt s :
  In alt alts -> includes s alt = true -> testAny alts s = true.
Proof.
  intros Hin H. unfold testAny. apply existsb_exists. exists alt. split; assumption.
Qed.

(** *** Case mapping on Basic Latin *)

Lemma asciiCaseCheck_all :
  forallb (fun n => asciiCaseCheck (N.of_nat n)) (seq 0 128) = true.
Proof. vm_compute. reflexivity. Qed.

Lemma ascii_case c :
  (c <? 128)%N = true ->
  toLowerChar c = [asciiLower c] /\ toUpperChar c = [asciiUpper c]
  /\ (c =? 0x3A3)%N = false.
Proof.
  intros Hc. apply N.ltb_lt in Hc.
  pose proof asciiCaseCheck_all as H. rewrite forallb_forall in H.
  specialize (H (N.to_nat c)).
  assert (Hin : In (N.to_nat c) (seq 0 128)) by (apply in_seq; lia).
  specialize (H Hin). rewrite N2Nat.id in H. unfold asciiCaseCheck in H.
  destruct (toLowerChar c) as [|x [|? ?]]; try discriminate H.
  destruct (toUpperChar c) as [|y [|? ?]]; try discriminate H.
  apply andb_prop in H. destruct H as [H H3].
  apply andb_prop in H. destruct H as [H1 H2].
  apply N.eqb_eq in H1. apply N.eqb_eq in H2. apply negb_true_iff in H3.
  subst. auto.
Qed.

Lemma lowerFrom_pieces s : forall afterCased,
  exists pieces, lowerFrom afterCased s = List.concat pieces /\ Forall2 lowersTo s pieces.
Proof.
  induction s as [|c s IH]; intros afterCased; cbn [lowerFrom].
  - exists []. split; [reflexivity | constructor].
  - destruct (IH (if isCaseIgnorable c then afterCased else isCased c))
      as (pieces & -> & Hall).
    eexists (_ :: pieces). split; [reflexivity|].
    constructor; [|exact Hall].
    intros Hc. destruct (ascii_case c Hc) as (Hl & _ & Hs). rewrite Hs. exact Hl.
Qed.

Lemma pieces_of_ascii p : forall pieces,
  isAsciiText p = true -> Forall2 lowersTo p pieces -> List.concat pieces = map asciiLower p.
Proof.
  induction p as [|c p IH]; intros pieces Ha Hall; inversion Hall; subst; [reflexivity|].
  cbn [isAsciiText forallb] in Ha. apply andb_prop in Ha. destruct Ha as [Hc Ha].
  match goal with H : lowersTo c _ |- _ => rewrite (H Hc) end.
  cbn [List.concat map app]. f_equal. apply IH; assumption.
Qed.

Lemma includes_pieces s pieces p :
  Forall2 lowersTo s pieces -> isAsciiText p = true ->
  includes s p = true -> includes (List.concat pieces) (map asciiLower p) = true.
Proof.
  intros Hall Ha. rewrite !includes_iff. intros (a & b & ->).
  apply Forall2_app_inv_l in Hall. destruct Hall as (pa & rest & _ & Hrest & ->).
  apply Forall2_app_inv_l in Hrest. destruct Hrest as (pp & pb & Hp & _ & ->).
  exists (List.concat pa), (List.concat pb).
  rewrite !List.concat_app, (pieces_of_ascii p pp Ha Hp). reflexivity.
Qed.

Lemma fullText_pieces l :
  exists pieces, fullText l = List.concat pieces /\ Forall2 lowersTo (rawText l) pieces.
Proof.
  unfold fullText, rawText, toLowerCase.
  destruct (lowerFrom_pieces (orEmpty (title l)) false) as (pt & -> & Ht).
  destruct (lowerFrom_pieces (orEmpty (description l)) false) as (pd' & -> & Hd).
  exists (pt ++ [lit " "] ++ pd'). split.
  - rewrite !List.concat_app. cbn [List.concat]. rewrite app_nil_r. reflexivity.
  - apply Forall2_app; [exact Ht|]. apply Forall2_app; [|exact Hd].
    constructor; [intros _; reflexivity | constructor].
Qed.

(** A word of the lower-cased phrase is found in the scanned text of every
    listing whose raw text contains the Basic Latin phrase, whatever
    surrounds it. *)
Lemma mentions_lower l phrase word :
  isAsciiText phrase = true ->
  includes (rawText l) phrase = true ->
  includes (map asciiLower phrase) word = true ->
  includes (fullText l) word = true.
Proof.
  intros Ha H Hw.
  destruct (fullText_pieces l) as (pieces & -> & Hall).
  eapply includes_trans; [exact (includes_pieces _ _ _ Hall Ha H) | exact Hw].
Qed.

(** Beyond Basic Latin: U+212A lower-cases to [k], so the analyzer reads
    "quick sale"; a lower-case Cyrillic title is not its own upper case; a
    final capital sigma lower-cases to U+03C2; U+00DF upper-cases to [SS]. *)
Lemma case_mapping_beyond_basic_latin :
  reFinancialPressure (fullText kelvinListing) = true
  /\ isAllCapsTitle cyrillicListing = false
  /\ toLowerCase [0x39F; 0x394; 0x39F; 0x3A3]%N = [0x3BF; 0x3B4; 0x3BF; 0x3C2]%N
  /\ toUpperCase [0x73; 0x74; 0x72; 0x61; 0xDF; 0x65]%N
     = [0x53; 0x54; 0x52; 0x41; 0x53; 0x53; 0x45]%N.
Proof. vm_compute. repeat split. Qed.

(** C5: for a seller with exactly one listing whose title and description,
    joined, contain "URGENT, CASH ONLY, message me on WhatsApp" and which
    triggers no other flag family, the Behavioral Red Flags scorer returns
    45 = 100 - 15 - 20 - 20, and the breakdown holds exactly three red flags
    (urgency, cash-only, off-platform contact), each with listing index 1 and
    its penalty. *)
Theorem red_flags_scenario (l : Listing) (sd : SellerData) :
  includes (rawText l) scamPhrase = true ->
  reFinancialPressure (fullText l) = false ->
  reFirstCome (fullText l) = false ->
  isAllCapsTitle l = false ->
  (3 <? emojiCount (fullText l)) = false ->
  calculateBehavioralRedFlagsScore [l] sd
  = {| score := Some 45;
       available := true;
       breakdown :=
         RedFlagsBreakdown 100 3
           [ {| rf_listing := 1; rf_flag := "Urgent language";
                rf_count := None; rf_penalty := 15 |};
             {| rf_listing := 1; rf_flag := "Cash only / suspicious payment";
                rf_count := None; rf_penalty := 20 |};
             {| rf_listing := 1; rf_flag := "Off-platform contact attempt";
                rf_count := None; rf_penalty := 20 |} ]
           45 |}.
Proof.
  intros Hp Hf Hc Hcaps He.
  assert (Hu : reUrgency (fullText l) = true).
  { apply (testAny_includes _ (lit "urgent")); [simpl; auto|].
    apply (mentions_lower l scamPhrase);
      [reflexivity | exact Hp | vm_compute; reflexivity]. }
  assert (Hcash : reCashOnly (fullText l) = true).
  { apply (testAny_includes _ (lit "cash only")); [simpl; auto|].
    apply (mentions_lower l scamPhrase);
      [reflexivity | exact Hp | vm_compute; reflexivity]. }
  assert (Hoff : reOffPlatform (fullText l) = true).
  { unfold reOffPlatform.
    rewrite (testAny_includes _ (lit "whatsapp")); [reflexivity | simpl; auto |].
    apply (mentions_lower l scamPhrase);
      [reflexivity | exact Hp | vm_compute; reflexivity]. }
  unfold calculateBehavioralRedFlagsScore. cbn [scanListings].
  unfold scanListing. rewrite Hu, Hf, Hcash, Hc, Hoff, Hcaps, He.
  reflexivity.
Qed.

Lemma red_flags_scenario_witness :
  includes (rawText scamListing) scamPhrase = true
  /\ score (calculateBehavioralRedFlagsScore [scamListing] emptyProfile) = Some 45.
Proof.
  split; [vm_compute; reflexivity|].
  rewrite (red_flags_scenario scamListing emptyProfile); vm_compute; reflexivity.
Defined.

(** ** Aggregation *)

Lemma fold_weight_filter (p : Key.t -> bool) (w : Key.t -> float) l : forall a,
  fold_left (fun tw key => if p key then (tw + w key)%float else tw) l a
  = fold_left PrimFloat.add (map w (filter p l)) a.
Proof.
  induction l as [|k l IH]; intros a; simpl; [reflexivity|].
  destruct (p k); simpl; apply IH.
Qed.

Lemma fold_weighted_filter (p : Key.t -> bool) (g : Key.t -> float) (r : Key.t -> Z) l :
  forall ws nws,
  fold_left
    (fun '(weightedSum, normalizedWeights) key =>
       if p key then
         ((weightedSum + g key)%float, normalizedWeights ++ [(key, r key)])
       else (weightedSum, normalizedWeights ++ [(key, 0)]))
    l (ws, nws)
  = (fold_left PrimFloat.add (map g (filter p l)) ws,
     nws ++ map (fun key => (key, if p key then r key else 0)) l).
Proof.
  induction l as [|k l IH]; intros ws nws; simpl.
  - rewrite app_nil_r. reflexivity.
  - destruct (p k); rewrite IH, <- app_assoc; reflexivity.
Qed.

Lemma totalWeightOf_filter cats :
  totalWeightOf cats = fsum (map categoryWeights (filter (counted cats) keys)).
Proof. unfold totalWeightOf, fsum. apply fold_weight_filter. Qed.

(** The two loops of the aggregator, in closed form. *)
Lemma calculateFinalScore_unfold cats :
  calculateFinalScore cats =
  if PrimFloat.eqb (totalWeightOf cats) 0 then
    {| finalScore := 0; normalizedWeights := [] |}
  else
    {| finalScore :=
         Math.round
           (fsum (map (fun key =>
                         (Z2F (toNumber (score (get cats key)))
                          * (categoryWeights key / totalWeightOf cats))%float)
                    (filter (counted cats) keys)));
       normalizedWeights :=
         map (fun key =>
                (key,
                 if counted cats key
                 then Math.round (categoryWeights key / totalWeightOf cats * 100)%float
                 else 0))
           keys |}.
Proof.
  unfold calculateFinalScore. cbv zeta.
  destruct (PrimFloat.eqb (totalWeightOf cats) 0); [reflexivity|].
  rewrite (fold_weighted_filter (counted cats)
             (fun key => (Z2F (toNumber (score (get cats key)))
                          * (categoryWeights key / totalWeightOf cats))%float)
             (fun key => Math.round (categoryWeights key / totalWeightOf cats * 100)%float)).
  reflexivity.
Qed.

(** A non-empty selection of the fixed weights never sums to zero. *)
Lemma some_weight_nonzero (p : Key.t -> bool) :
  (exists key, p key = true) ->
  PrimFloat.eqb (fsum (map categoryWeights (filter p keys))) 0 = false.
Proof.
  intros [key Hkey]. unfold keys. simpl filter.
  destruct (p Key.verificationIdentity) eqn:E1, (p Key.accountMaturity) eqn:E2,
    (p Key.listingCompleteness) eqn:E3, (p Key.activityRecency) eqn:E4,
    (p Key.engagement) eqn:E5, (p Key.communityFeedback) eqn:E6,
    (p Key.behavioralRedFlags) eqn:E7;
    try (vm_compute; reflexivity).
  destruct key; congruence.
Qed.

Lemma lookup_keys (h : Key.t -> Z) key :
  lookup key (map (fun k => (k, h k)) keys) = Some (h key).
Proof. destruct key; reflexivity. Qed.

Ltac split_availability c2 c3 c4 c5 c6 c7 :=
  destruct (available c2), (available c3), (available c4),
    (available c5), (available c6), (available c7).

Section WellFormedCategories.

(** Categories that satisfy the first half of the category-score invariant,
    as every output of the scorers does. *)
Variable cats : Categories.
Hypothesis wellFormed :
  forall key, score (get cats key) = None <-> available (get cats key) = false.

Lemma counted_available key : counted cats key = available (get cats key).
Proof.
  unfold counted. destruct (wellFormed key) as [H1 H2].
  destruct (available (get cats key)) eqn:Ea.
  - destruct (score (get cats key)); [reflexivity|].
    specialize (H1 eq_refl). discriminate.
  - reflexivity.
Qed.

Lemma counted_keys : filter (counted cats) keys = availableKeys cats.
Proof. apply filter_ext. exact counted_available. Qed.

Lemma totalWeightOf_available : totalWeightOf cats = totalAvailableWeight cats.
Proof. rewrite totalWeightOf_filter, counted_keys. reflexivity. Qed.

(** What follows from the availability of Verification & Identity alone,
    over every availability of the other six categories. *)
Lemma availability_floor :
  available (verificationIdentity cats) = true ->
  1 <= countAvailable cats
  /\ PrimFloat.leb (1 / 7) (coverageOf cats) = true
  /\ PrimFloat.leb 0.14 (round2 (coverageOf cats)) = true
  /\ PrimFloat.leb 0.25 (totalWeightOf cats) = true
  /\ PrimFloat.eqb (totalWeightOf cats) 0 = false.
Proof.
  intros Hv.
  rewrite totalWeightOf_available.
  unfold totalAvailableWeight, availableKeys, coverageOf, countAvailable, values, keys.
  clear wellFormed. destruct cats as [c1 c2 c3 c4 c5 c6 c7].
  cbn [map filter get verificationIdentity accountMaturity listingCompleteness
       activityRecency engagement communityFeedback behavioralRedFlags] in *.
  rewrite Hv.
  split_availability c2 c3 c4 c5 c6 c7; vm_compute; intuition congruence.
Qed.

(** The percentages of a scored seller: at least three categories pass the
    coverage gate, Verification & Identity among them. *)
Lemma weights_of_scored :
  available (verificationIdentity cats) = true ->
  PrimFloat.ltb (round2 (coverageOf cats)) 0.40 = false ->
  Forall (fun kv => 0 <= snd kv) (normalizedWeights (calculateFinalScore cats))
  /\ 99 <= sumWeights (normalizedWeights (calculateFinalScore cats)) <= 101
  /\ (countAvailable cats = 7 ->
      sumWeights (normalizedWeights (calculateFinalScore cats)) = 100).
Proof.
  intros Hv.
  rewrite calculateFinalScore_unfold.
  destruct (availability_floor Hv) as (_ & _ & _ & _ & Hnz).
  rewrite Hnz. cbn [normalizedWeights].
  rewrite totalWeightOf_available.
  rewrite (map_ext _ (fun key => (key, if available (get cats key) then
       Math.round (categoryWeights key / totalAvailableWeight cats * 100)%float
       else 0)))
    by (intros key; rewrite (counted_available key); reflexivity).
  unfold totalAvailableWeight, availableKeys, coverageOf, countAvailable, values, keys.
  clear wellFormed Hnz. destruct cats as [c1 c2 c3 c4 c5 c6 c7].
  cbn [map filter get verificationIdentity accountMaturity listingCompleteness
       activityRecency engagement communityFeedback behavioralRedFlags] in *.
  rewrite Hv.
  split_availability c2 c3 c4 c5 c6 c7; vm_compute;
    intros Hgate; try discriminate Hgate;
    (split; [repeat constructor; discriminate
            | split; [split; discriminate | intros H; congruence]]).
Qed.

(** C4: whenever at least one category is available, the aggregator gives
    each available category the normalized weight
    [fixedWeight / totalAvailableWeight] (fixed weights 0.25, 0.15, 0.15,
    0.10, 0.10, 0.10, 0.15), the final score is the rounding of the sum of
    [categoryScore * normalizedWeight] over the available categories, and
    the output reports the weight 0 for every unavailable category (and the
    normalized weight as a rounded percentage for an available one). *)
Theorem aggregator_renormalizes :
  (exists key, available (get cats key) = true) ->
  (categoryWeights Key.verificationIdentity = 0.25%float
   /\ categoryWeights Key.accountMaturity = 0.15%float
   /\ categoryWeights Key.listingCompleteness = 0.15%float
   /\ categoryWeights Key.activityRecency = 0.10%float
   /\ categoryWeights Key.engagement = 0.10%float
   /\ categoryWeights Key.communityFeedback = 0.10%float
   /\ categoryWeights Key.behavioralRedFlags = 0.15%float)
  /\ (forall key,
        normalizedWeightOf cats key
        = (categoryWeights key / totalAvailableWeight cats)%float)
  /\ finalScore (calculateFinalScore cats) = Math.round (weightedScoreSum cats)
  /\ (forall key,
        lookup key (normalizedWeights (calculateFinalScore cats))
        = Some (if available (get cats key)
                then Math.round (normalizedWeightOf cats key * 100)%float
                else 0)).
Proof.
  intros [k0 Hk0].
  split; [split_all; reflexivity|].
  split; [reflexivity|].
  rewrite calculateFinalScore_unfold.
  assert (Hnz : PrimFloat.eqb (totalWeightOf cats) 0 = false).
  { rewrite totalWeightOf_filter. apply some_weight_nonzero.
    exists k0. rewrite counted_available. exact Hk0. }
  rewrite Hnz. cbn [finalScore normalizedWeights]. split.
  - unfold weightedScoreSum, normalizedWeightOf.
    rewrite counted_keys, totalWeightOf_available. reflexivity.
  - intros key.
    rewrite (lookup_keys (fun key => if counted cats key
       then Math.round (categoryWeights key / totalWeightOf cats * 100)%float else 0)).
    rewrite counted_available, totalWeightOf_available. reflexivity.
Qed.

End WellFormedCategories.

Lemma scored_wellFormed sd rl vf key :
  score (get (scoreCategories sd rl vf) key) = None
  <-> available (get (scoreCategories sd rl vf) key) = false.
Proof. apply (scored_invariant sd rl vf key). Qed.

Lemma aggregator_renormalizes_witness :
  finalScore (calculateFinalScore (scoreCategories emptyProfile [plainListing] None))
  = Math.round (weightedScoreSum (scoreCategories emptyProfile [plainListing] None))
  /\ lookup Key.engagement
       (normalizedWeights
          (calculateFinalScore (scoreCategories emptyProfile [plainListing] None)))
     = Some 0.
Proof.
  destruct (aggregator_renormalizes
              (scoreCategories emptyProfile [plainListing] None)) as (_ & _ & Hf & Hw).
  - intros key. destruct key; vm_compute; split; first [reflexivity | discriminate].
  - exists Key.verificationIdentity. vm_compute. reflexivity.
  - split; [exact Hf | apply (Hw Key.engagement)].
Defined.

(** C10: for every input the Verification & Identity scorer returns an
    available, non-null score; so at least one category is available,
    coverage is at least 1/7 (0.14 once rounded for the report), the total
    available weight is at least 0.25, and the aggregator called by
    [calculatePulseScore] never takes its zero-total-weight branch: its
    total weight is not 0 and it reports a weight for all seven keys. *)
Theorem verification_always_available
    (sd : SellerData) (rl : list Listing) (vf : option VeribleFeedback) :
  let cats := scoreCategories sd rl vf in
  (available (calculateVerificationIdentityScore sd) = true
   /\ exists s, score (calculateVerificationIdentityScore sd) = Some s)
  /\ 1 <= countAvailable cats
  /\ PrimFloat.leb (1 / 7) (coverageOf cats) = true
  /\ PrimFloat.leb 0.14 (coverage (calculateConfidence sd rl cats)) = true
  /\ PrimFloat.leb 0.25 (totalWeightOf cats) = true
  /\ PrimFloat.eqb (totalWeightOf cats) 0 = false
  /\ List.length (normalizedWeights (calculateFinalScore cats)) = 7%nat.
Proof.
  intros cats.
  destruct (availability_floor cats (scored_wellFormed sd rl vf)
              (verification_available sd))
    as (Hc & Hcov & Hrep & Hw & Hnz).
  split; [split; [apply verification_available | apply verification_scored]|].
  split_all; try assumption.
  rewrite calculateFinalScore_unfold, Hnz. reflexivity.
Qed.

(** C2, as the code has it: whenever [calculatePulseScore] returns status
    "success", every value of [categoryWeights] is a non-negative integer and
    the values sum to 99, 100 or 101 (each percentage is rounded on its own);
    the sum is exactly 100 when all seven categories are available. *)
Theorem weights_sum_within_one
    (sd : SellerData) (rl : list Listing) (vf : option VeribleFeedback) :
  status (calculatePulseScore sd rl vf) = "success"%string ->
  let weights := categoryWeightsOf (calculatePulseScore sd rl vf) in
  Forall (fun kv => 0 <= snd kv) weights
  /\ 99 <= sumWeights weights <= 101
  /\ (countAvailable (scoreCategories sd rl vf) = 7 -> sumWeights weights = 100).
Proof.
  unfold calculatePulseScore. cbv zeta.
  destruct (notEnoughData _) eqn:Egate; [discriminate|].
  intros _. cbn [categoryWeightsOf].
  apply weights_of_scored.
  - apply scored_wellFormed.
  - apply verification_available.
  - unfold notEnoughData in Egate. apply orb_false_elim in Egate. apply Egate.
Qed.

Lemma weights_sum_within_one_witness :
  status (calculatePulseScore emptyProfile [plainListing] None) = "success"%string
  /\ 99 <= sumWeights (categoryWeightsOf (calculatePulseScore emptyProfile [plainListing] None))
     <= 101
  /\ sumWeights (categoryWeightsOf (calculatePulseScore establishedSeller [fullListing] None))
     = 100.
Proof.
  split; [vm_compute; reflexivity|]. split.
  - apply (weights_sum_within_one emptyProfile [plainListing] None).
    vm_compute. reflexivity.
  - apply (weights_sum_within_one establishedSeller [fullListing] None);
      vm_compute; reflexivity.
Defined.

(** C2 as stated fails: an unverified seller with one plain listing and no
    other data is scored (status "success") with the weights 38, 0, 23, 15,
    0, 0, 23, which sum to 99. *)
Lemma weights_sum_not_100 :
  status (calculatePulseScore emptyProfile [plainListing] None) = "success"%string
  /\ categoryWeightsOf (calculatePulseScore emptyProfile [plainListing] None)
     = [(Key.verificationIdentity, 38); (Key.accountMaturity, 0);
        (Key.listingCompleteness, 23); (Key.activityRecency, 15);
        (Key.engagement, 0); (Key.communityFeedback, 0);
        (Key.behavioralRedFlags, 23)]
  /\ sumWeights (categoryWeightsOf (calculatePulseScore emptyProfile [plainListing] None))
     <> 100.
Proof. vm_compute. split_all; [reflexivity | reflexivity | discriminate]. Qed.

(** ** Confidence and the gate *)

Lemma consistency_scored sd rl vf :
  let cats := scoreCategories sd rl vf in
  consistencyOf sd cats
  = if hasBusinessIndicators sd
       && (toNumber (score (verificationIdentity cats)) =? 0)
    then 0.7%float else 1.0%float.
Proof.
  intros cats. unfold consistencyOf, hasBasicIdentity.
  destruct (verification_scored sd) as [s Hs].
  destruct (verification_invariant sd) as [_ Hr].
  specialize (Hr s Hs).
  change (verificationIdentity cats) with (calculateVerificationIdentityScore sd).
  rewrite Hs. cbn [toNumber].
  destruct (0 <? s) eqn:E1, (s =? 0) eqn:E2; try reflexivity.
  - apply Z.ltb_lt in E1. apply Z.eqb_eq in E2. lia.
  - apply Z.ltb_ge in E1. apply Z.eqb_neq in E2. lia.
Qed.


(** C1: for every input, when the computed confidence is below 0.35 or the
    computed coverage below 0.40 the engine returns (it does not throw) a
    value with status "insufficient_data" that carries the confidence and
    coverage, the number of available categories, the list of missing ones
    and a single advisory recommendation, and has no pulse score; otherwise
    it returns a result with status "success". Confidence 0.34 with coverage
    0.50, and confidence 0.50 with coverage 0.39, give insufficient data;
    confidence 0.50 with coverage 0.50 proceeds to scoring. *)
Theorem gate_insufficient_data
    (sd : SellerData) (rl : list Listing) (vf : option VeribleFeedback) :
  let cm := calculateConfidence sd rl (scoreCategories sd rl vf) in
  (notEnoughData cm
   = (PrimFloat.ltb (confidence cm) 0.35 || PrimFloat.ltb (coverage cm) 0.40))
  /\ (notEnoughData cm = true ->
      calculatePulseScore sd rl vf
      = InsufficientData "Not Enough Data" (confidence cm) (coverage cm)
          (availableCategories cm) (missingCategories cm)
          [ {| rec_type := "warning"; rec_priority := None;
               rec_message := "Insufficient data to generate reliable trust score";
               rec_action := "More seller activity or profile information needed" |} ]
      /\ status (calculatePulseScore sd rl vf) = "insufficient_data"%string
      /\ pulseScoreOf (calculatePulseScore sd rl vf) = None)
  /\ (notEnoughData cm = false ->
      status (calculatePulseScore sd rl vf) = "success"%string
      /\ pulseScoreOf (calculatePulseScore sd rl vf)
         = Some (finalScore (calculateFinalScore (scoreCategories sd rl vf))))
  /\ (forall m, confidence m = 0.34%float -> coverage m = 0.50%float ->
                notEnoughData m = true)
  /\ (forall m, confidence m = 0.50%float -> coverage m = 0.39%float ->
                notEnoughData m = true)
  /\ (forall m, confidence m = 0.50%float -> coverage m = 0.50%float ->
                notEnoughData m = false).
Proof.
  intros cm. split; [reflexivity|].
  unfold calculatePulseScore. cbv zeta. fold cm.
  split; [intros ->; split_all; reflexivity|].
  split; [intros ->; split_all; reflexivity|].
  split_all; intros m Hc Hv; unfold notEnoughData; rewrite Hc, Hv;
    vm_compute; reflexivity.
Qed.

Lemma gate_insufficient_data_witness :
  status (calculatePulseScore emptyProfile [] None) = "insufficient_data"%string
  /\ pulseScoreOf (calculatePulseScore emptyProfile [] None) = None
  /\ status (calculatePulseScore emptyProfile [plainListing] None) = "success"%string
  /\ notEnoughData (metricsWith 0.34 0.50) = true
  /\ notEnoughData (metricsWith 0.50 0.39) = true
  /\ notEnoughData (metricsWith 0.50 0.50) = false.
Proof.
  destruct (gate_insufficient_data emptyProfile [] None)
    as (_ & Hlow & _ & Ha & Hb & Hc).
  destruct (gate_insufficient_data emptyProfile [plainListing] None) as (_ & _ & Hok & _).
  split_all.
  - apply Hlow. vm_compute. reflexivity.
  - apply Hlow. vm_compute. reflexivity.
  - apply Hok. vm_compute. reflexivity.
  - apply Ha; reflexivity.
  - apply Hb; reflexivity.
  - apply Hc; reflexivity.
Defined.

(** * Further properties *)

Lemma recency_values sd rl :
  recencyOf sd rl = 1.0%float \/ recencyOf sd rl = 0.6%float \/ recencyOf sd rl = 0.3%float.
Proof. unfold recencyOf. destruct (md sd lastSeen); break_if; auto. Qed.

Lemma consistency_values sd cats :
  consistencyOf sd cats = 0.7%float \/ consistencyOf sd cats = 1.0%float.
Proof. unfold consistencyOf. break_if; auto. Qed.

(** The gate over every availability of the six optional categories and
    every value of recency and consistency. *)
Lemma gate_by_count (cats : Categories) (r c : float) :
  available (verificationIdentity cats) = true ->
  r = 1.0%float \/ r = 0.6%float \/ r = 0.3%float ->
  c = 0.7%float \/ c = 1.0%float ->
  let conf := round2 (0.5 * coverageOf cats + 0.3 * r + 0.2 * c)%float in
  (PrimFloat.ltb conf 0.35 || PrimFloat.ltb (round2 (coverageOf cats)) 0.40
   = (countAvailable cats <? 3))
  /\ PrimFloat.leb 0.30 conf = true
  /\ PrimFloat.leb conf 1 = true
  /\ (3 <= countAvailable cats ->
      PrimFloat.leb 0.44 conf = true /\ PrimFloat.leb 0.40 conf = true).
Proof.
  intros Hv Hr Hc.
  unfold coverageOf, countAvailable, values, keys.
  destruct cats as [c1 c2 c3 c4 c5 c6 c7].
  cbn [map filter get verificationIdentity accountMaturity listingCompleteness
       activityRecency engagement communityFeedback behavioralRedFlags] in *.
  rewrite Hv.
  destruct Hr as [-> | [-> | ->]]; destruct Hc as [-> | ->];
    split_availability c2 c3 c4 c5 c6 c7; vm_compute;
    (split_all; try reflexivity; intros H;
     first [split; reflexivity | exfalso; apply H; reflexivity]).
Qed.

Lemma gate_of_scored sd rl vf :
  let cats := scoreCategories sd rl vf in
  let cm := calculateConfidence sd rl cats in
  notEnoughData cm = (countAvailable cats <? 3)
  /\ PrimFloat.leb 0.30 (confidence cm) = true
  /\ PrimFloat.leb (confidence cm) 1 = true
  /\ (3 <= countAvailable cats ->
      PrimFloat.leb 0.44 (confidence cm) = true
      /\ PrimFloat.leb 0.40 (confidence cm) = true).
Proof.
  intros cats cm.
  exact (gate_by_count cats (recencyOf sd rl) (consistencyOf sd cats)
           (verification_available sd) (recency_values sd rl)
           (consistency_values sd cats)).
Qed.

(** X1: the gate is decided by coverage alone. For every input the engine
    returns status "success" exactly when at least 3 of the 7 categories are
    available and "insufficient_data" exactly when fewer are; the reported
    confidence always lies between 0.30 and 1, so the confidence clause of
    the gate never rejects a seller that the coverage clause accepts. *)
Theorem scored_iff_three_categories
    (sd : SellerData) (rl : list Listing) (vf : option VeribleFeedback) :
  let cats := scoreCategories sd rl vf in
  let cm := calculateConfidence sd rl cats in
  (status (calculatePulseScore sd rl vf) = "success"%string
   <-> 3 <= countAvailable cats)
  /\ (status (calculatePulseScore sd rl vf) = "insufficient_data"%string
      <-> countAvailable cats < 3)
  /\ PrimFloat.leb 0.30 (confidence cm) = true
  /\ PrimFloat.leb (confidence cm) 1 = true.
Proof.
  intros cats cm.
  destruct (gate_of_scored sd rl vf) as (Hg & Hlo & Hhi & _).
  fold cats cm in Hg, Hlo, Hhi.
  unfold calculatePulseScore. cbv zeta. fold cats cm. rewrite Hg.
  destruct (countAvailable cats <? 3) eqn:E; cbn [status];
    [apply Z.ltb_lt in E | apply Z.ltb_ge in E];
    split_all; try assumption;
    split; intros H; first [discriminate H | reflexivity | lia | exfalso; lia].
Qed.

Lemma listed_availability sd l ls vf :
  4 <= countAvailable (scoreCategories sd (l :: ls) vf).
Proof.
  unfold countAvailable, values, keys, scoreCategories.
  cbn [map get verificationIdentity accountMaturity listingCompleteness
       activityRecency engagement communityFeedback behavioralRedFlags].
  assert (H3 : available (calculateListingCompletenessScore (l :: ls) sd) = true)
    by (rewrite completeness_score; reflexivity).
  assert (H4 : available (calculateActivityRecencyScore sd (l :: ls)) = true).
  { unfold calculateActivityRecencyScore.
    destruct (md sd lastSeen); [break_if; reflexivity | reflexivity]. }
  assert (H7 : available (calculateBehavioralRedFlagsScore (l :: ls) sd) = true).
  { unfold calculateBehavioralRedFlagsScore.
    destruct (scanListings (100, []) 0 (l :: ls)). reflexivity. }
  cbn [filter]. rewrite (verification_available sd), H3, H4, H7.
  destruct (available (calculateAccountMaturityScore sd)),
    (available (calculateEngagementScore sd)),
    (available (calculateCommunityFeedbackScore sd vf)); vm_compute; discriminate.
Qed.

(** X2: a seller with at least one listing is always scored. Whatever the
    profile and the feedback, a non-empty listing list makes Verification &
    Identity, Listing Completeness, Activity & Recency and Behavioral Red
    Flags available, so the engine returns status "success". *)
Theorem listed_seller_is_scored
    (sd : SellerData) (l : Listing) (ls : list Listing) (vf : option VeribleFeedback) :
  status (calculatePulseScore sd (l :: ls) vf) = "success"%string
  /\ 4 <= countAvailable (scoreCategories sd (l :: ls) vf).
Proof.
  pose proof (listed_availability sd l ls vf) as H4.
  split; [|exact H4].
  destruct (gate_of_scored sd (l :: ls) vf) as (Hg & _).
  unfold calculatePulseScore. cbv zeta. rewrite Hg.
  destruct (countAvailable _ <? 3) eqn:E; [apply Z.ltb_lt in E; lia | reflexivity].
Qed.

(** X3: a scored seller never carries a low confidence label. Whenever the
    engine returns status "success", its [confidenceLevel] is "Medium",
    "High" or "Very High"; the labels "Low" and "Very Low" are reached only
    by metrics the gate has already rejected. *)
Theorem success_confidence_label
    (sd : SellerData) (rl : list Listing) (vf : option VeribleFeedback) :
  status (calculatePulseScore sd rl vf) = "success"%string ->
  confidenceLevelOf (calculatePulseScore sd rl vf) = Some "Medium"%string
  \/ confidenceLevelOf (calculatePulseScore sd rl vf) = Some "High"%string
  \/ confidenceLevelOf (calculatePulseScore sd rl vf) = Some "Very High"%string.
Proof.
  destruct (gate_of_scored sd rl vf) as (Hg & _ & _ & Hmed).
  unfold calculatePulseScore. cbv zeta. rewrite Hg.
  destruct (countAvailable _ <? 3) eqn:E; [discriminate|].
  intros _. apply Z.ltb_ge in E. destruct (Hmed E) as [_ H40].
  cbn [confidenceLevelOf]. unfold getConfidenceLabel.
  rewrite H40. break_if; auto.
Qed.

Lemma success_confidence_label_witness :
  confidenceLevelOf (calculatePulseScore establishedSeller [fullListing] None)
  = Some "Medium"%string
  \/ confidenceLevelOf (calculatePulseScore establishedSeller [fullListing] None)
     = Some "High"%string
  \/ confidenceLevelOf (calculatePulseScore establishedSeller [fullListing] None)
     = Some "Very High"%string.
Proof.
  apply (success_confidence_label establishedSeller [fullListing] None).
  vm_compute. reflexivity.
Defined.

(** ** Confidence bookkeeping *)

Lemma In_keys key : In key keys.
Proof. destruct key; simpl; auto 10. Qed.

Lemma NoDup_keys : NoDup keys.
Proof.
  unfold keys. repeat constructor; simpl; intuition discriminate.
Qed.

(** X4: the confidence metrics partition the seven categories. The
    available count plus the number of missing categories is 7, and
    [missingCategories] lists, without repetition, exactly the keys whose
    category is unavailable. *)
Theorem metrics_partition
    (sd : SellerData) (rl : list Listing) (cats : Categories) :
  let cm := calculateConfidence sd rl cats in
  availableCategories cm + len (missingCategories cm) = totalCategories cm
  /\ totalCategories cm = 7
  /\ (forall key, In key (missingCategories cm) <-> available (get cats key) = false)
  /\ NoDup (missingCategories cm).
Proof.
  intros cm. unfold cm, calculateConfidence. cbv zeta.
  cbn [availableCategories missingCategories totalCategories].
  split_all.
  - unfold countAvailable, values, keys.
    destruct cats as [c1 c2 c3 c4 c5 c6 c7].
    cbn [map filter get verificationIdentity accountMaturity listingCompleteness
         activityRecency engagement communityFeedback behavioralRedFlags].
    destruct (available c1); split_availability c2 c3 c4 c5 c6 c7; reflexivity.
  - reflexivity.
  - intros key. rewrite filter_In, negb_true_iff. pose proof (In_keys key). tauto.
  - apply NoDup_filter, NoDup_keys.
Qed.

(** ** Activity and recency *)

(** X5: the recency metric follows the Activity & Recency score. Recency is
    1.0 when that score is 100 or 70, 0.6 when it is 40 or 50 (the listing
    fallback), and 0.3 when it is 10 or the category is unavailable. *)
Theorem recency_follows_activity (sd : SellerData) (rl : list Listing) :
  recencyOf sd rl = recencyOfActivity (score (calculateActivityRecencyScore sd rl)).
Proof.
  unfold recencyOf, calculateActivityRecencyScore.
  destruct (md sd lastSeen) as [s|].
  - destruct (parseInt s) as [d|]; cbn [leDays]; [|reflexivity].
    destruct (d <=? 7) eqn:E7, (d <=? 30) eqn:E30, (d <=? 60) eqn:E60;
      try reflexivity;
      repeat match goal with
             | H : (_ <=? _) = true |- _ => apply Z.leb_le in H
             | H : (_ <=? _) = false |- _ => apply Z.leb_gt in H
             end; lia.
  - destruct (0 <? len rl); reflexivity.
Qed.

(** X6: a last-seen value that is present but does not parse as a number
    (such as 'Unknown') makes the seller "Inactive": the category is
    available with score 10, whatever the listings, and recency is 0.3. *)
Theorem unparseable_last_seen_is_inactive
    (sd : SellerData) (rl : list Listing) (s : jsstring) :
  md sd lastSeen = Some s ->
  parseInt s = None ->
  calculateActivityRecencyScore sd rl
  = {| score := Some 10; available := true;
       breakdown := LastSeenBreakdown None "Inactive" |}
  /\ recencyOf sd rl = 0.3%float.
Proof.
  intros Hs Hp. unfold calculateActivityRecencyScore, recencyOf.
  rewrite Hs, Hp. split; reflexivity.
Qed.

Lemma unparseable_last_seen_is_inactive_witness :
  score (calculateActivityRecencyScore (lastSeenOnly "Unknown") [plainListing]) = Some 10
  /\ recencyOf (lastSeenOnly "Unknown") [plainListing] = 0.3%float.
Proof.
  destruct (unparseable_last_seen_is_inactive (lastSeenOnly "Unknown") [plainListing]
              (lit "Unknown")) as [Hs Hr];
    [reflexivity | vm_compute; reflexivity |].
  rewrite Hs. split; [reflexivity | exact Hr].
Defined.

(** ** Listing completeness *)

(** X7: listings beyond the fifth never change the Listing Completeness
    result. *)
Theorem completeness_ignores_beyond_five (rl : list Listing) (sd : SellerData) :
  calculateListingCompletenessScore rl sd
  = calculateListingCompletenessScore (firstn 5 rl) sd.
Proof.
  destruct rl as [|l ls]; [reflexivity|].
  change (firstn 5 (l :: ls)) with (l :: firstn 4 ls).
  rewrite !completeness_score.
  change (l :: firstn 4 ls) with (firstn 5 (l :: ls)).
  rewrite firstn_firstn. reflexivity.
Qed.

Lemma completenessChecks_all :
  forallb (fun n =>
             completenessEndsCheck (Z.of_nat n)
             && forallb (fun u => completenessStepCheck (Z.of_nat n) (Z.of_nat u))
                  (seq 0 (10 * n)))
    (seq 1 5) = true.
Proof. vm_compute. reflexivity. Qed.

Lemma completeness_checks n u :
  1 <= n <= 5 -> 0 <= u < 10 * n ->
  completenessScoreOf n 0 = 0
  /\ completenessScoreOf n (50 * n) = 100
  /\ completenessScoreOf n (5 * u) <= completenessScoreOf n (5 * (u + 1))
  /\ completenessScoreOf n (5 * u) < 100
  /\ 0 < completenessScoreOf n (5 * (u + 1)).
Proof.
  intros Hn Hu. pose proof completenessChecks_all as H.
  rewrite forallb_forall in H. specialize (H (Z.to_nat n)).
  assert (Hin : In (Z.to_nat n) (seq 1 5)) by (apply in_seq; lia).
  specialize (H Hin). rewrite Z2Nat.id in H by lia.
  apply andb_prop in H. destruct H as [He Hs].
  unfold completenessEndsCheck in He. apply andb_prop in He. destruct He as [H0 H100].
  apply Z.eqb_eq in H0. apply Z.eqb_eq in H100.
  rewrite forallb_forall in Hs. specialize (Hs (Z.to_nat u)).
  assert (Hiu : In (Z.to_nat u) (seq 0 (10 * Z.to_nat n))) by (apply in_seq; lia).
  specialize (Hs Hiu). rewrite Z2Nat.id in Hs by lia.
  unfold completenessStepCheck in Hs.
  apply andb_prop in Hs. destruct Hs as [Hs H3].
  apply andb_prop in Hs. destruct Hs as [H1 H2].
  apply Z.leb_le in H1. apply Z.ltb_lt in H2. apply Z.ltb_lt in H3.
  auto.
Qed.

Lemma completeness_monotone_steps n (k : nat) : forall u,
  1 <= n <= 5 -> 0 <= u -> u + Z.of_nat k <= 10 * n ->
  completenessScoreOf n (5 * u) <= completenessScoreOf n (5 * (u + Z.of_nat k)).
Proof.
  induction k as [|k IH]; intros u Hn Hu Hk.
  - rewrite Z.add_0_r. lia.
  - assert (Hstep : 0 <= u + Z.of_nat k < 10 * n) by lia.
    destruct (completeness_checks n (u + Z.of_nat k) Hn Hstep) as (_ & _ & H1 & _).
    specialize (IH u Hn Hu ltac:(lia)).
    replace (u + Z.of_nat (S k)) with (u + Z.of_nat k + 1) by lia. lia.
Qed.

Lemma listingPoints_fives l : exists u, listingPoints l = 5 * u /\ 0 <= u <= 10.
Proof.
  unfold listingPoints.
  destruct (titlePresent l), (pricePresentNumeric l), (geNum (imageCount l) 3),
    (geNum (imageCount l) 1), (descriptionAtLeast100 l);
    match goal with |- exists u, ?t = _ /\ _ =>
      let v := eval vm_compute in (t / 5) in exists v; vm_compute; intuition congruence
    end.
Qed.

Lemma zsum_points_fives ls :
  exists u, zsum (map listingPoints ls) = 5 * u /\ 0 <= u <= 10 * len ls.
Proof.
  unfold len. induction ls as [|l ls (u & Hu & Hr)]; simpl zsum.
  - exists 0. simpl. lia.
  - destruct (listingPoints_fives l) as (v & Hv & Hvr).
    exists (v + u). simpl List.length. lia.
Qed.

Lemma completenessOf_eq ls :
  completenessOf ls = completenessScoreOf (len ls) (zsum (map listingPoints ls)).
Proof. reflexivity. Qed.

Lemma zsum_all_full ls :
  zsum (map listingPoints ls) = 50 * len ls
  <-> forall x, In x ls -> listingPoints x = 50.
Proof.
  unfold len. induction ls as [|l ls IH]; simpl zsum.
  - simpl. split; [intros _ x [] | reflexivity].
  - pose proof (listingPoints_range l) as Hl.
    pose proof (zsum_points_range ls) as Hs. unfold len in Hs.
    simpl List.length. rewrite Nat2Z.inj_succ. split.
    + intros H x [<- | Hx]; [lia|]. apply IH; [lia | exact Hx].
    + intros H. rewrite (H l (or_introl eq_refl)).
      assert (Hr : zsum (map listingPoints ls) = 50 * Z.of_nat (List.length ls))
        by (apply IH; intros x Hx; apply H; right; exact Hx).
      lia.
Qed.

Lemma zsum_all_empty ls :
  zsum (map listingPoints ls) = 0
  <-> forall x, In x ls -> listingPoints x = 0.
Proof.
  induction ls as [|l ls IH]; simpl zsum.
  - split; [intros _ x [] | reflexivity].
  - pose proof (listingPoints_range l) as Hl.
    pose proof (zsum_points_range ls) as Hs. split.
    + intros H x [<- | Hx]; [lia|]. apply IH; [lia | exact Hx].
    + intros H. rewrite (H l (or_introl eq_refl)).
      assert (Hr : zsum (map listingPoints ls) = 0)
        by (apply IH; intros x Hx; apply H; right; exact Hx).
      lia.
Qed.

(** X8: the Listing Completeness score is 100 exactly when every evaluated
    listing earns all 50 points, and 0 exactly when every evaluated listing
    earns none. *)
Theorem completeness_extremes (l : Listing) (ls : list Listing) (sd : SellerData) :
  let evaluated := firstn 5 (l :: ls) in
  (score (calculateListingCompletenessScore (l :: ls) sd) = Some 100
   <-> forall x, In x evaluated -> listingPoints x = 50)
  /\ (score (calculateListingCompletenessScore (l :: ls) sd) = Some 0
      <-> forall x, In x evaluated -> listingPoints x = 0).
Proof.
  intros evaluated. rewrite completeness_score. cbn [score]. fold evaluated.
  rewrite completenessOf_eq, <- zsum_all_full, <- zsum_all_empty.
  pose proof (len_firstn5 l ls) as Hn. fold evaluated in Hn.
  destruct (zsum_points_fives evaluated) as (u & Hu & Hur).
  rewrite Hu. set (n := len evaluated) in *.
  destruct (completeness_checks n 0 Hn ltac:(lia)) as (H0 & H100 & _).
  assert (Hlt : u < 10 * n -> completenessScoreOf n (5 * u) < 100).
  { intros H. apply (completeness_checks n u Hn). lia. }
  assert (Hgt : 0 < u -> 0 < completenessScoreOf n (5 * u)).
  { intros H. replace u with (u - 1 + 1) by lia.
    apply (completeness_checks n (u - 1) Hn). lia. }
  split; split; intros H.
  - assert (H' : completenessScoreOf n (5 * u) = 100) by congruence.
    destruct (Z.eq_dec u (10 * n)); [lia|].
    specialize (Hlt ltac:(lia)). lia.
  - replace (5 * u) with (50 * n) by lia. rewrite H100. reflexivity.
  - assert (H' : completenessScoreOf n (5 * u) = 0) by congruence.
    destruct (Z.eq_dec u 0); [lia|].
    specialize (Hgt ltac:(lia)). lia.
  - replace (5 * u) with 0 by lia. rewrite H0. reflexivity.
Qed.

(** X9: for the same number of evaluated listings, more points in total
    never give a lower Listing Completeness score (the binary64 rounding
    does not break the order). *)
Theorem completeness_monotone
    (l l' : Listing) (ls ls' : list Listing) (sd sd' : SellerData) :
  len (firstn 5 (l :: ls)) = len (firstn 5 (l' :: ls')) ->
  zsum (map listingPoints (firstn 5 (l :: ls)))
  <= zsum (map listingPoints (firstn 5 (l' :: ls'))) ->
  toNumber (score (calculateListingCompletenessScore (l :: ls) sd))
  <= toNumber (score (calculateListingCompletenessScore (l' :: ls') sd')).
Proof.
  intros Hlen Hle. rewrite !completeness_score. cbn [score toNumber].
  rewrite !completenessOf_eq, <- Hlen.
  pose proof (len_firstn5 l ls) as Hn.
  destruct (zsum_points_fives (firstn 5 (l :: ls))) as (u & Hu & Hur).
  destruct (zsum_points_fives (firstn 5 (l' :: ls'))) as (u' & Hu' & Hur').
  rewrite Hu, Hu' in *. rewrite <- Hlen in Hur'.
  replace u' with (u + Z.of_nat (Z.to_nat (u' - u))) by lia.
  apply completeness_monotone_steps; lia.
Qed.

Lemma completeness_monotone_witness :
  toNumber (score (calculateListingCompletenessScore [plainListing] emptyProfile))
  <= toNumber (score (calculateListingCompletenessScore [fullListing] establishedSeller)).
Proof.
  apply (completeness_monotone plainListing fullListing [] [] emptyProfile establishedSeller).
  - reflexivity.
  - vm_compute. discriminate.
Defined.

(** ** Red flags *)

Lemma penaltySum_app a b : penaltySum (a ++ b) = penaltySum a + penaltySum b.
Proof.
  unfold penaltySum. induction a as [|x a IH]; simpl; [reflexivity|].
  rewrite IH. lia.
Qed.

Lemma raise_state c f st :
  raise c f st
  = (fst st - penaltySum (if c then [f] else []), snd st ++ (if c then [f] else [])).
Proof.
  destruct st as [s fl]. unfold raise, penaltySum.
  destruct c; cbn [fst snd map zsum fold_right].
  - f_equal. lia.
  - rewrite app_nil_r. f_equal. lia.
Qed.

(** The flags of one listing, family by family. *)
Lemma listingFlags_eq idx l :
  listingFlags idx l
  = (if reUrgency (fullText l)
     then [mkFlag idx "Urgent language" penalties.urgent] else [])
    ++ (if reFinancialPressure (fullText l)
        then [mkFlag idx "Financial pressure language" penalties.needMoneyAsap] else [])
    ++ (if reCashOnly (fullText l)
        then [mkFlag idx "Cash only / suspicious payment" penalties.cashOnly] else [])
    ++ (if reFirstCome (fullText l)
        then [mkFlag idx "First come first serve" penalties.firstComeFirstServe] else [])
    ++ (if reOffPlatform (fullText l)
        then [mkFlag idx "Off-platform contact attempt" penalties.offPlatformContact]
        else [])
    ++ (if isAllCapsTitle l
        then [mkFlag idx "ALL-CAPS title" penalties.allCapsTitle] else [])
    ++ (if 3 <? emojiCount (fullText l)
        then [{| rf_listing := idx + 1; rf_flag := "Excessive emojis";
                 rf_count := Some (emojiCount (fullText l));
                 rf_penalty := penalties.excessEmojis |}] else []).
Proof.
  unfold listingFlags, scanListing. rewrite !raise_state. cbn [fst snd].
  rewrite <- !app_assoc. reflexivity.
Qed.

Lemma scanListing_state st idx l :
  scanListing st idx l
  = (fst st - penaltySum (listingFlags idx l), snd st ++ listingFlags idx l).
Proof.
  rewrite listingFlags_eq. unfold scanListing. rewrite !raise_state. cbn [fst snd].
  rewrite !penaltySum_app, <- !app_assoc. f_equal. lia.
Qed.

Lemma flag_piece_facts (c : bool) idx name count p :
  In p [5; 10; 15; 20] ->
  let piece := if c then [{| rf_listing := idx + 1; rf_flag := name;
                             rf_count := count; rf_penalty := p |}] else [] in
  Forall (fun f => rf_listing f = idx + 1
                   /\ In (rf_penalty f) [5; 10; 15; 20]) piece
  /\ len piece <= 1
  /\ 0 <= penaltySum piece <= p.
Proof.
  intros Hp piece. unfold piece, len, penaltySum.
  assert (0 <= p) by (simpl in Hp; lia).
  destruct c; simpl.
  - split; [constructor; [split; [reflexivity | exact Hp] | constructor] | lia].
  - split; [constructor | lia].
Qed.

Lemma listingFlags_facts idx l :
  Forall (fun f => rf_listing f = idx + 1
                   /\ In (rf_penalty f) [5; 10; 15; 20]) (listingFlags idx l)
  /\ len (listingFlags idx l) <= 7
  /\ 0 <= penaltySum (listingFlags idx l) <= 90.
Proof.
  rewrite listingFlags_eq. unfold mkFlag.
  pose proof (flag_piece_facts (reUrgency (fullText l)) idx
                "Urgent language" None 15 ltac:(simpl; auto)) as (F1 & N1 & P1).
  pose proof (flag_piece_facts (reFinancialPressure (fullText l)) idx
                "Financial pressure language" None 15 ltac:(simpl; auto)) as (F2 & N2 & P2).
  pose proof (flag_piece_facts (reCashOnly (fullText l)) idx
                "Cash only / suspicious payment" None 20 ltac:(simpl; auto)) as (F3 & N3 & P3).
  pose proof (flag_piece_facts (reFirstCome (fullText l)) idx
                "First come first serve" None 10 ltac:(simpl; auto)) as (F4 & N4 & P4).
  pose proof (flag_piece_facts (reOffPlatform (fullText l)) idx
                "Off-platform contact attempt" None 20 ltac:(simpl; auto)) as (F5 & N5 & P5).
  pose proof (flag_piece_facts (isAllCapsTitle l) idx
                "ALL-CAPS title" None 5 ltac:(simpl; auto)) as (F6 & N6 & P6).
  pose proof (flag_piece_facts (3 <? emojiCount (fullText l)) idx
                "Excessive emojis" (Some (emojiCount (fullText l))) 5
                ltac:(simpl; auto)) as (F7 & N7 & P7).
  cbv zeta in *.
  change penalties.urgent with 15. change penalties.needMoneyAsap with 15.
  change penalties.cashOnly with 20. change penalties.firstComeFirstServe with 10.
  change penalties.offPlatformContact with 20. change penalties.allCapsTitle with 5.
  change penalties.excessEmojis with 5.
  unfold len in *. rewrite !length_app, !penaltySum_app, !Nat2Z.inj_add.
  split; [|lia].
  repeat (apply Forall_app; split; [assumption|]). assumption.
Qed.

Lemma scanListings_state ls : forall st idx,
  scanListings st idx ls
  = (fst st - penaltySum (allFlags idx ls), snd st ++ allFlags idx ls).
Proof.
  induction ls as [|l ls IH]; intros st idx; cbn [scanListings allFlags].
  - destruct st. cbn [fst snd]. unfold penaltySum. simpl.
    rewrite Z.sub_0_r, app_nil_r. reflexivity.
  - rewrite IH, scanListing_state. cbn [fst snd].
    rewrite penaltySum_app, app_assoc. f_equal. lia.
Qed.

Lemma redflags_closed l ls sd :
  calculateBehavioralRedFlagsScore (l :: ls) sd
  = {| score := Some (Z.max 0 (100 - penaltySum (allFlags 0 (l :: ls))));
       available := true;
       breakdown :=
         RedFlagsBreakdown 100 (len (allFlags 0 (l :: ls))) (allFlags 0 (l :: ls))
           (Z.max 0 (100 - penaltySum (allFlags 0 (l :: ls)))) |}.
Proof.
  unfold calculateBehavioralRedFlagsScore.
  rewrite scanListings_state. reflexivity.
Qed.

Lemma allFlags_facts ls : forall idx,
  Forall (fun f => idx + 1 <= rf_listing f <= idx + len ls
                   /\ In (rf_penalty f) [5; 10; 15; 20]) (allFlags idx ls)
  /\ len (allFlags idx ls) <= 7 * len ls
  /\ 0 <= penaltySum (allFlags idx ls) <= 90 * len ls.
Proof.
  unfold len. induction ls as [|l ls IH]; intros idx; cbn [allFlags].
  - split; [constructor | split; [simpl; lia | unfold penaltySum; simpl; lia]].
  - destruct (listingFlags_facts idx l) as (Hf & Hn & Hp).
    destruct (IH (idx + 1)) as (Hf' & Hn' & Hp').
    unfold len in *. rewrite length_app, penaltySum_app.
    simpl List.length. rewrite Nat2Z.inj_succ.
    split; [|split; lia].
    apply Forall_app. split.
    + eapply Forall_impl; [|exact Hf]. cbv beta. intros f [H1 H2]. split; [lia | exact H2].
    + eapply Forall_impl; [|exact Hf']. cbv beta. intros f [H1 H2]. split; [lia | exact H2].
Qed.

Lemma allFlags_app a : forall idx b,
  allFlags idx (a ++ b) = allFlags idx a ++ allFlags (idx + len a) b.
Proof.
  unfold len. induction a as [|x a IH]; intros idx b; cbn [allFlags app].
  - simpl. rewrite Z.add_0_r. reflexivity.
  - rewrite IH, <- app_assoc. simpl List.length. rewrite Nat2Z.inj_succ.
    do 3 f_equal. lia.
Qed.

Lemma penaltySum_ge_member flags f :
  Forall (fun g => In (rf_penalty g) [5; 10; 15; 20]) flags ->
  In f flags -> rf_penalty f <= penaltySum flags.
Proof.
  unfold penaltySum. induction flags as [|g flags IH]; intros Hall Hin; [destruct Hin|].
  inversion Hall as [|? ? Hg Hrest]; subst. simpl zsum.
  assert (0 <= zsum (map rf_penalty flags)).
  { clear -Hrest. induction Hrest as [|h t Hh _ IHt]; simpl; [lia|]. simpl in Hh. lia. }
  destruct Hin as [<- | Hin]; [lia|].
  specialize (IH Hrest Hin). simpl in Hg. lia.
Qed.

(** X10: the Behavioral Red Flags score is accounted for by its breakdown.
    For a non-empty listing list the score and the breakdown's final score
    are both max(0, 100 - the sum of the penalties of the listed flags), and
    [redFlagsFound] is the number of listed flags. *)
Theorem red_flags_breakdown_accounts_for_score
    (l : Listing) (ls : list Listing) (sd : SellerData) :
  exists flags final,
    calculateBehavioralRedFlagsScore (l :: ls) sd
    = {| score := Some final; available := true;
         breakdown := RedFlagsBreakdown 100 (len flags) flags final |}
    /\ final = Z.max 0 (100 - penaltySum flags).
Proof.
  exists (allFlags 0 (l :: ls)), (Z.max 0 (100 - penaltySum (allFlags 0 (l :: ls)))).
  split; [apply redflags_closed | reflexivity].
Qed.

(** X11: bounds on the red flags. Every flag of the breakdown names a
    listing index between 1 and the number of listings and carries a penalty
    of 5, 10, 15 or 20; a listing raises at most 7 flags and loses at most
    90 points, so the score is at least max(0, 100 - 90 * listings): one
    listing alone never brings the score below 10. *)
Theorem red_flags_bounded
    (l : Listing) (ls : list Listing) (sd : SellerData)
    (flags : list RedFlag) (found start final : Z) :
  breakdown (calculateBehavioralRedFlagsScore (l :: ls) sd)
  = RedFlagsBreakdown start found flags final ->
  Forall (fun f => 1 <= rf_listing f <= len (l :: ls)
                   /\ In (rf_penalty f) [5; 10; 15; 20]) flags
  /\ found = len flags
  /\ found <= 7 * len (l :: ls)
  /\ Z.max 0 (100 - 90 * len (l :: ls)) <= final <= 100
  /\ score (calculateBehavioralRedFlagsScore (l :: ls) sd) = Some final.
Proof.
  rewrite redflags_closed. cbn [breakdown score]. intros H.
  assert (Hflags : flags = allFlags 0 (l :: ls)) by congruence.
  assert (Hfound : found = len (allFlags 0 (l :: ls))) by congruence.
  assert (Hfinal : final = Z.max 0 (100 - penaltySum (allFlags 0 (l :: ls))))
    by congruence.
  clear H. subst flags found final.
  destruct (allFlags_facts (l :: ls) 0) as (Hf & Hn & Hp).
  split_all; try lia; try reflexivity.
  eapply Forall_impl; [|exact Hf]. cbv beta. intros f [H1 H2]. split; [lia | exact H2].
Qed.

Lemma red_flags_bounded_witness :
  Z.max 0 (100 - 90 * len [scamListing]) <= 45 <= 100
  /\ score (calculateBehavioralRedFlagsScore [scamListing] emptyProfile) = Some 45.
Proof.
  refine (proj2 (proj2 (proj2
            (red_flags_bounded scamListing [] emptyProfile
               (allFlags 0 [scamListing]) 3 100 45 _)))).
  vm_compute. reflexivity.
Defined.

(** X12: appending listings never raises the Behavioral Red Flags score. *)
Theorem more_listings_never_raise_score
    (l : Listing) (ls extra : list Listing) (sd : SellerData) :
  toNumber (score (calculateBehavioralRedFlagsScore ((l :: ls) ++ extra) sd))
  <= toNumber (score (calculateBehavioralRedFlagsScore (l :: ls) sd)).
Proof.
  change ((l :: ls) ++ extra) with (l :: (ls ++ extra)).
  rewrite !redflags_closed. cbn [score toNumber].
  change (l :: (ls ++ extra)) with ((l :: ls) ++ extra).
  rewrite allFlags_app, penaltySum_app.
  destruct (allFlags_facts extra (0 + len (l :: ls))) as (_ & _ & Hp). lia.
Qed.

(** X13: the red-flag scan has no limit of five listings. A listing with
    urgency language appended at any position, also after the fifth, costs
    at least its 15 points. *)
Theorem late_listing_still_counts
    (l : Listing) (ls : list Listing) (late : Listing) (sd : SellerData) :
  reUrgency (fullText late) = true ->
  toNumber (score (calculateBehavioralRedFlagsScore ((l :: ls) ++ [late]) sd))
  <= Z.max 0 (toNumber (score (calculateBehavioralRedFlagsScore (l :: ls) sd)) - 15).
Proof.
  intros Hu.
  change ((l :: ls) ++ [late]) with (l :: (ls ++ [late])).
  rewrite !redflags_closed. cbn [score toNumber].
  change (l :: (ls ++ [late])) with ((l :: ls) ++ [late]).
  rewrite allFlags_app, penaltySum_app. cbn [allFlags]. rewrite app_nil_r.
  assert (Hp : 15 <= penaltySum (listingFlags (0 + len (l :: ls)) late)).
  { destruct (listingFlags_facts (0 + len (l :: ls)) late) as (Hf & _ & _).
    apply (penaltySum_ge_member _
             (mkFlag (0 + len (l :: ls)) "Urgent language" penalties.urgent)).
    - eapply Forall_impl; [|exact Hf]. cbv beta. intros f [_ H]. exact H.
    - rewrite listingFlags_eq, Hu. left. reflexivity. }
  lia.
Qed.

Lemma late_listing_still_counts_witness :
  toNumber (score (calculateBehavioralRedFlagsScore
                     ((plainListing :: repeat plainListing 5) ++ [scamListing])
                     emptyProfile))
  <= Z.max 0 (toNumber (score (calculateBehavioralRedFlagsScore
                                 (plainListing :: repeat plainListing 5) emptyProfile))
              - 15).
Proof.
  apply (late_listing_still_counts plainListing (repeat plainListing 5) scamListing
           emptyProfile).
  vm_compute. reflexivity.
Defined.

(** ** Verification & Identity *)

Lemma streq_eq a : forall b, streq a b = true -> a = b.
Proof.
  induction a as [|x a IH]; intros [|y b]; simpl; try discriminate; [reflexivity|].
  intros H. apply andb_prop in H. destruct H as [H1 H2].
  apply N.eqb_eq in H1. rewrite (IH b H2), H1. reflexivity.
Qed.

Lemma verification_closed (sd : SellerData) :
  let base := toNumber (score (calculateVerificationIdentityScore (stripProfile sd))) in
  In base [0; 50; 70; 100]
  /\ score (calculateVerificationIdentityScore sd)
     = Some (Z.min 100 (base + (if hasPhotoOf sd then 10 else 0)
                             + (if hasLocationOf sd then 10 else 0)))
  /\ verificationTypeOf (calculateVerificationIdentityScore sd)
     = verificationTypeOf (calculateVerificationIdentityScore (stripProfile sd)).
Proof.
  unfold calculateVerificationIdentityScore, hasPhotoOf, hasLocationOf, verificationTypeOf.
  change (md (stripProfile sd) verificationStatus) with (md sd verificationStatus).
  change (pd (stripProfile sd) profilePicture) with (@None jsstring).
  change (pd (stripProfile sd) location) with (@None jsstring).
  cbn [truthyStr andb].
  set (v := match md sd verificationStatus with
            | Some s => match toLowerCase s with [] => lit "unverified" | l => l end
            | None => lit "unverified"
            end).
  destruct (includes v (lit "id") || streq v (lit "id-verified")
            || streq v (lit "identity verified"));
    [|destruct (includes v (lit "phone") || streq v (lit "phone-verified"));
      [|destruct (includes v (lit "email") || streq v (lit "email-verified"))]];
    destruct (truthyStr (pd sd profilePicture)),
      (truthyStr (pd sd location)
       && negb (streq (orEmpty (pd sd location)) (lit "Not specified")));
    break_if; cbn; split_all; try reflexivity; auto 10; f_equal; lia.
Qed.

(** X14: the profile adds 10 points for a photo and 10 for a location, capped
    at 100, on top of the tier (0, 50, 70 or 100) that the verification
    status alone gets; the verification type does not depend on the profile. *)
Theorem verification_profile_bonus (sd : SellerData) :
  let base := toNumber (score (calculateVerificationIdentityScore (stripProfile sd))) in
  In base [0; 50; 70; 100]
  /\ score (calculateVerificationIdentityScore sd)
     = Some (Z.min 100 (base + (if hasPhotoOf sd then 10 else 0)
                             + (if hasLocationOf sd then 10 else 0)))
  /\ verificationTypeOf (calculateVerificationIdentityScore sd)
     = verificationTypeOf (calculateVerificationIdentityScore (stripProfile sd)).
Proof. exact (verification_closed sd). Qed.

(** X15: the verification tier is chosen by substring. Any status that
    contains "id" in any letter case scores 100 as "ID Verified" (the two
    exact comparisons add nothing); a status that contains none of "id",
    "phone", "email" (such as 'verified') is "Not Verified" and scores only
    the profile bonus. *)
Theorem verification_tier_by_substring (sd : SellerData) (s : jsstring) :
  md sd verificationStatus = Some s ->
  (includes (toLowerCase s) (lit "id") = true ->
   score (calculateVerificationIdentityScore sd) = Some 100
   /\ verificationTypeOf (calculateVerificationIdentityScore sd) = Some "ID Verified"%string)
  /\ (includes (toLowerCase s) (lit "id") = false ->
      includes (toLowerCase s) (lit "phone") = false ->
      includes (toLowerCase s) (lit "email") = false ->
      verificationTypeOf (calculateVerificationIdentityScore sd)
      = Some "Not Verified"%string
      /\ score (calculateVerificationIdentityScore sd)
         = Some ((if hasPhotoOf sd then 10 else 0) + (if hasLocationOf sd then 10 else 0))).
Proof.
  intros Hs. unfold calculateVerificationIdentityScore, hasPhotoOf, hasLocationOf,
    verificationTypeOf. rewrite Hs. split.
  - intros Hid. destruct (toLowerCase s) as [|c l] eqn:El; [discriminate Hid|].
    rewrite Hid. cbn [orb]. break_if; cbn; split; reflexivity.
  - intros Hid Hph Hem.
    assert (Hv : forall v,
               v = match toLowerCase s with [] => lit "unverified" | c :: l => c :: l end ->
               includes v (lit "id") || streq v (lit "id-verified")
               || streq v (lit "identity verified") = false
               /\ includes v (lit "phone") || streq v (lit "phone-verified") = false
               /\ includes v (lit "email") || streq v (lit "email-verified") = false).
    { intros v Hv. destruct (toLowerCase s) as [|c l] eqn:El.
      - subst v. vm_compute. auto.
      - subst v. rewrite Hid, Hph, Hem. cbn [orb].
        repeat match goal with
               | |- context [streq (c :: l) ?p] =>
                   let E := fresh "E" in
                   destruct (streq (c :: l) p) eqn:E;
                   [apply streq_eq in E; rewrite E in Hid, Hph, Hem;
                    first [ vm_compute in Hid; discriminate Hid
                          | vm_compute in Hph; discriminate Hph
                          | vm_compute in Hem; discriminate Hem ]|]
               end.
        auto. }
    destruct (Hv _ eq_refl) as (H1 & H2 & H3). rewrite H1, H2, H3.
    break_if; cbn; split; reflexivity.
Qed.

Lemma verification_tier_by_substring_witness :
  score (calculateVerificationIdentityScore (verifiedOnly "Identity confirmed")) = Some 100
  /\ verificationTypeOf (calculateVerificationIdentityScore (verifiedOnly "verified"))
     = Some "Not Verified"%string
  /\ score (calculateVerificationIdentityScore (verifiedOnly "verified")) = Some 0.
Proof.
  destruct (verification_tier_by_substring (verifiedOnly "Identity confirmed")
              (lit "Identity confirmed") eq_refl) as [Hid _].
  destruct (verification_tier_by_substring (verifiedOnly "verified")
              (lit "verified") eq_refl) as [_ Hnone].
  split; [apply Hid; vm_compute; reflexivity|].
  apply Hnone; vm_compute; reflexivity.
Defined.

(** ** Community feedback *)

Lemma adjustByNet_monotone base net net' :
  0 <= base <= 100 -> net <= net' ->
  adjustByNet base net <= adjustByNet base net'.
Proof.
  intros Hb Hn. unfold adjustByNet.
  destruct (0 <? net) eqn:E1, (net <? 0) eqn:E2, (0 <? net') eqn:E3, (net' <? 0) eqn:E4;
    repeat match goal with
           | H : (_ <? _) = true |- _ => apply Z.ltb_lt in H
           | H : (_ <? _) = false |- _ => apply Z.ltb_ge in H
           end; lia.
Qed.

Lemma feedback_monotone (sd : SellerData) (fb fb' : VeribleFeedback) :
  lengthOrZero (endorsements fb) <= lengthOrZero (endorsements fb') ->
  lengthOrZero (flags fb') <= lengthOrZero (flags fb) ->
  toNumber (score (calculateCommunityFeedbackScore sd (Some fb)))
  <= toNumber (score (calculateCommunityFeedbackScore sd (Some fb'))).
Proof.
  intros He Hf. rewrite !feedback_supplied. cbn [score toNumber].
  apply adjustByNet_monotone; [apply baseTier_range | unfold netFeedbackOf; lia].
Qed.

(** X16: with feedback supplied, more endorsements never lower and more
    flags never raise the Community Feedback score. *)
Theorem feedback_is_monotone (sd : SellerData) (fb fb' : VeribleFeedback) :
  lengthOrZero (endorsements fb) <= lengthOrZero (endorsements fb') ->
  lengthOrZero (flags fb') <= lengthOrZero (flags fb) ->
  toNumber (score (calculateCommunityFeedbackScore sd (Some fb)))
  <= toNumber (score (calculateCommunityFeedbackScore sd (Some fb'))).
Proof. apply feedback_monotone. Qed.

(** X17: a stored seller always has a Community Feedback score. The feedback
    object [buildVeribleFeedback] builds for an existing seller record makes
    the category available even when the record holds no endorsement and no
    flag; with as many endorsements as flags the score is the base tier. For
    a seller without a record and without reviews the category is
    unavailable. *)
Theorem known_seller_feedback_is_scored (sd : SellerData) (seller : SellerRecord) :
  available (calculateCommunityFeedbackScore sd (buildVeribleFeedback (Some seller))) = true
  /\ (lengthOrZero (sr_endorsements seller) = lengthOrZero (sr_flags seller) ->
      score (calculateCommunityFeedbackScore sd (buildVeribleFeedback (Some seller)))
      = Some (baseTier (reviewCountOf sd) (avgRatingOf sd)))
  /\ (PrimFloat.eqb (reviewCountOf sd) 0 = true ->
      unavailableOutcome (calculateCommunityFeedbackScore sd (buildVeribleFeedback None))).
Proof.
  cbn [buildVeribleFeedback]. rewrite feedback_supplied, feedback_not_supplied.
  split; [reflexivity|]. split.
  - intros Heq. cbn [score]. unfold netFeedbackOf, adjustByNet. cbn [endorsements flags].
    assert (Hl : forall (a : option (list FeedbackEntry)),
               lengthOrZero (Some (orEmptyList a)) = lengthOrZero a)
      by (intros [l|]; reflexivity).
    rewrite !Hl, Heq, Z.sub_diag. reflexivity.
  - intros ->. split; reflexivity.
Qed.

Lemma known_seller_feedback_is_scored_witness :
  score (calculateCommunityFeedbackScore oneReview (buildVeribleFeedback (Some freshRecord)))
  = Some (baseTier (reviewCountOf oneReview) (avgRatingOf oneReview))
  /\ unavailableOutcome
       (calculateCommunityFeedbackScore emptyProfile (buildVeribleFeedback None)).
Proof.
  split.
  - apply (proj1 (proj2 (known_seller_feedback_is_scored oneReview freshRecord))).
    reflexivity.
  - apply (proj2 (proj2 (known_seller_feedback_is_scored emptyProfile freshRecord))).
    vm_compute. reflexivity.
Defined.

Lemma feedback_is_monotone_witness :
  toNumber (score (calculateCommunityFeedbackScore oneReview (Some twoEndorsementsFiveFlags)))
  <= toNumber (score (calculateCommunityFeedbackScore oneReview (Some twoEndorsementsNoFlags))).
Proof.
  apply (feedback_is_monotone oneReview twoEndorsementsFiveFlags twoEndorsementsNoFlags);
    vm_compute; discriminate.
Defined.

(** ** Recommendations, risks and strengths *)

Lemma pushIf_cons {A} (c : bool) (x a : A) l : pushIf c x (a :: l) = a :: pushIf c x l.
Proof. unfold pushIf. destruct c; reflexivity. Qed.

(** X18: the recommendations always start with the overall recommendation,
    whose action is the one that goes with the trust level of the same score
    (Safe to Purchase for Excellent, Consider for Purchase for Good, Review
    Carefully Before Purchase for Fair, Avoid or Request Additional
    Verification for Poor and Very Poor), followed by at most 3 category
    recommendations. *)
Theorem overall_recommendation_matches_trust_level
    (finalScore : Z) (cats : Categories) :
  exists overall rest,
    generateRecommendations finalScore cats = overall :: rest
    /\ rec_action overall = actionForTrustLevel (determineTrustLevel finalScore)
    /\ len rest <= 3.
Proof.
  unfold generateRecommendations, determineTrustLevel.
  destruct (80 <=? finalScore); [|destruct (60 <=? finalScore);
    [|destruct (40 <=? finalScore); [|destruct (20 <=? finalScore)]]];
    cbv zeta; rewrite !pushIf_cons; eexists; eexists;
    (split; [reflexivity|]); (split; [reflexivity|]);
    unfold pushIf, len; break_if; simpl; lia.
Qed.

Lemma hasRisk_characterized cats :
  hasRisk "Verification & Identity" (identifyRiskFactors cats)
  = availableBelow (verificationIdentity cats) 30
  /\ hasRisk "Account Maturity" (identifyRiskFactors cats)
     = availableBelow (accountMaturity cats) 40
  /\ hasRisk "Behavioral Red Flags" (identifyRiskFactors cats)
     = availableBelow (behavioralRedFlags cats) 70
  /\ hasRisk "Community Feedback" (identifyRiskFactors cats)
     = availableBelow (communityFeedback cats) 40.
Proof.
  unfold identifyRiskFactors.
  destruct (availableBelow (verificationIdentity cats) 30),
    (availableBelow (accountMaturity cats) 40),
    (availableBelow (behavioralRedFlags cats) 70),
    (availableBelow (communityFeedback cats) 40); vm_compute; auto.
Qed.

Lemma hasAction_characterized finalScore cats :
  hasAction "Request verification before proceeding"
    (generateRecommendations finalScore cats)
  = availableBelow (verificationIdentity cats) 50
  /\ hasAction "Exercise extreme caution or avoid"
       (generateRecommendations finalScore cats)
     = availableBelow (behavioralRedFlags cats) 70
  /\ hasAction "Check reviews carefully" (generateRecommendations finalScore cats)
     = availableBelow (communityFeedback cats) 40.
Proof.
  unfold generateRecommendations.
  destruct (80 <=? finalScore), (60 <=? finalScore), (40 <=? finalScore),
    (availableBelow (verificationIdentity cats) 50),
    (availableBelow (behavioralRedFlags cats) 70),
    (availableBelow (communityFeedback cats) 40); vm_compute; auto.
Qed.

Lemma availableBelow_mono c a b :
  a <= b -> availableBelow c a = true -> availableBelow c b = true.
Proof.
  unfold availableBelow. intros Hab H. apply andb_prop in H. destruct H as [-> H].
  apply Z.ltb_lt in H. apply Z.ltb_lt. lia.
Qed.

(** X19: risk factors and category recommendations agree. The Behavioral
    Red Flags risk factor is reported exactly when the red-flag
    recommendation is, the Community Feedback risk factor exactly when the
    "check reviews" recommendation is, and a Verification & Identity risk
    factor always comes with the "request verification" recommendation. *)
Theorem risks_agree_with_recommendations (finalScore : Z) (cats : Categories) :
  hasRisk "Behavioral Red Flags" (identifyRiskFactors cats)
  = hasAction "Exercise extreme caution or avoid" (generateRecommendations finalScore cats)
  /\ hasRisk "Community Feedback" (identifyRiskFactors cats)
     = hasAction "Check reviews carefully" (generateRecommendations finalScore cats)
  /\ (hasRisk "Verification & Identity" (identifyRiskFactors cats) = true ->
      hasAction "Request verification before proceeding"
        (generateRecommendations finalScore cats) = true).
Proof.
  destruct (hasRisk_characterized cats) as (Hv & _ & Hb & Hc).
  destruct (hasAction_characterized finalScore cats) as (Hv' & Hb' & Hc').
  rewrite Hv, Hb, Hc, Hv', Hb', Hc'. split_all; try reflexivity.
  apply availableBelow_mono. lia.
Qed.

(** X20: on the engine's own categories the Verification & Identity risk
    factor (score below 30) and the "request verification" recommendation
    (score below 50) coincide, and both appear exactly when the verification
    type is "Not Verified": no reachable score lies between 20 and 50. *)
Theorem verification_risk_iff_recommendation
    (sd : SellerData) (rl : list Listing) (vf : option VeribleFeedback) (finalScore : Z) :
  let cats := scoreCategories sd rl vf in
  hasRisk "Verification & Identity" (identifyRiskFactors cats)
  = hasAction "Request verification before proceeding"
      (generateRecommendations finalScore cats)
  /\ (hasRisk "Verification & Identity" (identifyRiskFactors cats) = true
      <-> verificationTypeOf (calculateVerificationIdentityScore sd)
          = Some "Not Verified"%string).
Proof.
  intros cats.
  destruct (hasRisk_characterized cats) as (Hv & _).
  destruct (hasAction_characterized finalScore cats) as (Hv' & _).
  rewrite Hv, Hv'. unfold availableBelow.
  change (verificationIdentity cats) with (calculateVerificationIdentityScore sd).
  rewrite (verification_available sd). cbn [andb].
  destruct (verification_closed sd) as (Hbase & Hs & Ht). cbv zeta in *.
  rewrite Hs, Ht. cbn [toNumber].
  unfold calculateVerificationIdentityScore, verificationTypeOf in *.
  change (md (stripProfile sd) verificationStatus) with (md sd verificationStatus) in *.
  change (pd (stripProfile sd) profilePicture) with (@None jsstring) in *.
  change (pd (stripProfile sd) location) with (@None jsstring) in *.
  cbn [truthyStr andb] in *.
  set (v := match md sd verificationStatus with
            | Some s => match toLowerCase s with [] => lit "unverified" | l => l end
            | None => lit "unverified"
            end) in *.
  destruct (includes v (lit "id") || streq v (lit "id-verified")
            || streq v (lit "identity verified"));
    [|destruct (includes v (lit "phone") || streq v (lit "phone-verified"));
      [|destruct (includes v (lit "email") || streq v (lit "email-verified"))]];
    destruct (hasPhotoOf sd), (hasLocationOf sd);
    repeat match goal with
           | |- context [isPlatformUnavailable ?x] => destruct (isPlatformUnavailable x)
           end;
    cbn; (split; [reflexivity | split; intros H; first [discriminate H | reflexivity]]).
Qed.

Lemma fold_pushIf {A B} (c : A -> bool) (m : A -> B) l : forall init,
  fold_left (fun acc k => pushIf (c k) (m k) acc) l init
  = init ++ map m (filter c l).
Proof.
  induction l as [|k l IH]; intros init; simpl.
  - rewrite app_nil_r. reflexivity.
  - rewrite IH. unfold pushIf. destruct (c k); simpl; [rewrite <- app_assoc|]; reflexivity.
Qed.

Lemma strengths_closed cats :
  identifyStrengths cats
  = map (fun key => {| st_category := key;
                       st_score := score (get cats key);
                       st_message := getStrengthMessage key (score (get cats key)) |})
      (filter (strong cats) keys).
Proof.
  unfold identifyStrengths.
  rewrite (fold_pushIf (strong cats)
             (fun key => {| st_category := key;
                            st_score := score (get cats key);
                            st_message := getStrengthMessage key (score (get cats key)) |})).
  reflexivity.
Qed.

Lemma strength_categories cats :
  map st_category (identifyStrengths cats) = filter (strong cats) keys.
Proof. rewrite strengths_closed, map_map. cbn [st_category]. apply map_id. Qed.

(** X21: a category is listed as a strength exactly when it is available
    with a score of at least 80, and a category listed as a strength is
    never reported as a risk factor. *)
Theorem strengths_are_not_risks (cats : Categories) (key : Key.t) :
  (In key (map st_category (identifyStrengths cats))
   <-> available (get cats key) = true /\ 80 <= toNumber (score (get cats key)))
  /\ (forall name,
        riskNameOf key = Some name ->
        In key (map st_category (identifyStrengths cats)) ->
        hasRisk name (identifyRiskFactors cats) = false).
Proof.
  assert (Hin : In key (map st_category (identifyStrengths cats))
                <-> available (get cats key) = true
                    /\ 80 <= toNumber (score (get cats key))).
  { rewrite strength_categories, filter_In. unfold strong.
    rewrite andb_true_iff, Z.leb_le. pose proof (In_keys key). tauto. }
  split; [exact Hin|].
  intros name Hname Hkey. apply Hin in Hkey. destruct Hkey as [Ha Hs].
  destruct (hasRisk_characterized cats) as (Hv & Hm & Hb & Hc).
  assert (Hlow : forall t, t <= 80 -> availableBelow (get cats key) t = false).
  { intros t Ht. unfold availableBelow. rewrite Ha. apply Z.ltb_ge. lia. }
  destruct key; cbn [riskNameOf] in Hname; try discriminate Hname;
    injection Hname as <-; cbn [get] in Hlow.
  - rewrite Hv. apply Hlow. lia.
  - rewrite Hm. apply Hlow. lia.
  - rewrite Hc. apply Hlow. lia.
  - rewrite Hb. apply Hlow. lia.
Qed.

Lemma strengths_are_not_risks_witness :
  hasRisk "Verification & Identity"
    (identifyRiskFactors (scoreCategories establishedSeller [fullListing] None)) = false.
Proof.
  apply (proj2 (strengths_are_not_risks
                  (scoreCategories establishedSeller [fullListing] None)
                  Key.verificationIdentity)).
  - reflexivity.
  - vm_compute. left. reflexivity.
Defined.

(** ** More on aggregation *)

Lemma fsum_nil_zero : PrimFloat.eqb (fsum []) 0 = true.
Proof. vm_compute. reflexivity. Qed.

(** X22: the shape of the aggregator's weights. When no category is both
    available and non-null the result is score 0 with an empty weights
    object; otherwise the weights object has the seven keys in order, with
    0 for every category that is not counted. *)
Theorem aggregation_shape (cats : Categories) :
  ((forall key, counted cats key = false) ->
   calculateFinalScore cats = {| finalScore := 0; normalizedWeights := [] |})
  /\ ((exists key, counted cats key = true) ->
      map fst (normalizedWeights (calculateFinalScore cats)) = keys
      /\ forall key, counted cats key = false ->
                     lookup key (normalizedWeights (calculateFinalScore cats)) = Some 0).
Proof.
  rewrite calculateFinalScore_unfold, totalWeightOf_filter. split.
  - intros Hnone.
    assert (Hf : filter (counted cats) keys = []).
    { unfold keys. simpl. rewrite !Hnone. reflexivity. }
    rewrite Hf. cbn [map]. rewrite fsum_nil_zero. reflexivity.
  - intros Hsome. rewrite (some_weight_nonzero _ Hsome). cbn [normalizedWeights].
    split.
    + rewrite map_map. cbn [fst]. apply map_id.
    + intros key Hkey.
      rewrite (lookup_keys (fun key => if counted cats key then _ else 0)).
      rewrite Hkey. reflexivity.
Qed.

Lemma aggregation_shape_witness :
  calculateFinalScore noCategories = {| finalScore := 0; normalizedWeights := [] |}
  /\ lookup Key.engagement
       (normalizedWeights
          (calculateFinalScore (scoreCategories emptyProfile [plainListing] None)))
     = Some 0.
Proof.
  split.
  - apply (proj1 (aggregation_shape noCategories)).
    intros key. destruct key; reflexivity.
  - apply (proj2 (aggregation_shape (scoreCategories emptyProfile [plainListing] None))).
    + exists Key.verificationIdentity. vm_compute. reflexivity.
    + vm_compute. reflexivity.
Defined.

Lemma uniformCheck_sound selected s :
  uniformCheck selected = true -> 0 <= s <= 100 -> uniformFinal selected s = s.
Proof.
  unfold uniformCheck. intros H Hs. rewrite forallb_forall in H.
  specialize (H (Z.to_nat s)).
  assert (Hin : In (Z.to_nat s) (seq 0 101)) by (apply in_seq; lia).
  specialize (H Hin). rewrite Z2Nat.id in H by lia. apply Z.eqb_eq in H. exact H.
Qed.

Lemma uniformCheck_all (p : Key.t -> bool) :
  (exists key, p key = true) -> uniformCheck (filter p keys) = true.
Proof.
  intros [key Hkey]. unfold keys. simpl filter.
  destruct (p Key.verificationIdentity) eqn:E1, (p Key.accountMaturity) eqn:E2,
    (p Key.listingCompleteness) eqn:E3, (p Key.activityRecency) eqn:E4,
    (p Key.engagement) eqn:E5, (p Key.communityFeedback) eqn:E6,
    (p Key.behavioralRedFlags) eqn:E7;
    try (vm_compute; reflexivity).
  destruct key; congruence.
Qed.

(** X23: renormalisation preserves a common score. When every counted
    category has the same score s in [0,100], the final score is s, whichever
    categories are missing. *)
Theorem uniform_scores_give_that_score (cats : Categories) (s : Z) :
  (exists key, counted cats key = true) ->
  (forall key, counted cats key = true -> score (get cats key) = Some s) ->
  0 <= s <= 100 ->
  finalScore (calculateFinalScore cats) = s.
Proof.
  intros Hsome Hall Hs.
  rewrite calculateFinalScore_unfold.
  rewrite (totalWeightOf_filter cats) at 1. rewrite (some_weight_nonzero _ Hsome).
  cbn [finalScore].
  rewrite (map_ext_in _ (fun key => (Z2F s * (categoryWeights key / totalWeightOf cats))%float)).
  - rewrite totalWeightOf_filter.
    apply (uniformCheck_sound (filter (counted cats) keys) s); [|exact Hs].
    apply uniformCheck_all. exact Hsome.
  - intros key Hin. apply filter_In in Hin. destruct Hin as [_ Hc].
    rewrite (Hall key Hc). reflexivity.
Qed.

Lemma uniform_scores_give_that_score_witness :
  finalScore (calculateFinalScore (uniformCategories 73)) = 73.
Proof.
  apply (uniform_scores_give_that_score (uniformCategories 73) 73).
  - exists Key.verificationIdentity. vm_compute. reflexivity.
  - intros key H. destruct key; first [reflexivity | vm_compute in H; discriminate H].
  - lia.
Defined.

(** ** ALL-CAPS titles *)

Lemma toUpperCase_ascii t :
  isAsciiText t = true -> toUpperCase t = map asciiUpper t.
Proof.
  unfold toUpperCase, isAsciiText.
  induction t as [|c t IH]; cbn [flat_map map forallb]; [reflexivity|].
  intros H. apply andb_prop in H. destruct H as [Hc Ht].
  destruct (ascii_case c Hc) as (_ & Hu & _). rewrite Hu, (IH Ht). reflexivity.
Qed.

Lemma upper_fixed t :
  forallb (fun c => negb (isLowerLetter c)) t = true -> map asciiUpper t = t.
Proof.
  induction t as [|c t IH]; simpl; [reflexivity|].
  intros H. apply andb_prop in H. destruct H as [Hc Ht].
  rewrite (IH Ht). unfold asciiUpper, isLowerLetter in *.
  apply negb_true_iff in Hc. rewrite Hc. reflexivity.
Qed.

Lemma streq_refl a : streq a a = true.
Proof. induction a as [|x a IH]; simpl; [reflexivity|]. rewrite N.eqb_refl. exact IH. Qed.

Lemma upper_changes t :
  forallb (fun c => negb (isLowerLetter c)) t = false ->
  streq t (map asciiUpper t) = false.
Proof.
  induction t as [|c t IH]; simpl; [discriminate|].
  intros H. apply andb_false_iff in H. destruct H as [Hc | Ht].
  - apply negb_false_iff in Hc. unfold asciiUpper. unfold isLowerLetter in Hc.
    rewrite Hc. apply andb_prop in Hc. destruct Hc as [H1 H2].
    apply N.leb_le in H1. apply N.leb_le in H2.
    assert (Hne : (c =? c - 32)%N = false) by (apply N.eqb_neq; lia).
    rewrite Hne. reflexivity.
  - rewrite (IH Ht). apply andb_false_r.
Qed.

Lemma ascii_strlen t : isAsciiText t = true -> strlen t = len t.
Proof.
  unfold isAsciiText, len. induction t as [|c t IH]; simpl; [reflexivity|].
  intros H. apply andb_prop in H. destruct H as [Hc Ht].
  apply N.ltb_lt in Hc. rewrite (IH Ht).
  destruct (65536 <=? c)%N eqn:E; [apply N.leb_le in E; lia|]. lia.
Qed.

(** X24: which titles count as ALL-CAPS. A Basic Latin title is flagged
    exactly when it is longer than 5 characters and has no lower-case
    letter; a title of digits and punctuation alone qualifies. *)
Theorem all_caps_title_characterized (l : Listing) (t : jsstring) :
  title l = Some t ->
  isAsciiText t = true ->
  isAllCapsTitle l
  = (5 <? len t) && forallb (fun c => negb (isLowerLetter c)) t.
Proof.
  intros Ht Ha. unfold isAllCapsTitle. rewrite Ht. cbn [orEmpty].
  rewrite (ascii_strlen t Ha), (toUpperCase_ascii t Ha).
  destruct (forallb (fun c => negb (isLowerLetter c)) t) eqn:E.
  - rewrite (upper_fixed t E), streq_refl.
    destruct t as [|c t']; [reflexivity|]. cbn [truthyStr andb].
    rewrite andb_true_r. reflexivity.
  - rewrite (upper_changes t E). rewrite andb_false_r, andb_false_r. reflexivity.
Qed.

Lemma all_caps_title_characterized_witness :
  isAllCapsTitle numberPlateListing = true.
Proof.
  rewrite (all_caps_title_characterized numberPlateListing (lit "2015 BMW X5"));
    vm_compute; reflexivity.
Defined.

(** ** The stored seller *)

Lemma lengthOrZero_nonneg {A} (a : option (list A)) : 0 <= lengthOrZero a.
Proof. destruct a; unfold lengthOrZero, len; lia. Qed.

(** X25: after [addFlag] the rescored Community Feedback score of a stored
    seller is never higher, after [addEndorsement] never lower; each moves
    the seller's [netFeedbackScore] by one, and the score is the base tier
    adjusted by that net score. *)
Theorem feedback_actions_move_score
    (sd : SellerData) (seller : SellerRecord) (userId : jsstring) (reason : option jsstring) :
  let rescored s := calculateCommunityFeedbackScore sd (buildVeribleFeedback (Some s)) in
  toNumber (score (rescored (addFlag seller userId reason)))
  <= toNumber (score (rescored seller))
  /\ toNumber (score (rescored seller))
     <= toNumber (score (rescored (addEndorsement seller userId reason)))
  /\ netFeedbackScore (addFlag seller userId reason) = netFeedbackScore seller - 1
  /\ netFeedbackScore (addEndorsement seller userId reason) = netFeedbackScore seller + 1
  /\ score (rescored seller)
     = Some (adjustByNet (baseTier (reviewCountOf sd) (avgRatingOf sd))
               (netFeedbackScore seller)).
Proof.
  intros rescored. unfold rescored. cbn [buildVeribleFeedback].
  assert (Hl : forall (a : option (list FeedbackEntry)),
             lengthOrZero (Some (orEmptyList a)) = lengthOrZero a)
    by (intros [l|]; reflexivity).
  assert (Hadd : forall (a : option (list FeedbackEntry)) e,
             lengthOrZero (Some (orEmptyList a ++ [e])) = lengthOrZero a + 1).
  { intros a e. unfold lengthOrZero, len. rewrite length_app. simpl.
    destruct a; simpl; lia. }
  unfold netFeedbackScore. cbn [addFlag addEndorsement sr_flags sr_endorsements].
  rewrite !Hadd. split_all; try lia.
  - apply feedback_monotone; cbn [endorsements flags]; rewrite ?Hl, ?Hadd; lia.
  - apply feedback_monotone; cbn [endorsements flags]; rewrite ?Hl, ?Hadd; lia.
  - rewrite feedback_supplied. cbn [score]. unfold netFeedbackOf.
    cbn [endorsements flags]. rewrite !Hl. reflexivity.
Qed.

(** X26: how [assessRiskLevel] depends on the flag count. With 3 or more
    flags the level is always "High Risk", whatever the score; "Very High
    Risk" needs a score below 30 and fewer than 3 flags; "Low Risk" needs a
    score of at least 70 and no flag. *)
Theorem risk_level_by_flags (pulseScore flagCount : Z) :
  0 <= flagCount ->
  (3 <= flagCount -> SellerAnalysis.assessRiskLevel pulseScore flagCount = "High Risk"%string)
  /\ (SellerAnalysis.assessRiskLevel pulseScore flagCount = "Very High Risk"%string
      <-> pulseScore < 30 /\ flagCount < 3)
  /\ (SellerAnalysis.assessRiskLevel pulseScore flagCount = "Low Risk"%string
      <-> 70 <= pulseScore /\ flagCount = 0).
Proof.
  intros Hf. unfold SellerAnalysis.assessRiskLevel.
  destruct (70 <=? pulseScore) eqn:E70, (50 <=? pulseScore) eqn:E50,
    (30 <=? pulseScore) eqn:E30, (flagCount =? 0) eqn:F0, (flagCount <? 3) eqn:F3,
    (3 <=? flagCount) eqn:F3';
    repeat match goal with
           | H : (_ <=? _) = true |- _ => apply Z.leb_le in H
           | H : (_ <=? _) = false |- _ => apply Z.leb_gt in H
           | H : (_ <? _) = true |- _ => apply Z.ltb_lt in H
           | H : (_ <? _) = false |- _ => apply Z.ltb_ge in H
           | H : (_ =? _) = true |- _ => apply Z.eqb_eq in H
           | H : (_ =? _) = false |- _ => apply Z.eqb_neq in H
           end;
    cbn [andb orb];
    (split; [intros H|split; split; intros H]);
    first [reflexivity | discriminate H | lia | exfalso; lia].
Qed.

Lemma risk_level_by_flags_witness :
  SellerAnalysis.assessRiskLevel 10 3 = "High Risk"%string.
Proof.
  apply (proj1 (risk_level_by_flags 10 3 ltac:(lia))). lia.
Defined.

(** X27: the dashboard's high-risk filter selects a seller exactly when the
    pulse score is below 50 or the seller has 3 or more flags; its own test
    [pulseScore < 40] adds nothing. *)
Theorem high_risk_filter_simplified
    (pulseScore : Z) (flags : option (list FeedbackEntry)) :
  SellerAnalysis.isHighRisk pulseScore flags
  = (pulseScore <? 50) || (3 <=? lengthOrZero flags).
Proof.
  pose proof (lengthOrZero_nonneg flags) as Hf.
  unfold SellerAnalysis.isHighRisk, SellerAnalysis.assessRiskLevel. cbv zeta.
  destruct (pulseScore <? 40) eqn:E40, (pulseScore <? 50) eqn:E50',
    (70 <=? pulseScore) eqn:E70, (50 <=? pulseScore) eqn:E50,
    (30 <=? pulseScore) eqn:E30, (lengthOrZero flags =? 0) eqn:F0,
    (lengthOrZero flags <? 3) eqn:F3, (3 <=? lengthOrZero flags) eqn:F3';
    repeat match goal with
           | H : (_ <=? _) = true |- _ => apply Z.leb_le in H
           | H : (_ <=? _) = false |- _ => apply Z.leb_gt in H
           | H : (_ <? _) = true |- _ => apply Z.ltb_lt in H
           | H : (_ <? _) = false |- _ => apply Z.ltb_ge in H
           | H : (_ =? _) = true |- _ => apply Z.eqb_eq in H
           | H : (_ =? _) = false |- _ => apply Z.eqb_neq in H
           end;
    try (exfalso; lia); reflexivity.
Qed.

(** ** The confidence formula in exact arithmetic *)

(** Every availability pattern with every recency and consistency level. *)
Lemma confidence_by_count (cats : Categories) (r c : Z) :
  In r [3; 6; 10] -> In c [7; 10] ->
  let n := availableCategoryCount cats in
  countAvailable cats = n
  /\ round2 (tenths r) = tenths r
  /\ round2 (tenths c) = tenths c
  /\ exists kcov k,
       round2 (coverageOf cats) = hundredths kcov
       /\ roundedTo2 (n # 7) kcov
       /\ round2 (0.5 * coverageOf cats + 0.3 * tenths r + 0.2 * tenths c)%float
          = hundredths k
       /\ roundedTo2 (exactConfidence n r c) k.
Proof.
  intros Hr Hc n. subst n.
  unfold coverageOf, countAvailable, availableCategoryCount, values, keys.
  destruct cats as [c1 c2 c3 c4 c5 c6 c7].
  cbn [map filter get verificationIdentity accountMaturity listingCompleteness
       activityRecency engagement communityFeedback behavioralRedFlags].
  simpl in Hr, Hc.
  destruct Hr as [<- | [<- | [<- | []]]]; destruct Hc as [<- | [<- | []]];
    destruct (available c1); split_availability c2 c3 c4 c5 c6 c7;
    (split; [reflexivity|]); (split; [vm_compute; reflexivity|]);
    (split; [vm_compute; reflexivity|]);
    match goal with
    | |- exists kcov k, _ /\ roundedTo2 (?n # 7) _ /\ _ /\ roundedTo2 (exactConfidence _ ?r ?c) _ =>
        let kc := eval vm_compute in ((200 * n + 7) / 14) in
        let k := eval vm_compute in ((100 * n + 42 * r + 28 * c + 7) / 14) in
        exists kc, k
    end;
    vm_compute; repeat split; intros H; discriminate H.
Qed.

Lemma tenths_values :
  tenths 10 = 1.0%float /\ tenths 6 = 0.6%float /\ tenths 3 = 0.3%float
  /\ tenths 7 = 0.7%float.
Proof. vm_compute. repeat split. Qed.

(** X28: the confidence figures are the exact formula rounded to two
    decimals. With n the number of available categories, recency r/10 (r is
    3, 6 or 10) and consistency c/10 (c is 7 or 10), the reported confidence
    is the two-decimal number k/100 nearest to the rational
    0.5*(n/7) + 0.3*(r/10) + 0.2*(c/10), the reported coverage the one
    nearest to n/7, recency and consistency are reported unchanged, and
    availableCategories is n out of 7: computing in binary64 never moves a
    figure to a neighbouring hundredth. *)
Theorem confidence_in_exact_arithmetic
    (sd : SellerData) (rl : list Listing) (cats : Categories) :
  let cm := calculateConfidence sd rl cats in
  let n := availableCategoryCount cats in
  availableCategories cm = n
  /\ totalCategories cm = 7
  /\ exists r c kcov k,
       In r [3; 6; 10] /\ In c [7; 10]
       /\ recencyOf sd rl = tenths r /\ recency cm = tenths r
       /\ consistencyOf sd cats = tenths c /\ consistency cm = tenths c
       /\ coverage cm = hundredths kcov /\ roundedTo2 (n # 7) kcov
       /\ confidence cm = hundredths k /\ roundedTo2 (exactConfidence n r c) k.
Proof.
  intros cm n. unfold cm, calculateConfidence. cbv zeta.
  cbn [availableCategories totalCategories confidence coverage recency consistency].
  destruct tenths_values as (T10 & T6 & T3 & T7).
  assert (Hr : exists r, In r [3; 6; 10] /\ recencyOf sd rl = tenths r).
  { destruct (recency_values sd rl) as [-> | [-> | ->]];
      [exists 10 | exists 6 | exists 3]; simpl; auto. }
  assert (Hc : exists c, In c [7; 10] /\ consistencyOf sd cats = tenths c).
  { destruct (consistency_values sd cats) as [-> | ->];
      [exists 7 | exists 10]; simpl; auto. }
  destruct Hr as (r & Hr & ->). destruct Hc as (c & Hc & ->).
  destruct (confidence_by_count cats r c Hr Hc) as (Hn & Rr & Rc & kcov & k & H1 & H2 & H3 & H4).
  fold n in Hn, H2, H4.
  split; [exact Hn|]. split; [reflexivity|].
  exists r, c, kcov, k. rewrite Rr, Rc. auto 12.
Qed.

Lemma business_language_iff sd :
  hasBusinessIndicators sd = true <-> businessLanguage sd.
Proof.
  unfold hasBusinessIndicators, businessLanguage.
  rewrite orb_true_iff, !includes_iff. split.
  - intros [(a & b & H) | (a & b & H)].
    + exists (lit "we supply"), a, b. split; [left; reflexivity | exact H].
    + exists (lit "we sell"), a, b. split; [right; left; reflexivity | exact H].
  - intros (phrase & a & b & [<- | [<- | []]] & H); [left | right]; exists a, b; exact H.
Qed.

Lemma consistency_levels_differ : 0.7%float <> 1.0%float.
Proof.
  intros H. apply (f_equal (fun x => PrimFloat.ltb x 1)) in H.
  vm_compute in H. discriminate H.
Qed.

(** X29: consistency is 0.7 exactly when the bio, lower-cased, contains
    "we supply" or "we sell" and the Verification & Identity score is 0, and
    1.0 in every other case; it is reported unchanged. *)
Theorem consistency_by_business_language
    (sd : SellerData) (rl : list Listing) (vf : option VeribleFeedback) :
  let cats := scoreCategories sd rl vf in
  (consistencyOf sd cats = 0.7%float
   <-> businessLanguage sd /\ score (verificationIdentity cats) = Some 0)
  /\ (consistencyOf sd cats = 1.0%float
      <-> ~ (businessLanguage sd /\ score (verificationIdentity cats) = Some 0))
  /\ consistency (calculateConfidence sd rl cats) = consistencyOf sd cats.
Proof.
  intros cats.
  pose proof (consistency_scored sd rl vf) as Hc. cbv zeta in Hc. fold cats in Hc.
  pose proof consistency_levels_differ as Hne.
  assert (Hcond : hasBusinessIndicators sd
                  && (toNumber (score (verificationIdentity cats)) =? 0) = true
                  <-> businessLanguage sd /\ score (verificationIdentity cats) = Some 0).
  { rewrite andb_true_iff, business_language_iff, Z.eqb_eq.
    destruct (verification_scored sd) as [s Hs].
    change (verificationIdentity cats) with (calculateVerificationIdentityScore sd).
    rewrite Hs. cbn [toNumber]. split; intros [Hb Hz]; (split; [exact Hb|]); congruence. }
  split; [|split].
  - rewrite Hc, <- Hcond.
    destruct (hasBusinessIndicators sd
              && (toNumber (score (verificationIdentity cats)) =? 0));
      split; intros H; first [reflexivity | discriminate H | congruence].
  - rewrite Hc, <- Hcond.
    destruct (hasBusinessIndicators sd
              && (toNumber (score (verificationIdentity cats)) =? 0)).
    + split; [intros H; congruence | intros H; exfalso; apply H; reflexivity].
    + split; [intros _ H; discriminate H | reflexivity].
  - unfold calculateConfidence. cbv zeta. cbn [consistency].
    destruct (consistency_values sd cats) as [-> | ->]; vm_compute; reflexivity.
Qed.

Lemma consistency_by_business_language_witness :
  consistencyOf unverifiedTrader (scoreCategories unverifiedTrader [] None) = 0.7%float.
Proof.
  apply (proj1 (consistency_by_business_language unverifiedTrader [] None)).
  split; [|vm_compute; reflexivity].
  exists (lit "we sell"), [], (lit " phones and accessories").
  split; [right; left; reflexivity | vm_compute; reflexivity].
Defined.
